(** * AnnotSV: the [VcfFromAnnotsv] converter of variantconvert

    A shallow embedding of
    [share/python3/variantconvert/variantconvert/converters/vcf_from_annotsv.py]
    and the properties of its merge-and-emit pipeline.

    The converter is written against pandas.  The part of pandas it uses is
    modelled here on a small [DataFrame] type: an ordered list of column
    labels and an ordered list of rows, each row carrying its index label
    and its cells.  Python dictionaries keep their insertion order, which
    the INFO field exposes, so they are association lists updated in place.
    Exceptions are values of [exn]; every function that can raise returns a
    [result]. *)

From Stdlib Require Import List String Ascii Bool Arith NArith Lia DecimalString.
From Stdlib Require Import Sorting.Sorted Sorting.Permutation.
From Stdlib Require Import Structures.OrderedTypeEx.
Import ListNotations.

Open Scope string_scope.
Open Scope list_scope.

Set Implicit Arguments.

(* ===================================================================== *)
(** ** Exceptions and results *)
(* ===================================================================== *)

(** A dictionary or pandas key: a string label or an integer index label. *)
Inductive pykey : Type :=
| KStr (s : string)
| KInt (n : nat).

(** The Python exceptions this module can meet. [ValueError] carries the
    message of the [raise] statement; [OtherError] stands for whatever a
    collaborator that is not part of this file raises. *)
Inductive exn : Type :=
| ValueError (msg : string)
| KeyError (key : pykey)
| TypeError
| AttributeError
| IndexError
| UnboundLocalError (var : string)
| OtherError (msg : string).

Inductive result (A : Type) : Type :=
| Ok (a : A)
| Raise (e : exn).

Arguments Ok {A} a.
Arguments Raise {A} e.

Definition bind {A B : Type} (r : result A) (k : A -> result B) : result B :=
  match r with
  | Ok a => k a
  | Raise e => Raise e
  end.

Notation "x <- r ;; k" := (bind r (fun x => k))
  (at level 61, r at next level, right associativity).

Definition is_ok {A : Type} (r : result A) : bool :=
  match r with Ok _ => true | Raise _ => false end.

Definition result_map {A B : Type} (f : A -> B) (r : result A) : result B :=
  match r with
  | Ok a => Ok (f a)
  | Raise e => Raise e
  end.

(** [for x in l: acc = body(acc, x)], stopping at the first exception. *)
Fixpoint for_each {A S : Type} (body : S -> A -> result S) (l : list A) (acc : S)
  : result S :=
  match l with
  | [] => Ok acc
  | x :: l' => acc' <- body acc x ;; for_each body l' acc'
  end.

(* ===================================================================== *)
(** ** Strings *)
(* ===================================================================== *)

Definition tab : string := String (ascii_of_nat 9) "".
Definition newline : string := String (ascii_of_nat 10) "".
Definition dquote : string := String (ascii_of_nat 34) "".
Definition semicolon : ascii := ";"%char.
Definition comma : ascii := ","%char.

(** [sep.join(l)] *)
Fixpoint join (sep : string) (l : list string) : string :=
  match l with
  | [] => ""
  | [x] => x
  | x :: l' => x ++ sep ++ join sep l'
  end.

(** [s.split(c)] for a one-character separator: never empty. *)
Fixpoint split_on (c : ascii) (s : string) : list string :=
  match s with
  | "" => [""]
  | String a s' =>
      if Ascii.eqb a c then "" :: split_on c s'
      else match split_on c s' with
           | [] => [String a ""]
           | w :: ws => String a w :: ws
           end
  end.

(** Number of occurrences of a character. *)
Fixpoint count_char (c : ascii) (s : string) : nat :=
  match s with
  | "" => 0
  | String a s' => (if Ascii.eqb a c then 1 else 0) + count_char c s'
  end.

(** The texts written one after the other. *)
Definition concat_all (l : list string) : string :=
  fold_right String.append "" l.

(** [s.startswith(p)] *)
Fixpoint starts_with (p s : string) : bool :=
  match p, s with
  | "", _ => true
  | String a p', String b s' => Ascii.eqb a b && starts_with p' s'
  | String _ _, "" => false
  end.

(** The start of the header line that declares the INFO key [key]. *)
Definition info_line_start (key : string) : string :=
  ("##INFO=<ID=" ++ key ++ ",")%string.

(** [c in s] for a one-character [c] *)
Definition contains_char (c : ascii) (s : string) : bool :=
  negb (count_char c s =? 0)%nat.

(** [re.sub(old, new, s)] for one-character literals. *)
Fixpoint replace_char (old new : ascii) (s : string) : string :=
  match s with
  | "" => ""
  | String a s' =>
      String (if Ascii.eqb a old then new else a) (replace_char old new s')
  end.

Definition mem (x : string) (l : list string) : bool :=
  existsb (String.eqb x) l.

(** Distinct elements in order of first appearance. *)
Fixpoint first_seen (l : list string) : list string :=
  match l with
  | [] => []
  | x :: l' => x :: filter (fun y => negb (y =? x)) (first_seen l')
  end.

(* ===================================================================== *)
(** ** Sorting *)
(* ===================================================================== *)

Section StableSort.
Variable A : Type.
Variable leb : A -> A -> bool.

Fixpoint insert_sorted (x : A) (l : list A) : list A :=
  match l with
  | [] => [x]
  | y :: l' => if leb x y then x :: y :: l' else y :: insert_sorted x l'
  end.

(** Python's [sorted]: stable, equal keys keep their input order. *)
Fixpoint stable_sort (l : list A) : list A :=
  match l with
  | [] => []
  | x :: l' => insert_sorted x (stable_sort l')
  end.
End StableSort.

(* ===================================================================== *)
(** ** Python dictionaries *)
(* ===================================================================== *)

Section Dict.
Variable V : Type.

Definition dict : Type := list (string * V).

Fixpoint dict_get (d : dict) (k : string) : option V :=
  match d with
  | [] => None
  | (k', v) :: d' => if k' =? k then Some v else dict_get d' k
  end.

(** [d[k] = v]: an existing key keeps its position. *)
Fixpoint dict_set (d : dict) (k : string) (v : V) : dict :=
  match d with
  | [] => [(k, v)]
  | (k', v') :: d' =>
      if k' =? k then (k, v) :: d' else (k', v') :: dict_set d' k v
  end.

(** [d[k]] *)
Definition dict_item (d : dict) (k : string) : result V :=
  match dict_get d k with
  | Some v => Ok v
  | None => Raise (KeyError (KStr k))
  end.

Definition dict_keys (d : dict) : list string := map fst d.
Definition dict_values (d : dict) : list V := map snd d.
End Dict.

(* ===================================================================== *)
(** ** The pandas DataFrame *)
(* ===================================================================== *)

(** A row: its index label and its cells by column label.  Every cell is a
    string ([_build_input_dataframe] ends with [fillna(".")] and
    [astype(str)]).  Cells of labels that are not columns of the frame are
    never read. *)
Record Row : Type := mkRow {
  label : nat;
  cell : string -> string
}.

Record DataFrame : Type := mkDF {
  columns : list string;
  rows : list Row
}.

Definition has_column (df : DataFrame) (c : string) : bool :=
  mem c (columns df).

(** [df.drop([c], axis=1)] *)
Definition drop (df : DataFrame) (c : string) : result DataFrame :=
  if has_column df c
  then Ok (mkDF (filter (fun x => negb (x =? c)) (columns df)) (rows df))
  else Raise (KeyError (KStr c)).

(** [df[c] = v] for a scalar [v]: a new column goes last. *)
Definition set_column (df : DataFrame) (c v : string) : DataFrame :=
  mkDF (if has_column df c then columns df else columns df ++ [c])
       (map (fun r => mkRow (label r)
                            (fun k => if k =? c then v else cell r k))
            (rows df)).

(** [df[c].tolist()] *)
Definition column_values (df : DataFrame) (c : string) : result (list string) :=
  if has_column df c
  then Ok (map (fun r => cell r c) (rows df))
  else Raise (KeyError (KStr c)).

(** [df.loc[:, cols]] for labels taken from [df.columns] *)
Definition select_columns (df : DataFrame) (cols : list string) : DataFrame :=
  mkDF cols (rows df).

(** [df.replace(old, new, regex=True)]: in every cell, not in the labels. *)
Definition replace_regex (old new : ascii) (df : DataFrame) : DataFrame :=
  mkDF (columns df)
       (map (fun r => mkRow (label r)
                            (fun k => replace_char old new (cell r k)))
            (rows df)).

(** [df.index[0]] *)
Definition first_index (df : DataFrame) : result nat :=
  match rows df with
  | [] => Raise IndexError
  | r :: _ => Ok (label r)
  end.

(** [df.loc[lbl, c]] on a frame whose index labels are distinct *)
Definition loc (df : DataFrame) (lbl : nat) (c : string) : result string :=
  match find (fun r => (label r =? lbl)%nat) (rows df) with
  | None => Raise (KeyError (KInt lbl))
  | Some r => if has_column df c then Ok (cell r c)
              else Raise (KeyError (KStr c))
  end.

(** [df[cols].iloc[0].to_list()] *)
Definition first_row_values (df : DataFrame) (cols : list string)
  : result (list string) :=
  match find (fun c => negb (has_column df c)) cols with
  | Some c => Raise (KeyError (KStr c))
  | None =>
      match rows df with
      | [] => Raise IndexError
      | r :: _ => Ok (map (cell r) cols)
      end
  end.

(** [df.iloc[0][c]] *)
Definition first_row_cell (df : DataFrame) (c : string) : result string :=
  match rows df with
  | [] => Raise IndexError
  | r :: _ => if has_column df c then Ok (cell r c)
              else Raise (KeyError (KStr c))
  end.

(** [df.groupby(c, sort=sort)]: one sub-frame per distinct value, rows in
    their order in [df] and with their index labels; keys in string order
    when [sort], in order of first appearance otherwise. *)
Definition groupby (sort : bool) (df : DataFrame) (c : string)
  : result (list (string * DataFrame)) :=
  if has_column df c then
    let seen := first_seen (map (fun r => cell r c) (rows df)) in
    let keys := if sort then stable_sort String.leb seen else seen in
    Ok (map (fun k =>
               (k, mkDF (columns df)
                        (filter (fun r => cell r c =? k) (rows df))))
            keys)
  else Raise (KeyError (KStr c)).

(** [df.reset_index(drop=True)] *)
Fixpoint relabel (n : nat) (rs : list Row) : list Row :=
  match rs with
  | [] => []
  | r :: rs' => mkRow n (cell r) :: relabel (S n) rs'
  end.

Definition reset_index (df : DataFrame) : DataFrame :=
  mkDF (columns df) (relabel 0 (rows df)).

(** [df.iloc[positions]] *)
Fixpoint take_rows (rs : list Row) (positions : list nat) : result (list Row) :=
  match positions with
  | [] => Ok []
  | i :: ps =>
      match nth_error rs i with
      | None => Raise IndexError
      | Some r => rest <- take_rows rs ps ;; Ok (r :: rest)
      end
  end.

Definition iloc (df : DataFrame) (positions : list nat) : result DataFrame :=
  rs <- take_rows (rows df) positions ;; Ok (mkDF (columns df) rs).

(* ===================================================================== *)
(** ** natsort *)
(* ===================================================================== *)

(** The key natsort gives a string under its default algorithm: the
    maximal runs of decimal digits become integers, the text between them
    stays text, and a key that would start with an integer gets an empty
    text in front, so that text and integers alternate from a text. *)
Inductive chunk : Type :=
| Text (s : string)
| Num (n : N).

Definition is_digit (c : ascii) : bool :=
  let n := N_of_ascii c in ((48 <=? n) && (n <=? 57))%N.

Fixpoint runs (s : string) : list (bool * string) :=
  match s with
  | "" => []
  | String c s' =>
      let d := is_digit c in
      match runs s' with
      | (d', r) :: rest =>
          if Bool.eqb d d' then (d, String c r) :: rest
          else (d, String c "") :: (d', r) :: rest
      | [] => [(d, String c "")]
      end
  end.

Fixpoint int_of_digits (acc : N) (s : string) : N :=
  match s with
  | "" => acc
  | String c s' => int_of_digits (acc * 10 + (N_of_ascii c - 48))%N s'
  end.

Definition chunk_of_run (r : bool * string) : chunk :=
  if fst r then Num (int_of_digits 0 (snd r)) else Text (snd r).

Definition natsort_key (s : string) : list chunk :=
  let rs := runs s in
  match rs with
  | (true, _) :: _ => Text "" :: map chunk_of_run rs
  | _ => map chunk_of_run rs
  end.

Definition chunk_compare (a b : chunk) : comparison :=
  match a, b with
  | Text x, Text y => String.compare x y
  | Num x, Num y => N.compare x y
  | Text _, Num _ => Lt
  | Num _, Text _ => Gt
  end.

(** Python's comparison of tuples. *)
Fixpoint key_compare (k1 k2 : list chunk) : comparison :=
  match k1, k2 with
  | [], [] => Eq
  | [], _ :: _ => Lt
  | _ :: _, [] => Gt
  | a :: k1', b :: k2' =>
      match chunk_compare a b with
      | Eq => key_compare k1' k2'
      | c => c
      end
  end.

Definition natsort_leb (a b : string) : bool :=
  match key_compare (natsort_key a) (natsort_key b) with
  | Gt => false
  | _ => true
  end.

(** [index_natsorted(vals)]: the positions of [vals] in natural order. *)
Definition index_natsorted (vals : list string) : list nat :=
  map fst
      (stable_sort (fun a b : nat * string => natsort_leb (snd a) (snd b))
                   (combine (seq 0 (List.length vals)) vals)).

(* ===================================================================== *)
(** ** The configuration *)
(* ===================================================================== *)

(** The JSON values found under [config["VCF_COLUMNS"]]: a column label,
    a helper-function pattern (a list), or the object of the INFO roles. *)
#[warning="-register-all"]
Inductive json : Type :=
| JStr (s : string)
| JList (l : list string)
| JObj (o : list (string * json)).

Record Config : Type := mkConfig {
  GENERAL_mode : string;
  GENERAL_origin : string;
  GENERAL_default_genotype : string;
  VCF_COLUMNS : dict json;
  COLUMNS_DESCRIPTION : dict (dict (dict string));
  GENOME_vcf_header : list string
}.

(** [config["VCF_COLUMNS"][role]] *)
Definition vcf_columns (cfg : Config) (role : string) : result json :=
  dict_item (VCF_COLUMNS cfg) role.

(** [config["VCF_COLUMNS"]["INFO"][role]] *)
Definition info_columns (cfg : Config) (role : string) : result json :=
  v <- vcf_columns cfg "INFO" ;;
  match v with
  | JObj o => dict_item o role
  | _ => Raise TypeError
  end.

(** A configuration value used as one column label.  pandas takes a list
    there as a selection of several columns, which no path of this
    converter supports: it is a [TypeError] here. *)
Definition as_label (v : json) : result string :=
  match v with
  | JStr s => Ok s
  | _ => Raise TypeError
  end.

(** [v == s] for a string literal [s] *)
Definition json_is (v : json) (s : string) : bool :=
  match v with
  | JStr x => x =? s
  | _ => false
  end.

(* ===================================================================== *)
(** ** The converter *)
(* ===================================================================== *)

Definition msg_samples : string :=
  "When using an AnnotSV file generated from a VCF, all samples in the samples column are expected to have their own column in the input AnnotSV file".
Definition msg_sv_type : string :=
  ("SV_type column is required to turn an AnnotSV file into a VCF. Check if SV_type col is set in config or missing in your file."
   ++ newline
   ++ "If you generated your AnnotSV file from a bed, AnnotSV option -svtBEDcol is required.")%string.
Definition msg_mode : string :=
  "Unexpected value in json config['GENERAL']['mode']: only 'full&split' mode is implemented yet.".
Definition msg_annotation_type : string :=
  "Annotation type is assumed to be only 'full' or 'split'".
Definition msg_several_full : string :=
  "Each variant is assumed to only have one single line of 'full' annotation".
Definition msg_info_helper : string :=
  "HELPER_FUNCTIONS for INFO fields are not implemented yet for AnnotSV converter".
Definition warn_no_annotation_mode : string :=
  "Input does not include AnnotSV's 'Annotation_mode' column. This is necessary to know how to deal with annotations. The INFO field will be empty.".

Definition main_roles : list string :=
  ["#CHROM"; "POS"; "ID"; "REF"; "ALT"; "QUAL"; "FILTER"].

Definition base_vcf_cols : list string :=
  ["ID"; "REF"; "ALT"; "QUAL"; "FILTER"].

(** Lines 116-119: the columns of a group without the base VCF columns. *)
Definition annotation_columns (df : DataFrame) : list string :=
  filter (fun c => negb (mem c base_vcf_cols)) (columns df).

(** The rows of a group whose cell in the column [mode_label] is [tag]. *)
Definition rows_tagged (mode_label tag : string) (df : DataFrame) : list Row :=
  filter (fun r => cell r mode_label =? tag) (rows df).

(** The value of the full row for a field, or "." without a full row. *)
Definition full_value (rds : string -> string) (mode_label : string)
           (df : DataFrame) (ann : string) : string :=
  match rows_tagged mode_label "full" df with
  | r :: _ => rds (cell r ann)
  | [] => "."
  end.

(** What C1 states for a field: the value of the full row, then the value
    of every split row in the order of the rows, joined with "|". *)
Definition merged_value (rds : string -> string) (mode_label : string)
           (df : DataFrame) (ann : string) : string :=
  join "|" (full_value rds mode_label df ann
            :: map (fun r => rds (cell r ann)) (rows_tagged mode_label "split" df)).

(** A helper function of the registry: called on the cells it names. *)
Definition helper_func : Type := list string -> result string.

Section VcfFromAnnotsv.

(** The collaborators that are not in this file. *)

(** [commons.remove_decimal_or_strip] *)
Variable remove_decimal_or_strip : string -> string.
(** [commons.is_helper_func] *)
Variable is_helper_func : json -> result bool.
(** [HelperFunctions(config)] and the [get] of the object it builds *)
Variable HelperFunctions : Config -> result (string -> result helper_func).
(** [commons.create_vcf_header(input_path, config, sample_list)] *)
Variable create_vcf_header :
  string -> Config -> list string -> result (list string).
(** [pd.read_csv(filepath, skiprows=..., sep="\t")] followed by
    [sort_values] on the chromosome and position columns, [fillna(".")]
    and [astype(str)]: the table in that order, its index labels those
    of the file. *)
Variable read_csv_sorted : Config -> string -> result DataFrame.

Variable config : Config.

Definition _build_input_dataframe (filepath : string) : result DataFrame :=
  df <- read_csv_sorted config filepath ;;
  Ok (reset_index df).

(** The order of [list(set(sample_list))] is not specified by Python;
    the order of first appearance stands for it. *)
Definition _get_sample_list (input_df : DataFrame) : result (list string) :=
  sample <- vcf_columns config "SAMPLE" ;;
  sample <- as_label sample ;;
  samples_col <- column_values input_df sample ;;
  let sample_list :=
    first_seen
      (flat_map (fun c => if contains_char comma c then split_on comma c
                          else [c])
                samples_col) in
  format <- vcf_columns config "FORMAT" ;;
  if json_is format "FORMAT" then
    if forallb (has_column input_df) sample_list then Ok sample_list
    else Raise (ValueError msg_samples)
  else Ok sample_list.

(** Returns the labels of the seven main columns and [self.input_df],
    to which it adds a column of "." for every role without a label. *)
Definition _get_main_vcf_cols (input_df : DataFrame)
  : result (list string * DataFrame) :=
  for_each
    (fun (st : list string * DataFrame) col =>
       config_col <- vcf_columns config col ;;
       match config_col with
       | JStr "" => Ok (fst st ++ [col], set_column (snd st) col ".")
       | JStr s => Ok (fst st ++ [s], snd st)
       | _ => Ok (fst st ++ [col], set_column (snd st) col ".")
       end)
    main_roles ([], input_df).

(** [self.input_df.drop([col], axis=1)] for an element of
    [columns_to_drop].  The values of the SAMPLE, FORMAT and INFO roles
    are appended as the configuration has them: one that is not a string
    (a helper-function pattern) is the label of no column, and the drop
    fails with the KeyError of a label that is not found. *)
Definition drop_label (df : DataFrame) (col : json) : result DataFrame :=
  match col with
  | JStr c => drop df c
  | _ => Raise (KeyError (KStr "not found in axis"))
  end.

(** The loop of lines 82-86: every [drop] starts again from
    [self.input_df] and a KeyError is passed over, so [df] is the input
    without the last element of [columns_to_drop] that is one of its
    labels, and is unbound when it has none. *)
Definition drop_loop (input_df : DataFrame) (columns_to_drop : list json)
  : option DataFrame :=
  fold_left
    (fun df col =>
       match drop_label input_df col with
       | Ok d => Some d
       | Raise _ => df
       end)
    columns_to_drop None.

Definition _build_input_annot_df (input_df : DataFrame)
           (sample_list main_vcf_cols : list string) : result DataFrame :=
  sample <- vcf_columns config "SAMPLE" ;;
  format <- vcf_columns config "FORMAT" ;;
  info <- info_columns config "INFO" ;;
  let columns_to_drop :=
    map JStr sample_list ++ map JStr main_vcf_cols ++ [sample; format; info] in
  match drop_loop input_df columns_to_drop with
  | None => Raise (UnboundLocalError "df")
  | Some df =>
      let df := replace_regex semicolon comma df in
      sv_type <- info_columns config "SV_type" ;;
      if json_is sv_type "" then Raise (ValueError msg_sv_type)
      else
        sv_type <- as_label sv_type ;;
        if negb (has_column df sv_type) then Raise (ValueError msg_sv_type)
        else Ok df
  end.

(** The body of the loop over [dfs["full"].columns], line 145. *)
Definition seed_from_full (df full : DataFrame)
           (annots : dict string) (ann : string) : result (dict string) :=
  i <- first_index df ;;
  v <- loc full i ann ;;
  Ok (dict_set annots ann (remove_decimal_or_strip v)).

(** The body of the loop over [dfs["split"].columns], lines 151-170. *)
Definition merge_split (mode_col : json) (split : DataFrame)
           (annots : dict string) (ann : string) : result (dict string) :=
  if json_is mode_col ann then
    Ok (dict_set annots ann (GENERAL_mode config))
  else
    vals <- column_values split ann ;;
    let transform := map remove_decimal_or_strip vals in
    current <- dict_item annots ann ;;
    Ok (dict_set annots ann (join "|" (current :: transform))).

(** The body of the loop over the groups of the row types, lines 123-126. *)
Definition collect_type (dfs : dict DataFrame) (g : string * DataFrame)
  : result (dict DataFrame) :=
  if negb (mem (fst g) ["full"; "split"]) then
    Raise (ValueError msg_annotation_type)
  else Ok (dict_set dfs (fst g) (snd g)).

(** Returns the warnings logged and the merged annotations. *)
Definition _merge_full_and_split (df : DataFrame)
  : result (list string * dict string) :=
  if negb (GENERAL_mode config =? "full&split") then
    Raise (ValueError msg_mode)
  else
    let df := select_columns df (annotation_columns df) in
    mode_col <- info_columns config "Annotation_mode" ;;
    mode_label <- as_label mode_col ;;
    groups <- groupby true df mode_label ;;
    dfs <- for_each collect_type groups [] ;;
    match dict_get dfs "full" with
    | None =>
        match dict_get dfs "split" with
        | None => Ok ([warn_no_annotation_mode], [])
        | Some split =>
            let annots :=
              fold_left (fun annots ann => dict_set annots ann ".")
                        (columns split) [] in
            annots <- for_each (merge_split mode_col split)
                               (columns split) annots ;;
            Ok ([], annots)
        end
    | Some full =>
        if (1 <? List.length (rows full))%nat then
          Raise (ValueError msg_several_full)
        else
          annots <- for_each (seed_from_full df full) (columns full) [] ;;
          match dict_get dfs "split" with
          | None => Ok ([], annots)
          | Some split =>
              annots <- for_each (merge_split mode_col split)
                                 (columns split) annots ;;
              Ok ([], annots)
          end
    end.

(** Returns the warnings logged and [annots_dic]. *)
Definition _build_info_dic (input_df : DataFrame)
           (sample_list main_vcf_cols : list string)
  : result (list string * dict (dict string)) :=
  input_annot_df <- _build_input_annot_df input_df sample_list main_vcf_cols ;;
  id_col <- info_columns config "AnnotSV_ID" ;;
  id_col <- as_label id_col ;;
  groups <- groupby true input_annot_df id_col ;;
  for_each
    (fun (st : list string * dict (dict string)) (g : string * DataFrame) =>
       merged <- _merge_full_and_split (snd g) ;;
       Ok (fst st ++ fst merged, dict_set (snd st) (fst g) (snd merged)))
    groups ([], []).

(** Lines 327-330: the keys of all merged annotations, as a set. *)
Definition info_keys_of (info_dic : dict (dict string)) : list string :=
  first_seen (flat_map (fun e => dict_keys (snd e)) info_dic).

(** [config_val[1]] *)
Definition item_1 (v : json) : result string :=
  match v with
  | JStr s => match String.get 1 s with
              | Some c => Ok (String c "")
              | None => Raise IndexError
              end
  | JList l => match nth_error l 1 with
               | Some x => Ok x
               | None => Raise IndexError
               end
  | JObj _ => Raise (KeyError (KInt 1))
  end.

(** [config_val[2:]], as the sequence the comprehension iterates over *)
Definition slice_2 (v : json) : result (list string) :=
  match v with
  | JStr s =>
      Ok (map (fun c => String c "")
              (list_ascii_of_string (substring 2 (String.length s - 2) s)))
  | JList l => Ok (skipn 2 l)
  | JObj _ => Raise TypeError
  end.

(** One turn of the loop over [config["VCF_COLUMNS"].items()],
    lines 346-359, on the frame of the current group. *)
Definition fill_column (helper : string -> result helper_func)
           (df_variant : DataFrame) (item : string * json)
  : result DataFrame :=
  let config_key := fst item in
  let config_val := snd item in
  if config_key =? "INFO" then
    match config_val with
    | JObj o =>
        _ <- for_each
               (fun (_ : unit) (info_col : string * json) =>
                  b <- is_helper_func (snd info_col) ;;
                  if b : bool then Raise (ValueError msg_info_helper)
                  else Ok tt)
               o tt ;;
        Ok df_variant
    | _ => Raise AttributeError
    end
  else if (config_key =? "FILTER") && json_is config_val "" then
    Ok (set_column df_variant config_key "PASS")
  else
    b <- is_helper_func config_val ;;
    if b : bool then
      name <- item_1 config_val ;;
      func <- helper name ;;
      labels <- slice_2 config_val ;;
      args <- for_each
                (fun (args : list string) c =>
                   v <- first_row_cell df_variant c ;; Ok (args ++ [v]))
                labels [] ;;
      result <- func args ;;
      Ok (set_column df_variant config_key result)
    else Ok df_variant.

(** [";".join([k + "=" + v for k, v in annots.items()])] *)
Definition info_field (annots : dict string) : string :=
  join ";" (map (fun kv : string * string => (fst kv ++ "=" ++ snd kv)%string) annots).

(** Lines 365-372 *)
Definition sample_columns (df_variant : DataFrame) (sample_list : list string)
  : result string :=
  format <- vcf_columns config "FORMAT" ;;
  if negb (json_is format "") then
    format <- as_label format ;;
    vals <- first_row_values df_variant (format :: sample_list) ;;
    Ok (join tab vals)
  else
    Ok ("GT" ++ tab ++ GENERAL_default_genotype config)%string.

(** The body of the loop over the groups, lines 345-374: the outcome and
    the text written to the file, which is partial when it raises. *)
Definition emit_group (helper : string -> result helper_func)
           (sample_list main_vcf_cols : list string)
           (info_dic : dict (dict string))
           (g : string * DataFrame) : result unit * string :=
  match for_each (fill_column helper) (VCF_COLUMNS config) (snd g) with
  | Raise e => (Raise e, "")
  | Ok df_variant =>
      match first_row_values df_variant main_vcf_cols with
      | Raise e => (Raise e, "")
      | Ok main =>
          let w1 := (join tab main ++ tab)%string in
          match dict_item info_dic (fst g) with
          | Raise e => (Raise e, w1)
          | Ok annots =>
              let w2 := (w1 ++ info_field annots ++ tab)%string in
              match sample_columns df_variant sample_list with
              | Raise e => (Raise e, w2)
              | Ok sample_cols => (Ok tt, (w2 ++ sample_cols ++ newline)%string)
              end
          end
      end
  end.

Fixpoint emit_groups (helper : string -> result helper_func)
         (sample_list main_vcf_cols : list string)
         (info_dic : dict (dict string))
         (groups : list (string * DataFrame)) : result unit * string :=
  match groups with
  | [] => (Ok tt, "")
  | g :: gs =>
      match emit_group helper sample_list main_vcf_cols info_dic g with
      | (Raise e, w) => (Raise e, w)
      | (Ok _, w) =>
          let rest := emit_groups helper sample_list main_vcf_cols info_dic gs in
          (fst rest, (w ++ snd rest)%string)
      end
  end.

(** Lines 338-343: the groups in the order of the emission. *)
Definition emission_groups (input_df : DataFrame)
  : result (list (string * DataFrame)) :=
  id_col <- info_columns config "AnnotSV_ID" ;;
  chrom <- vcf_columns config "#CHROM" ;;
  chrom <- as_label chrom ;;
  chroms <- column_values input_df chrom ;;
  input_df <- iloc input_df (index_natsorted chroms) ;;
  id_col <- as_label id_col ;;
  groupby false input_df id_col.

(** What [convert] has at hand when it opens the output file. *)
Record Prepared : Type := mkPrepared {
  p_helper : string -> result helper_func;
  p_input_df : DataFrame;
  p_sample_list : list string;
  p_main_vcf_cols : list string;
  p_info_dic : dict (dict string);
  p_info_keys : list string
}.

(** Lines 319-330 *)
Definition prepare (tsv : string) : result Prepared :=
  helper <- HelperFunctions config ;;
  input_df <- _build_input_dataframe tsv ;;
  sample_list <- _get_sample_list input_df ;;
  main <- _get_main_vcf_cols input_df ;;
  info <- _build_info_dic (snd main) sample_list (fst main) ;;
  Ok (mkPrepared helper (snd main) sample_list (fst main) (snd info)
                 (info_keys_of (snd info))).

(** [for l in vcf_header: vcf.write(l + "\n")] *)
Definition header_text (vcf_header : list string) : string :=
  concat_all (map (fun l : string => (l ++ newline)%string) vcf_header).

(** [convert(tsv, output_path)]: the outcome and the content of the
    output file, [None] when it was never opened. *)
Definition convert (tsv : string) : result unit * option string :=
  match prepare tsv with
  | Raise e => (Raise e, None)
  | Ok p =>
      match create_vcf_header tsv config (p_sample_list p) with
      | Raise e => (Raise e, Some "")
      | Ok vcf_header =>
          let head := header_text vcf_header in
          match emission_groups (p_input_df p) with
          | Raise e => (Raise e, Some head)
          | Ok groups =>
              let out := emit_groups (p_helper p) (p_sample_list p)
                                     (p_main_vcf_cols p) (p_info_dic p)
                                     groups in
              (fst out, Some (head ++ snd out)%string)
          end
      end
  end.

End VcfFromAnnotsv.


(** [cells] with the value [v] under the label [k]. *)
Definition set_cell (cells : string -> string) (k v : string) : string -> string :=
  fun c => if c =? k then v else cells c.

(** What the emission does to the first row of a group for one role of
    the configuration: PASS under FILTER when the FILTER role has no
    column, the result of the helper function under the name of the role
    when the role has a helper-function pattern, the function being
    called on the cells that the pattern names, as they are then. *)
Definition complete_cells (is_helper_func : json -> result bool)
           (helper : string -> result helper_func)
           (cells : string -> string) (item : string * json)
  : result (string -> string) :=
  if fst item =? "INFO" then Ok cells
  else if (fst item =? "FILTER") && json_is (snd item) "" then
    Ok (set_cell cells (fst item) "PASS")
  else
    b <- is_helper_func (snd item) ;;
    if b : bool then
      name <- item_1 (snd item) ;;
      func <- helper name ;;
      labels <- slice_2 (snd item) ;;
      result <- func (map cells labels) ;;
      Ok (set_cell cells (fst item) result)
    else Ok cells.

(** The first row of a group as the emission completes it, role after
    role in the order of the configuration. *)
Definition completed_row (is_helper_func : json -> result bool)
           (helper : string -> result helper_func) (config : Config)
           (cells : string -> string) : result (string -> string) :=
  for_each (complete_cells is_helper_func helper) (VCF_COLUMNS config) cells.

(** The MergedAnnotation of the variant [variant_id]: what
    [_merge_full_and_split] returns for the rows of the annotation frame,
    the table with its semicolons replaced, that bear this identifier. *)
Definition merged_annotation (remove_decimal_or_strip : string -> string)
           (config : Config) (p : Prepared) (variant_id : string)
           (annots : dict string) : Prop :=
  exists id_col annot_df warns,
    info_columns config "AnnotSV_ID" = Ok (JStr id_col)
    /\ _build_input_annot_df config (p_input_df p) (p_sample_list p)
                             (p_main_vcf_cols p) = Ok annot_df
    /\ rows annot_df = rows (replace_regex semicolon comma (p_input_df p))
    /\ _merge_full_and_split remove_decimal_or_strip config
         (mkDF (columns annot_df)
               (filter (fun r => cell r id_col =? variant_id) (rows annot_df)))
       = Ok (warns, annots).

(** What C5 states of the line of a group, with seven main columns: the
    cells of the first row of the group in the main columns, the INFO
    field of its merged annotation, and the FORMAT and sample cells of
    that row or the GT field with the default genotype, joined by tabs.
    The row is the first row of the group as the emission completed it. *)
Definition data_line (remove_decimal_or_strip : string -> string)
           (is_helper_func : json -> result bool) (config : Config)
           (p : Prepared) (g : string * DataFrame) (line : string) : Prop :=
  exists first rest filled annots sample_cols,
    rows (snd g) = first :: rest
    /\ completed_row is_helper_func (p_helper p) config (cell first) = Ok filled
    /\ (forall c, ~ In c (dict_keys (VCF_COLUMNS config)) -> filled c = cell first c)
    /\ dict_get (p_info_dic p) (fst g) = Some annots
    /\ merged_annotation remove_decimal_or_strip config p (fst g) annots
    /\ match vcf_columns config "FORMAT" with
       | Ok (JStr "") => sample_cols = ["GT"; GENERAL_default_genotype config]
       | Ok (JStr format) =>
           sample_cols = map filled (format :: p_sample_list p)
       | _ => False
       end
    /\ line = (join tab (map filled (p_main_vcf_cols p)
                         ++ [info_field annots] ++ sample_cols)
               ++ newline)%string.

(* ===================================================================== *)
(** ** The static header builder [_create_vcf_header] *)
(* ===================================================================== *)

Section StaticHeader.

(** [time.strftime("%d/%m/%Y")] and [os.path.abspath] *)
Variable today : string.
Variable abspath : string -> string.

(** Lines 215-235: a header line with a description only. *)
Definition described_line (config : Config) (section key : string)
  : result string :=
  descriptions <- dict_item (COLUMNS_DESCRIPTION config) section ;;
  match dict_get descriptions key with
  | Some info_config =>
      description <- dict_item info_config "Description" ;;
      Ok ("##" ++ section ++ "=<ID=" ++ key ++ ",Description=" ++ dquote
               ++ description ++ dquote ++ ">")%string
  | None =>
      Ok ("##" ++ section ++ "=<ID=" ++ key ++ ",Description=" ++ dquote
               ++ "Imported from " ++ GENERAL_origin config ++ dquote ++ ">")%string
  end.

(** Lines 247-269: a header line with a type and a description. *)
Definition typed_line (config : Config) (section key : string)
  : result string :=
  descriptions <- dict_item (COLUMNS_DESCRIPTION config) section ;;
  match dict_get descriptions key with
  | Some info_config =>
      type <- dict_item info_config "Type" ;;
      description <- dict_item info_config "Description" ;;
      Ok ("##" ++ section ++ "=<ID=" ++ key ++ ",Number=.,Type=" ++ type
               ++ ",Description=" ++ dquote ++ description ++ dquote ++ ">")%string
  | None =>
      Ok ("##" ++ section ++ "=<ID=" ++ key
               ++ ",Number=.,Type=String,Description=" ++ dquote
               ++ "Imported from " ++ GENERAL_origin config ++ dquote ++ ">")%string
  end.

(** [for key in keys: header.append(line(section, key))] *)
Definition append_lines (line : string -> result string)
           (keys : list string) (header : list string)
  : result (list string) :=
  for_each (fun header key => l <- line key ;; Ok (header ++ [l])) keys header.

(** [info_keys] is a Python set: its elements in the order Python
    iterates over them. *)
Definition _create_vcf_header (input_path : string) (config : Config)
           (sample_list : list string) (input_df : DataFrame)
           (info_keys : list string) : result (list string) :=
  let header :=
    ["##fileformat=VCFv4.2";
     "##fileDate=" ++ today;
     "##source=" ++ GENERAL_origin config;
     "##InputFile=" ++ abspath input_path]%string in
  filter_col <- vcf_columns config "FILTER" ;;
  filter_col <- as_label filter_col ;;
  header <-
    (if has_column input_df filter_col then
       filters <- column_values input_df filter_col ;;
       Ok (header ++
           map (fun f => "##FILTER=<ID=" ++ f ++ ",Description=" ++ dquote ++ "."
                         ++ dquote ++ ">")%string
               (first_seen filters))
     else
       Ok (header ++ ["##FILTER=<ID=PASS,Description=" ++ dquote
                       ++ "Passed filter" ++ dquote ++ ">"]%string)) ;;
  ref <- vcf_columns config "REF" ;;
  ref <- as_label ref ;;
  refs <- column_values input_df ref ;;
  alt <- vcf_columns config "ALT" ;;
  alt <- as_label alt ;;
  alts <- column_values input_df alt ;;
  header <- append_lines (described_line config "REF") (first_seen refs) header ;;
  header <- append_lines (described_line config "ALT") (first_seen alts) header ;;
  format <- vcf_columns config "FORMAT" ;;
  format <- as_label format ;;
  formats <- column_values input_df format ;;
  let format_keys := first_seen (flat_map (split_on ":"%char) formats) in
  header <- append_lines (typed_line config "INFO") info_keys header ;;
  header <- append_lines (typed_line config "FORMAT") format_keys header ;;
  Ok (header ++ GENOME_vcf_header config ++
      [join tab (["#CHROM"; "POS"; "ID"; "REF"; "ALT"; "QUAL"; "FILTER";
                  "INFO"; "FORMAT"] ++ sample_list)]).

End StaticHeader.

(* ===================================================================== *)
(** ** Collaborators, configurations and tables of the examples *)
(* ===================================================================== *)

(** [s] without the [c]s it ends with. *)
Fixpoint strip_trailing (c : ascii) (s : string) : string :=
  match s with
  | "" => ""
  | String a s' =>
      match strip_trailing c s' with
      | "" => if Ascii.eqb a c then "" else String a ""
      | t => String a t
      end
  end.

Fixpoint all_digits (s : string) : bool :=
  match s with
  | "" => true
  | String a s' => is_digit a && all_digits s'
  end.

(** Digits, a point, digits: what a float of the table looks like. *)
Definition looks_decimal (s : string) : bool :=
  match split_on "."%char s with
  | [int; frac] => negb (int =? "") && all_digits int && all_digits frac
  | _ => false
  end.

(** Modelled from the spec: [commons.remove_decimal_or_strip] is not among
    the sources.  The spec has it strip the spurious trailing zeros and
    decimal point of a numeric-looking string and pass any other value
    through unchanged. *)
Definition remove_decimal_or_strip_model (s : string) : string :=
  if looks_decimal s
  then strip_trailing "."%char (strip_trailing "0"%char s)
  else s.

(** Modelled from the spec: [commons.is_helper_func] is not among the
    sources.  The spec has a role of the configuration map to a column
    name or to a helper-function descriptor; [convert] reads the name of
    the function at index 1 of the descriptor and its argument columns
    from index 2, so a descriptor is a list, here one that starts with the
    word HELPER_FUNCTION. *)
Definition is_helper_func_model (v : json) : result bool :=
  match v with
  | JList ("HELPER_FUNCTION" :: _) => Ok true
  | JList _ => Raise (ValueError "This config file value should be a String or a HELPER_FUNCTION pattern")
  | _ => Ok false
  end.

(** A registry without any helper function. *)
Definition no_helper_functions (_ : Config) : result (string -> result helper_func) :=
  Ok (fun name => Raise (OtherError name)).

(** A header builder that knows what [convert] gives it: the path, the
    configuration and the sample list. *)
Definition fixed_header (input_path : string) (config : Config)
           (sample_list : list string) : result (list string) :=
  Ok (["##fileformat=VCFv4.2"; ("##source=" ++ GENERAL_origin config)%string]
      ++ GENOME_vcf_header config
      ++ [join tab (["#CHROM"; "POS"; "ID"; "REF"; "ALT"; "QUAL"; "FILTER";
                     "INFO"; "FORMAT"] ++ sample_list)]).

(** The cells of a row, "." where the table has nothing. *)
Definition row_of (cells : dict string) : string -> string :=
  fun c => match dict_get cells c with
           | Some v => v
           | None => "."
           end.

(** The table once read and sorted. *)
Definition table_reader (df : DataFrame) (_ : Config) (_ : string)
  : result DataFrame := Ok df.

Definition info_roles (info sv_type : string) : json :=
  JObj [("INFO", JStr info); ("SV_type", JStr sv_type);
        ("Annotation_mode", JStr "Annotation_mode");
        ("AnnotSV_ID", JStr "AnnotSV_ID")].

(** An AnnotSV file made from a BED file: no REF, ALT, FILTER, FORMAT. *)
Definition config_bed : Config :=
  mkConfig "full&split" "AnnotSV" "0/1"
    [("#CHROM", JStr "SV_chrom"); ("POS", JStr "SV_start"); ("ID", JStr "");
     ("REF", JStr ""); ("ALT", JStr ""); ("QUAL", JStr ""); ("FILTER", JStr "");
     ("FORMAT", JStr ""); ("SAMPLE", JStr "Samples_ID");
     ("INFO", info_roles "" "SV_type")]
    [("INFO", [("SV_type", [("Type", "String"); ("Description", "Type of the SV")])])]
    ["##contig=<ID=chr1>"].

(** An AnnotSV file made from a VCF file. *)
Definition config_vcf : Config :=
  mkConfig "full&split" "AnnotSV" "0/1"
    [("#CHROM", JStr "SV_chrom"); ("POS", JStr "SV_start"); ("ID", JStr "ID");
     ("REF", JStr "REF"); ("ALT", JStr "ALT"); ("QUAL", JStr "QUAL");
     ("FILTER", JStr "FILTER"); ("FORMAT", JStr "FORMAT");
     ("SAMPLE", JStr "Samples_ID"); ("INFO", info_roles "INFO" "SV_type")]
    [("INFO", [("SV_type", [("Type", "String"); ("Description", "Type of the SV")])])]
    ["##contig=<ID=chr1>"].

Definition bed_columns : list string :=
  ["AnnotSV_ID"; "SV_chrom"; "SV_start"; "SV_type"; "Samples_ID";
   "Annotation_mode"; "Gene_name"].

Definition bed_row (id chrom pos mode gene : string) : string -> string :=
  row_of [("AnnotSV_ID", id); ("SV_chrom", chrom); ("SV_start", pos);
          ("SV_type", "DEL"); ("Samples_ID", "S1"); ("Annotation_mode", mode);
          ("Gene_name", gene)].

(** Two variants, the one on chr10 first: the order in which the plain
    sort of the loader leaves them. *)
Definition table_two_chromosomes : DataFrame :=
  mkDF bed_columns
       [mkRow 0 (bed_row "V1" "chr10" "100" "full" "BRCA1");
        mkRow 1 (bed_row "V1" "chr10" "100" "split" "BRCA1_tx2");
        mkRow 2 (bed_row "V2" "chr2" "500" "full" "TP53")].

(** The header that [fixed_header] gives the tables of one sample. *)
Definition bed_header : string :=
  header_text ["##fileformat=VCFv4.2"; "##source=AnnotSV"; "##contig=<ID=chr1>";
               join tab ["#CHROM"; "POS"; "ID"; "REF"; "ALT"; "QUAL";
                         "FILTER"; "INFO"; "FORMAT"; "S1"]].


(** A group with two rows tagged full. *)
Definition group_two_full : DataFrame :=
  mkDF bed_columns
       [mkRow 0 (bed_row "V1" "chr1" "100" "full" "BRCA1");
        mkRow 1 (bed_row "V1" "chr1" "100" "full" "BRCA2")].

(** A group of one full row and two split rows that repeat its gene. *)
Definition group_full_first : DataFrame :=
  mkDF bed_columns
       [mkRow 0 (bed_row "V1" "chr1" "100" "full" "BRCA1");
        mkRow 1 (bed_row "V1" "chr1" "100" "split" "BRCA1");
        mkRow 2 (bed_row "V1" "chr1" "100" "split" "BRCA1")].

(** The same variant with a split row written before the full row. *)
Definition group_split_first : DataFrame :=
  mkDF bed_columns
       [mkRow 0 (bed_row "V1" "chr1" "100" "split" "BRCA1_tx2");
        mkRow 1 (bed_row "V1" "chr1" "100" "full" "BRCA1")].

(** A table without the column of the row types. *)
Definition table_without_mode : DataFrame :=
  mkDF ["AnnotSV_ID"; "SV_chrom"; "SV_start"; "SV_type"; "Samples_ID"; "Gene_name"]
       [mkRow 0 (row_of [("AnnotSV_ID", "V1"); ("SV_chrom", "chr1");
                         ("SV_start", "100"); ("SV_type", "DEL");
                         ("Samples_ID", "S1"); ("Gene_name", "BRCA1")])].

(** An AnnotSV table made from a VCF file of one sample. *)
Definition vcf_columns_list : list string :=
  ["AnnotSV_ID"; "SV_chrom"; "SV_start"; "ID"; "REF"; "ALT"; "QUAL"; "FILTER";
   "INFO"; "FORMAT"; "S1"; "Samples_ID"; "SV_type"; "Annotation_mode"; "Gene_name"].

Definition table_from_vcf : DataFrame :=
  mkDF vcf_columns_list
       [mkRow 0 (row_of [("AnnotSV_ID", "V1"); ("SV_chrom", "chr1");
                         ("SV_start", "100"); ("ID", "sv1"); ("REF", "N");
                         ("ALT", "<DEL>"); ("QUAL", "50"); ("FILTER", "PASS");
                         ("INFO", "END=200"); ("FORMAT", "GT"); ("S1", "0/1");
                         ("Samples_ID", "S1"); ("SV_type", "DEL");
                         ("Annotation_mode", "full"); ("Gene_name", "BRCA1")])].

(** A table whose FORMAT column has another name, FMT, and whose sample
    S1 has no column. *)
Definition config_fmt : Config :=
  mkConfig "full&split" "AnnotSV" "0/1"
    [("#CHROM", JStr "SV_chrom"); ("POS", JStr "SV_start"); ("ID", JStr "");
     ("REF", JStr ""); ("ALT", JStr ""); ("QUAL", JStr ""); ("FILTER", JStr "");
     ("FORMAT", JStr "FMT"); ("SAMPLE", JStr "Samples_ID");
     ("INFO", info_roles "" "SV_type")]
    [] [].

Definition table_fmt : DataFrame :=
  mkDF ["AnnotSV_ID"; "SV_chrom"; "SV_start"; "SV_type"; "FMT"; "Samples_ID";
        "Annotation_mode"]
       [mkRow 0 (row_of [("AnnotSV_ID", "V1"); ("SV_chrom", "chr1");
                         ("SV_start", "100"); ("SV_type", "DEL"); ("FMT", "GT");
                         ("Samples_ID", "S1"); ("Annotation_mode", "full")])].

(** The same table with a column FORMAT, read with [config_vcf]. *)
Definition table_format_without_sample : DataFrame :=
  mkDF ["AnnotSV_ID"; "SV_chrom"; "SV_start"; "SV_type"; "FORMAT"; "Samples_ID";
        "Annotation_mode"]
       [mkRow 0 (row_of [("AnnotSV_ID", "V1"); ("SV_chrom", "chr1");
                         ("SV_start", "100"); ("SV_type", "DEL"); ("FORMAT", "GT");
                         ("Samples_ID", "S1,S2"); ("Annotation_mode", "full")])].

(** A configuration that names QUAL as its SV_type column and gives the
    QUAL role no column, and a table without any of the two. *)
Definition config_sv_type_qual : Config :=
  mkConfig "full&split" "AnnotSV" "0/1"
    [("#CHROM", JStr "SV_chrom"); ("POS", JStr "SV_start"); ("ID", JStr "");
     ("REF", JStr ""); ("ALT", JStr ""); ("QUAL", JStr ""); ("FILTER", JStr "");
     ("FORMAT", JStr ""); ("SAMPLE", JStr "Samples_ID");
     ("INFO", info_roles "" "QUAL")]
    [] [].

Definition table_without_sv_type : DataFrame :=
  mkDF ["AnnotSV_ID"; "SV_chrom"; "SV_start"; "Samples_ID"; "Annotation_mode";
        "Gene_name"]
       [mkRow 0 (row_of [("AnnotSV_ID", "V1"); ("SV_chrom", "chr1");
                         ("SV_start", "100"); ("Samples_ID", "S1");
                         ("Annotation_mode", "full"); ("Gene_name", "BRCA1")])].

(** A variant whose gene cells hold semicolons. *)
Definition table_semicolon_cells : DataFrame :=
  mkDF bed_columns
       [mkRow 0 (bed_row "V1" "chr1" "100" "full" "BRCA1;BRCA2");
        mkRow 1 (bed_row "V1" "chr1" "100" "split" "BRCA1;");
        mkRow 2 (bed_row "V1" "chr1" "100" "split" "BRCA2")].

(** A table with a semicolon in the label of a column. *)
Definition table_semicolon_label : DataFrame :=
  mkDF ["AnnotSV_ID"; "SV_chrom"; "SV_start"; "SV_type"; "Samples_ID";
        "Annotation_mode"; "Gene;name"]
       [mkRow 0 (row_of [("AnnotSV_ID", "V1"); ("SV_chrom", "chr1");
                         ("SV_start", "100"); ("SV_type", "DEL");
                         ("Samples_ID", "S1"); ("Annotation_mode", "full");
                         ("Gene;name", "BRCA1")])].

(** One variant with a full row and a split row, and the line written
    for it. *)
Definition table_one_variant : DataFrame :=
  mkDF bed_columns
       [mkRow 0 (bed_row "V1" "chr1" "100" "full" "BRCA1");
        mkRow 1 (bed_row "V1" "chr1" "100" "split" "BRCA1_tx2")].



(** A table with one annotation column, of any label. *)
Definition table_with_column (key : string) : DataFrame :=
  mkDF ["AnnotSV_ID"; "SV_chrom"; "SV_start"; "SV_type"; "Samples_ID";
        "Annotation_mode"; key]
       [mkRow 0 (row_of [("AnnotSV_ID", "V1"); ("SV_chrom", "chr1");
                         ("SV_start", "100"); ("SV_type", "DEL");
                         ("Samples_ID", "S1"); ("Annotation_mode", "full");
                         (key, "x")])].

(** The line written for [table_with_column key]. *)
Definition line_with_key (key : string) : string :=
  (join tab ["chr1"; "100"; "."; "."; "."; "."; "PASS";
             "AnnotSV_ID=V1;SV_chrom=chr1;SV_start=100;SV_type=DEL;Annotation_mode=full;"
             ++ key ++ "=x";
             "GT"; "0/1"]
   ++ newline)%string.

(** A label as long as wanted: Z and [n] times x. *)
Fixpoint xs (n : nat) : string :=
  match n with
  | 0 => ""
  | S n' => String "x" (xs n')
  end.

Definition long_key (n : nat) : string := String "Z" (xs n).

(* ===================================================================== *)
(** ** Notions used by the statements *)
(* ===================================================================== *)

(** The natural order of the rows on the column [c]. *)
Definition natural_le (c : string) (r1 r2 : Row) : Prop :=
  natsort_leb (cell r1 c) (cell r2 c) = true.

(** The groups of [groupby(c, sort=False)], as lists of rows. *)
Definition groups_of (c : string) (rs : list Row) : list (string * list Row) :=
  map (fun k => (k, filter (fun r => cell r c =? k) rs))
      (first_seen (map (fun r => cell r c) rs)).



(** The keys of the groups of the row types, as pandas sorts them. *)
Definition type_keys (mode_label : string) (df : DataFrame) : list string :=
  stable_sort String.leb (first_seen (map (fun r => cell r mode_label) (rows df))).

(** The sub-frame of a row type. *)
Definition type_frame (mode_label tag : string) (df : DataFrame) : DataFrame :=
  mkDF (annotation_columns df) (rows_tagged mode_label tag df).

(** The value the loop over the split columns leaves for a field. *)
Definition split_value (remove_decimal_or_strip : string -> string)
           (config : Config) (mode_label : string) (split : DataFrame)
           (old : string -> string) (ann : string) : string :=
  if mode_label =? ann then GENERAL_mode config
  else join "|" (old ann
                 :: map remove_decimal_or_strip (map (fun r => cell r ann) (rows split))).

(** A text without any ";". *)
Definition clean (s : string) : Prop := count_char semicolon s = 0.

(** The cells of a frame hold no ";". *)
Definition clean_cells (df : DataFrame) : Prop :=
  forall r c, In r (rows df) -> clean (cell r c).

(** The keys of a merged annotation are columns, its values hold no ";". *)
Definition clean_annots (cols : list string) (annots : dict string) : Prop :=
  forall k v, In (k, v) annots -> In k cols /\ clean v.

(** A frame after some columns were set: the same rows, with other cells
    in the columns of [keys] only. *)
Definition same_rows_but (keys : list string) (df df' : DataFrame) : Prop :=
  Forall2 (fun r r' => label r' = label r
                       /\ forall c, ~ In c keys -> cell r' c = cell r c)
          (rows df) (rows df').

(** A variant with a full row only, a decimal in one of its cells. *)
Definition group_full_only : DataFrame :=
  mkDF bed_columns
       [mkRow 4 (bed_row "V1" "chr1" "100.0" "full" "BRCA1")].

(** A variant with a row of another type. *)
Definition group_other_type : DataFrame :=
  mkDF bed_columns
       [mkRow 0 (bed_row "V1" "chr1" "100" "full" "BRCA1");
        mkRow 1 (bed_row "V1" "chr1" "100" "partial" "BRCA1_tx2")].

(** The merged annotations of [table_two_chromosomes]. *)
Definition two_chromosomes_info_dic : dict (dict string) :=
  [("V1", [("AnnotSV_ID", "V1|V1"); ("SV_chrom", "chr10|chr10");
           ("SV_start", "100|100"); ("SV_type", "DEL|DEL");
           ("Annotation_mode", "full&split"); ("Gene_name", "BRCA1|BRCA1_tx2")]);
   ("V2", [("AnnotSV_ID", "V2"); ("SV_chrom", "chr2"); ("SV_start", "500");
           ("SV_type", "DEL"); ("Annotation_mode", "full"); ("Gene_name", "TP53")])].

(** A column of "." under the name of a role. *)
Definition defaulted (df : DataFrame) (role : string) : Prop :=
  has_column df role = true /\ forall r, In r (rows df) -> cell r role = ".".

(** The label [_get_main_vcf_cols] returns for a role: the configured
    label when it is a string that is not empty, and otherwise the name
    of the role, under which the frame then has a column of ".". *)
Definition main_label (config : Config) (df : DataFrame) (role label : string)
  : Prop :=
  match vcf_columns config role with
  | Ok (JStr "") => label = role /\ defaulted df role
  | Ok (JStr s) => label = s
  | Ok _ => label = role /\ defaulted df role
  | Raise _ => False
  end.

(** A configuration with a helper-function pattern for the ID role. *)
Definition config_helper_id : Config :=
  mkConfig "full&split" "AnnotSV" "0/1"
    [("#CHROM", JStr "SV_chrom"); ("POS", JStr "SV_start");
     ("ID", JList ["HELPER_FUNCTION"; "get_id"; "AnnotSV_ID"]);
     ("REF", JStr ""); ("ALT", JStr ""); ("QUAL", JStr ""); ("FILTER", JStr "");
     ("FORMAT", JStr ""); ("SAMPLE", JStr "Samples_ID");
     ("INFO", info_roles "" "SV_type")]
    [] [].

(** A table whose samples column names the samples of each row. *)
Definition table_samples : DataFrame :=
  mkDF ["AnnotSV_ID"; "SV_chrom"; "SV_start"; "SV_type"; "FORMAT"; "S1"; "S2";
        "Samples_ID"; "Annotation_mode"]
       [mkRow 0 (row_of [("AnnotSV_ID", "V1"); ("SV_chrom", "chr1");
                         ("SV_start", "100"); ("SV_type", "DEL"); ("FORMAT", "GT");
                         ("S1", "0/1"); ("S2", "1/1"); ("Samples_ID", "S2,S1");
                         ("Annotation_mode", "full")]);
        mkRow 1 (row_of [("AnnotSV_ID", "V2"); ("SV_chrom", "chr1");
                         ("SV_start", "900"); ("SV_type", "DUP"); ("FORMAT", "GT");
                         ("S1", "0/1"); ("S2", "0/0"); ("Samples_ID", "S1");
                         ("Annotation_mode", "full")])].

(** The configuration of a BED file with the mode full. *)
Definition config_full_mode : Config :=
  mkConfig "full" "AnnotSV" "0/1"
    [("#CHROM", JStr "SV_chrom"); ("POS", JStr "SV_start"); ("ID", JStr "");
     ("REF", JStr ""); ("ALT", JStr ""); ("QUAL", JStr ""); ("FILTER", JStr "");
     ("FORMAT", JStr ""); ("SAMPLE", JStr "Samples_ID");
     ("INFO", info_roles "" "SV_type")]
    [] ["##contig=<ID=chr1>"].

(** A variant whose identifier holds a semicolon. *)
Definition table_semicolon_identifier : DataFrame :=
  mkDF bed_columns
       [mkRow 0 (bed_row "V;1" "chr1" "100" "full" "BRCA1")].

(** A table without rows. *)
Definition table_empty : DataFrame := mkDF bed_columns [].

(** The file written for [table_empty]: the header of [fixed_header]
    without any sample. *)
Definition empty_table_vcf : string :=
  header_text ["##fileformat=VCFv4.2"; "##source=AnnotSV"; "##contig=<ID=chr1>";
               join tab ["#CHROM"; "POS"; "ID"; "REF"; "ALT"; "QUAL";
                         "FILTER"; "INFO"; "FORMAT"]].

(** The configuration of a VCF-made file with a description for each
    section of the header. *)
Definition config_described : Config :=
  mkConfig "full&split" "AnnotSV" "0/1"
    [("#CHROM", JStr "SV_chrom"); ("POS", JStr "SV_start"); ("ID", JStr "ID");
     ("REF", JStr "REF"); ("ALT", JStr "ALT"); ("QUAL", JStr "QUAL");
     ("FILTER", JStr "FILTER"); ("FORMAT", JStr "FORMAT");
     ("SAMPLE", JStr "Samples_ID"); ("INFO", info_roles "INFO" "SV_type")]
    [("REF", []);
     ("ALT", [("<DEL>", [("Description", "Deletion")])]);
     ("INFO", [("SV_type", [("Type", "String"); ("Description", "Type of the SV")])]);
     ("FORMAT", [("GT", [("Type", "String"); ("Description", "Genotype")])])]
    ["##contig=<ID=chr1>"].

(** The frame of a variant in the emission: a BED table with the columns
    that [_get_main_vcf_cols] added. *)
Definition group_with_main_columns : DataFrame :=
  mkDF (bed_columns ++ ["ID"; "REF"; "ALT"; "QUAL"; "FILTER"])
       [mkRow 0 (bed_row "V1" "chr1" "100" "full" "BRCA1")].

(** INFO roles with a helper-function pattern for one of them. *)
Definition info_roles_helper : dict json :=
  [("INFO", JStr ""); ("SV_type", JStr "SV_type");
   ("Annotation_mode", JStr "Annotation_mode");
   ("AnnotSV_ID", JStr "AnnotSV_ID");
   ("SV_length", JList ["HELPER_FUNCTION"; "get_length"; "SV_start"])].

Definition config_info_helper : Config :=
  mkConfig "full&split" "AnnotSV" "0/1"
    [("#CHROM", JStr "SV_chrom"); ("POS", JStr "SV_start"); ("ID", JStr "");
     ("REF", JStr ""); ("ALT", JStr ""); ("QUAL", JStr ""); ("FILTER", JStr "");
     ("FORMAT", JStr ""); ("SAMPLE", JStr "Samples_ID");
     ("INFO", JObj info_roles_helper)]
    [] ["##contig=<ID=chr1>"].

(** An element of [columns_to_drop] that is the label of a column. *)
Definition is_label_of (df : DataFrame) (col : json) : bool :=
  match col with
  | JStr c => has_column df c
  | _ => false
  end.

(** A configuration with a helper-function pattern for the FORMAT role. *)
Definition config_format_helper : Config :=
  mkConfig "full&split" "AnnotSV" "0/1"
    [("#CHROM", JStr "SV_chrom"); ("POS", JStr "SV_start"); ("ID", JStr "");
     ("REF", JStr ""); ("ALT", JStr ""); ("QUAL", JStr ""); ("FILTER", JStr "");
     ("FORMAT", JList ["HELPER_FUNCTION"; "get_format"; "SV_type"]);
     ("SAMPLE", JStr "Samples_ID");
     ("INFO", info_roles "" "SV_type")]
    [] ["##contig=<ID=chr1>"].





(* ===================================================================== *)
(** * Properties *)
(* ===================================================================== *)

(** ** Strings *)

Lemma mem_In (x : string) (l : list string) : mem x l = true <-> In x l.
Proof.
  unfold mem. rewrite existsb_exists. split.
  - intros [y [Hy He]]. apply String.eqb_eq in He. now subst.
  - intros H. exists x. split; [assumption | apply String.eqb_refl].
Qed.

Lemma mem_false_In (x : string) (l : list string) : mem x l = false <-> ~ In x l.
Proof.
  rewrite <- mem_In. destruct (mem x l); split; congruence.
Qed.

Lemma string_app_assoc (a b c : string) :
  ((a ++ b) ++ c)%string = (a ++ (b ++ c))%string.
Proof.
  induction a as [|x a IH]; simpl; [reflexivity|]. now rewrite IH.
Qed.

Lemma string_app_nil_r (a : string) : (a ++ "")%string = a.
Proof.
  induction a as [|x a IH]; simpl; [reflexivity|]. now rewrite IH.
Qed.

Lemma count_char_app (c : ascii) (s t : string) :
  count_char c (s ++ t) = count_char c s + count_char c t.
Proof.
  induction s as [|a s IH]; simpl; [reflexivity|]. rewrite IH. lia.
Qed.

Lemma count_char_replace (c d : ascii) (s : string) :
  c <> d -> count_char c (replace_char c d s) = 0.
Proof.
  intros Hcd. induction s as [|a s IH]; simpl; [reflexivity|].
  rewrite IH. destruct (Ascii.eqb_spec a c) as [->|Hac].
  - destruct (Ascii.eqb_spec d c); [congruence | reflexivity].
  - destruct (Ascii.eqb_spec a c); [congruence | reflexivity].
Qed.

(** Occurrences of [c] in a join: those of the parts and, between them,
    those of the separator. *)
Lemma count_char_join (c : ascii) (sep : string) (l : list string) :
  count_char c (join sep l) =
  list_sum (map (count_char c) l) + (List.length l - 1) * count_char c sep.
Proof.
  induction l as [|x l IH]; [reflexivity|].
  destruct l as [|y l].
  - simpl. lia.
  - change (join sep (x :: y :: l)) with (x ++ sep ++ join sep (y :: l))%string.
    rewrite !count_char_app, IH. simpl. lia.
Qed.

Lemma split_on_absent (c : ascii) (s : string) :
  count_char c s = 0 -> split_on c s = [s].
Proof.
  induction s as [|a s IH]; simpl; [reflexivity|].
  destruct (Ascii.eqb a c); [discriminate|].
  intros H. rewrite (IH H). reflexivity.
Qed.

(** The two branches of the loop of [_get_sample_list] are one split. *)
Lemma split_or_cell (c : ascii) (s : string) :
  (if contains_char c s then split_on c s else [s]) = split_on c s.
Proof.
  unfold contains_char. destruct (Nat.eqb_spec (count_char c s) 0) as [H|H]; simpl.
  - now rewrite split_on_absent.
  - reflexivity.
Qed.

Lemma first_seen_In (x : string) (l : list string) :
  In x (first_seen l) <-> In x l.
Proof.
  induction l as [|y l IH]; simpl; [tauto|].
  rewrite filter_In, IH. split.
  - intros [H|[H _]]; auto.
  - intros [H|H]; auto.
    destruct (String.eqb_spec x y) as [->|Hn]; auto.
Qed.

Lemma first_seen_NoDup (l : list string) : NoDup (first_seen l).
Proof.
  induction l as [|y l IH]; simpl; constructor.
  - rewrite filter_In. intros [_ H]. now rewrite String.eqb_refl in H.
  - now apply NoDup_filter.
Qed.

(** ** Loops *)

Lemma Ok_inj {A : Type} (a b : A) : Ok a = Ok b -> a = b.
Proof.
  intros H. now inversion H.
Qed.

Lemma for_each_app {A S : Type} (body : S -> A -> result S) (l1 l2 : list A) (acc : S) :
  for_each body (l1 ++ l2) acc = (acc' <- for_each body l1 acc ;; for_each body l2 acc').
Proof.
  revert acc. induction l1 as [|x l1 IH]; intros acc; simpl; [reflexivity|].
  destruct (body acc x); simpl; auto.
Qed.

(** An invariant of the accumulator of a loop that ends normally. *)
Lemma for_each_invariant {A S : Type} (P : S -> Prop)
      (body : S -> A -> result S) (l : list A) :
  (forall acc x acc', In x l -> P acc -> body acc x = Ok acc' -> P acc') ->
  forall acc out, P acc -> for_each body l acc = Ok out -> P out.
Proof.
  induction l as [|x l IH]; intros Hstep acc out Hacc Hrun; simpl in Hrun.
  - now inversion Hrun; subst.
  - destruct (body acc x) as [acc'|e] eqn:Hb; simpl in Hrun; [|discriminate].
    apply IH with (acc := acc'); auto.
    + intros a y a' Hy. apply Hstep. now right.
    + apply (Hstep acc x acc'); auto. now left.
Qed.

(** ** Dictionaries *)

Lemma dict_get_set {V : Type} (d : dict V) (k k' : string) (v : V) :
  dict_get (dict_set d k v) k' = if k =? k' then Some v else dict_get d k'.
Proof.
  induction d as [|[k0 v0] d IH]; simpl.
  - reflexivity.
  - destruct (String.eqb_spec k0 k) as [->|Hne]; simpl.
    + destruct (k =? k'); reflexivity.
    + rewrite IH. destruct (String.eqb_spec k0 k') as [->|Hne'].
      * destruct (String.eqb_spec k k'); [congruence | reflexivity].
      * reflexivity.
Qed.

Lemma dict_set_In {V : Type} (d : dict V) (k : string) (v : V) (e : string * V) :
  In e (dict_set d k v) -> e = (k, v) \/ In e d.
Proof.
  induction d as [|[k0 v0] d IH]; simpl.
  - intros [H|[]]. now left.
  - destruct (k0 =? k); simpl.
    + intros [H|H]; auto.
    + intros [H|H]; auto. destruct (IH H); auto.
Qed.

Lemma dict_get_In {V : Type} (d : dict V) (k : string) (v : V) :
  dict_get d k = Some v -> In (k, v) d.
Proof.
  induction d as [|[k0 v0] d IH]; simpl; [discriminate|].
  destruct (String.eqb_spec k0 k) as [->|Hne].
  - intros H. inversion H. now left.
  - intros H. right. auto.
Qed.

Lemma dict_get_None {V : Type} (d : dict V) (k : string) :
  dict_get d k = None <-> ~ In k (dict_keys d).
Proof.
  induction d as [|[k0 v0] d IH]; simpl; [tauto|].
  destruct (String.eqb_spec k0 k) as [->|Hne].
  - split; [discriminate | intros H; exfalso; apply H; now left].
  - rewrite IH. tauto.
Qed.

(** Setting a key that comes after a prefix without it. *)
Lemma dict_set_middle {V : Type} (p q : dict V) (k : string) (v v' : V) :
  ~ In k (dict_keys p) ->
  dict_set (p ++ (k, v) :: q) k v' = p ++ (k, v') :: q.
Proof.
  induction p as [|[k0 v0] p IH]; simpl; intros Hk.
  - now rewrite String.eqb_refl.
  - destruct (String.eqb_spec k0 k) as [->|Hne]; [exfalso; auto|].
    rewrite IH; auto.
Qed.

Lemma dict_get_middle {V : Type} (p q : dict V) (k : string) (v : V) :
  ~ In k (dict_keys p) -> dict_get (p ++ (k, v) :: q) k = Some v.
Proof.
  induction p as [|[k0 v0] p IH]; simpl; intros Hk.
  - now rewrite String.eqb_refl.
  - destruct (String.eqb_spec k0 k) as [->|Hne]; [exfalso; auto|].
    apply IH; auto.
Qed.

Lemma dict_set_new {V : Type} (d : dict V) (k : string) (v : V) :
  ~ In k (dict_keys d) -> dict_set d k v = d ++ [(k, v)].
Proof.
  induction d as [|[k0 v0] d IH]; simpl; intros Hk; [reflexivity|].
  destruct (String.eqb_spec k0 k) as [->|Hne]; [exfalso; auto|].
  rewrite IH; auto.
Qed.

(** ** Sorting *)

Section StableSortFacts.
Variable A : Type.
Variable leb : A -> A -> bool.
Hypothesis leb_total : forall x y, leb x y = true \/ leb y x = true.
Hypothesis leb_trans : forall x y z, leb x y = true -> leb y z = true -> leb x z = true.

Lemma insert_sorted_perm (x : A) (l : list A) :
  Permutation (insert_sorted leb x l) (x :: l).
Proof.
  induction l as [|y l IH]; simpl; [reflexivity|].
  destruct (leb x y); [reflexivity|].
  rewrite IH. apply perm_swap.
Qed.

Lemma stable_sort_perm (l : list A) : Permutation (stable_sort leb l) l.
Proof.
  induction l as [|x l IH]; simpl; [reflexivity|].
  rewrite insert_sorted_perm. now constructor.
Qed.

Lemma insert_sorted_sorted (x : A) (l : list A) :
  StronglySorted (fun x y => leb x y = true) l -> StronglySorted (fun x y => leb x y = true) (insert_sorted leb x l).
Proof.
  induction 1 as [|y l Hl IH Hy]; simpl.
  - repeat constructor.
  - destruct (leb x y) eqn:Hxy.
    + constructor; [now constructor|].
      constructor; [exact Hxy|].
      eapply Forall_impl; [|exact Hy]. intros z Hz. now apply leb_trans with y.
    + constructor; [exact IH|].
      assert (Hyx : leb y x = true) by (destruct (leb_total x y); [congruence | assumption]).
      eapply Permutation_Forall; [symmetry; apply insert_sorted_perm|].
      now constructor.
Qed.

Lemma stable_sort_sorted (l : list A) : StronglySorted (fun x y => leb x y = true) (stable_sort leb l).
Proof.
  induction l as [|x l IH]; simpl; [constructor|].
  now apply insert_sorted_sorted.
Qed.

End StableSortFacts.



(** ** The natural order *)

Lemma chunk_compare_antisym (a b : chunk) :
  chunk_compare a b = CompOpp (chunk_compare b a).
Proof.
  destruct a, b; simpl; auto.
  - apply String.compare_antisym.
  - apply N.compare_antisym.
Qed.

Lemma chunk_compare_eq (a b : chunk) : chunk_compare a b = Eq -> a = b.
Proof.
  destruct a, b; simpl; try discriminate; intros H.
  - f_equal. now apply String.compare_eq_iff.
  - f_equal. now apply N.compare_eq.
Qed.

Lemma chunk_compare_refl (a : chunk) : chunk_compare a a = Eq.
Proof.
  destruct a; simpl.
  - now apply String_as_OT.cmp_eq.
  - apply N.compare_refl.
Qed.

Lemma chunk_compare_lt_trans (a b c : chunk) :
  chunk_compare a b = Lt -> chunk_compare b c = Lt -> chunk_compare a c = Lt.
Proof.
  destruct a, b, c; simpl; try discriminate; auto.
  - intros H1 H2. apply String_as_OT.cmp_lt in H1, H2.
    apply String_as_OT.cmp_lt. eapply String_as_OT.lt_trans; eauto.
  - rewrite !N.compare_lt_iff. lia.
Qed.

Lemma key_compare_antisym (k1 k2 : list chunk) :
  key_compare k1 k2 = CompOpp (key_compare k2 k1).
Proof.
  revert k2. induction k1 as [|a k1 IH]; intros [|b k2]; simpl; auto.
  rewrite (chunk_compare_antisym a b), IH.
  destruct (chunk_compare b a); reflexivity.
Qed.

Lemma key_compare_refl (k : list chunk) : key_compare k k = Eq.
Proof.
  induction k as [|a k IH]; simpl; [reflexivity|].
  now rewrite chunk_compare_refl.
Qed.

(** [k1 <= k2 <= k3] gives [k1 <= k3], with the strict cases kept apart. *)
Lemma key_compare_trans (k1 k2 k3 : list chunk) :
  key_compare k1 k2 <> Gt -> key_compare k2 k3 <> Gt -> key_compare k1 k3 <> Gt.
Proof.
  revert k2 k3. induction k1 as [|a k1 IH]; intros [|b k2] [|c k3]; simpl;
    try congruence.
  destruct (chunk_compare a b) eqn:Hab; try congruence.
  - apply chunk_compare_eq in Hab. subst b.
    destruct (chunk_compare a c); try congruence. intros. eapply IH; eauto.
  - intros _. destruct (chunk_compare b c) eqn:Hbc; try congruence.
    + apply chunk_compare_eq in Hbc. subst c. now rewrite Hab.
    + now rewrite (chunk_compare_lt_trans _ _ _ Hab Hbc).
Qed.

Lemma natsort_leb_total (a b : string) :
  natsort_leb a b = true \/ natsort_leb b a = true.
Proof.
  unfold natsort_leb. rewrite (key_compare_antisym (natsort_key b)).
  destruct (key_compare (natsort_key a) (natsort_key b)); simpl; auto.
Qed.

Lemma natsort_leb_trans (a b c : string) :
  natsort_leb a b = true -> natsort_leb b c = true -> natsort_leb a c = true.
Proof.
  unfold natsort_leb. intros H1 H2.
  pose proof (key_compare_trans (natsort_key a) (natsort_key b) (natsort_key c)) as H.
  destruct (key_compare (natsort_key a) (natsort_key b));
    destruct (key_compare (natsort_key b) (natsort_key c));
    destruct (key_compare (natsort_key a) (natsort_key c));
    try reflexivity; try discriminate; exfalso; apply H; congruence.
Qed.

(** ** Frames: sorting the rows and grouping them *)

Lemma take_rows_spec (rs : list Row) (positions : list nat) (d : Row) :
  Forall (fun i => i < List.length rs) positions ->
  take_rows rs positions = Ok (map (fun i => nth i rs d) positions).
Proof.
  induction 1 as [|i ps Hi _ IH]; simpl; [reflexivity|].
  destruct (nth_error rs i) as [r|] eqn:Hr.
  - rewrite IH. simpl. now rewrite (nth_error_nth _ _ d Hr).
  - apply nth_error_None in Hr. lia.
Qed.

Lemma combine_seq_In {B : Type} (l : list B) (s i : nat) (v : B) :
  In (i, v) (combine (seq s (List.length l)) l) ->
  s <= i /\ nth_error l (i - s) = Some v.
Proof.
  revert s. induction l as [|x l IH]; intros s; simpl; [tauto|].
  intros [H|H].
  - inversion H; subst. rewrite Nat.sub_diag. auto.
  - apply IH in H. destruct H as [Hs Hn]. split; [lia|].
    replace (i - s) with (S (i - S s)) by lia. exact Hn.
Qed.

Lemma combine_seq_fst {B : Type} (l : list B) (s : nat) :
  map fst (combine (seq s (List.length l)) l) = seq s (List.length l).
Proof.
  revert s. induction l as [|x l IH]; intros s; simpl; [reflexivity|].
  now rewrite IH.
Qed.

Lemma map_nth_seq (rs : list Row) (d : Row) :
  map (fun i => nth i rs d) (seq 0 (List.length rs)) = rs.
Proof.
  apply nth_ext with (d := d) (d' := d).
  - now rewrite length_map, length_seq.
  - intros n Hn. rewrite length_map, length_seq in Hn.
    rewrite (nth_indep _ d (nth 0 rs d)) by (now rewrite length_map, length_seq).
    rewrite (map_nth (fun i => nth i rs d) (seq 0 (List.length rs)) 0 n).
    now rewrite seq_nth.
Qed.

Lemma StronglySorted_map_In {A B : Type} (R1 : A -> A -> Prop) (R2 : B -> B -> Prop)
      (h : A -> B) (l : list A) :
  (forall a b, In a l -> In b l -> R1 a b -> R2 (h a) (h b)) ->
  StronglySorted R1 l -> StronglySorted R2 (map h l).
Proof.
  intros Hh Hs. induction Hs as [|a l Hl IH Ha]; simpl; constructor.
  - apply IH. intros x y Hx Hy. apply Hh; now right.
  - rewrite Forall_forall in *. intros y Hy. apply in_map_iff in Hy.
    destruct Hy as [x [<- Hx]]. apply Hh; [now left | now right | auto].
Qed.

(** Lines 339-341: the rows of the table, put in the natural order of
    their chromosome. *)
Lemma iloc_index_natsorted (df : DataFrame) (c : string) :
  exists rs,
    iloc df (index_natsorted (map (fun r => cell r c) (rows df)))
    = Ok (mkDF (columns df) rs)
    /\ Permutation rs (rows df)
    /\ StronglySorted (natural_le c) rs.
Proof.
  set (d := mkRow 0 (fun _ => "")).
  set (vals := map (fun r => cell r c) (rows df)).
  set (leb' := fun a b : nat * string => natsort_leb (snd a) (snd b)).
  set (ps := stable_sort leb' (combine (seq 0 (List.length vals)) vals)).
  assert (Hperm : Permutation ps (combine (seq 0 (List.length vals)) vals))
    by apply stable_sort_perm.
  assert (Hlen : List.length vals = List.length (rows df))
    by (unfold vals; apply length_map).
  assert (Hin : forall p, In p ps ->
                fst p < List.length (rows df) /\ cell (nth (fst p) (rows df) d) c = snd p).
  { intros [i v] Hp. apply (Permutation_in _ Hperm) in Hp.
    apply combine_seq_In in Hp. destruct Hp as [_ Hn]. rewrite Nat.sub_0_r in Hn.
    unfold vals in Hn. rewrite nth_error_map in Hn.
    destruct (nth_error (rows df) i) as [r|] eqn:Hr; [|discriminate].
    simpl in Hn. inversion Hn; subst. simpl. split.
    - apply nth_error_Some. congruence.
    - now rewrite (nth_error_nth _ _ d Hr). }
  exists (map (fun i => nth i (rows df) d) (map fst ps)). split; [|split].
  - unfold iloc, index_natsorted. fold vals. fold leb'. fold ps.
    rewrite (take_rows_spec _ d); [reflexivity|].
    apply Forall_forall. intros i Hi. apply in_map_iff in Hi.
    destruct Hi as [p [<- Hp]]. now apply Hin.
  - apply Permutation_trans
      with (map (fun i => nth i (rows df) d) (seq 0 (List.length (rows df)))).
    + apply Permutation_map.
      rewrite <- Hlen, <- (combine_seq_fst vals 0). now apply Permutation_map.
    + now rewrite map_nth_seq.
  - rewrite map_map.
    apply StronglySorted_map_In with (R1 := fun a b => leb' a b = true).
    + intros a b Ha Hb Hab. unfold natural_le.
      destruct (Hin a Ha) as [_ ->]. destruct (Hin b Hb) as [_ ->]. exact Hab.
    + apply stable_sort_sorted.
      * intros x y. apply natsort_leb_total.
      * intros x y z. apply natsort_leb_trans.
Qed.

Lemma groupby_false_groups (df : DataFrame) (c : string) :
  has_column df c = true ->
  groupby false df c
  = Ok (map (fun g => (fst g, mkDF (columns df) (snd g))) (groups_of c (rows df))).
Proof.
  intros H. unfold groupby, groups_of. rewrite H. now rewrite map_map.
Qed.

Lemma groups_of_cons (c : string) (r : Row) (rs : list Row) :
  groups_of c (r :: rs)
  = (cell r c, r :: filter (fun x => cell x c =? cell r c) rs)
      :: filter (fun g => negb (fst g =? cell r c)) (groups_of c rs).
Proof.
  unfold groups_of. simpl. rewrite String.eqb_refl. f_equal.
  induction (first_seen (map (fun x => cell x c) rs)) as [|k ks IH]; simpl;
    [reflexivity|].
  destruct (String.eqb_spec k (cell r c)) as [->|Hne]; simpl.
  - exact IH.
  - rewrite IH. f_equal. f_equal.
    destruct (String.eqb_spec (cell r c) k); [congruence | reflexivity].
Qed.

Lemma groups_of_rows (c : string) (rs : list Row) (g : string * list Row) :
  In g (groups_of c rs) ->
  snd g = filter (fun r => cell r c =? fst g) rs /\ snd g <> [].
Proof.
  unfold groups_of. intros H. apply in_map_iff in H.
  destruct H as [k [<- Hk]]. simpl. split; [reflexivity|].
  apply first_seen_In, in_map_iff in Hk. destruct Hk as [r [Hr Hin]].
  intros Hnil.
  assert (Hf : In r (filter (fun x => cell x c =? k) rs)).
  { apply filter_In. split; [assumption|]. rewrite Hr. apply String.eqb_refl. }
  rewrite Hnil in Hf. destruct Hf.
Qed.


(** ** Emission *)

Section EmissionFacts.
Variable remove_decimal_or_strip : string -> string.
Variable is_helper_func : json -> result bool.
Variable HelperFunctions : Config -> result (string -> result helper_func).
Variable create_vcf_header : string -> Config -> list string -> result (list string).
Variable read_csv_sorted : Config -> string -> result DataFrame.
Variable config : Config.



(** The file is not opened before [prepare] has ended normally. *)
Lemma convert_prepare_raises (tsv : string) (e : exn) :
  prepare remove_decimal_or_strip HelperFunctions read_csv_sorted config tsv = Raise e ->
  convert remove_decimal_or_strip is_helper_func HelperFunctions create_vcf_header
          read_csv_sorted config tsv = (Raise e, None).
Proof.
  unfold convert. now intros ->.
Qed.

(** The groups of the emission: those of the identifier column, over the
    rows in the natural order of their chromosome. *)
Lemma emission_groups_inv (input_df : DataFrame) (groups : list (string * DataFrame)) :
  emission_groups config input_df = Ok groups ->
  exists id_col chrom rs,
    info_columns config "AnnotSV_ID" = Ok (JStr id_col)
    /\ vcf_columns config "#CHROM" = Ok (JStr chrom)
    /\ Permutation rs (rows input_df)
    /\ StronglySorted (natural_le chrom) rs
    /\ groups = map (fun g => (fst g, mkDF (columns input_df) (snd g)))
                    (groups_of id_col rs).
Proof.
  unfold emission_groups. intros H.
  destruct (info_columns config "AnnotSV_ID") as [id|e]; [|discriminate].
  destruct (vcf_columns config "#CHROM") as [[chrom|l|o]|e]; try discriminate.
  simpl in H. unfold column_values in H.
  destruct (has_column input_df chrom); [|discriminate]. simpl in H.
  destruct (iloc_index_natsorted input_df chrom) as [rs [Hi [Hp Hs]]].
  rewrite Hi in H. simpl in H.
  destruct id as [id|l|o]; try discriminate. simpl in H.
  destruct (has_column (mkDF (columns input_df) rs) id) eqn:Hc.
  - rewrite (groupby_false_groups _ _ Hc) in H. inversion H; subst.
    exists id, chrom, rs. auto.
  - unfold groupby in H. rewrite Hc in H. discriminate.
Qed.

End EmissionFacts.

(** ** C4: the order of the data lines *)
















Section EmissionOrder.
Variable remove_decimal_or_strip : string -> string.
Variable is_helper_func : json -> result bool.
Variable HelperFunctions : Config -> result (string -> result helper_func).
Variable create_vcf_header : string -> Config -> list string -> result (list string).
Variable read_csv_sorted : Config -> string -> result DataFrame.
Variable config : Config.



End EmissionOrder.


(** ** The merge of the full and split rows *)

Lemma stable_sort_In {A : Type} (leb : A -> A -> bool) (l : list A) (x : A) :
  In x (stable_sort leb l) <-> In x l.
Proof.
  split; apply Permutation_in; [|symmetry]; apply stable_sort_perm.
Qed.

Lemma collect_types_spec (mk : string -> DataFrame) (keys : list string)
      (acc : dict DataFrame) :
  for_each collect_type (map (fun k => (k, mk k)) keys) acc
  = if forallb (fun k => mem k ["full"; "split"]) keys
    then Ok (fold_left (fun d k => dict_set d k (mk k)) keys acc)
    else Raise (ValueError msg_annotation_type).
Proof.
  revert acc. induction keys as [|k keys IH]; intros acc; [reflexivity|].
  cbn [map for_each forallb fold_left]. unfold collect_type at 1. cbn [fst snd].
  destruct (mem k ["full"; "split"]); cbn [negb andb bind]; [apply IH | reflexivity].
Qed.

Lemma dict_get_fold_set {V : Type} (mk : string -> V) (keys : list string)
      (acc : dict V) (k : string) :
  dict_get (fold_left (fun d x => dict_set d x (mk x)) keys acc) k
  = if mem k keys then Some (mk k) else dict_get acc k.
Proof.
  revert acc. induction keys as [|x keys IH]; intros acc; [reflexivity|].
  cbn [fold_left]. rewrite IH, dict_get_set. unfold mem. cbn [existsb].
  fold (mem k keys). rewrite (String.eqb_sym k x).
  destruct (String.eqb_spec x k) as [->|Hne]; cbn [orb].
  - now destruct (mem k keys).
  - reflexivity.
Qed.

Lemma type_keys_mem (mode_label tag : string) (df : DataFrame) :
  mem tag (type_keys mode_label df)
  = negb (Nat.eqb (List.length (rows_tagged mode_label tag df)) 0).
Proof.
  unfold type_keys, rows_tagged.
  destruct (filter (fun r => cell r mode_label =? tag) (rows df)) as [|r rs] eqn:Hf.
  - apply mem_false_In. rewrite stable_sort_In, first_seen_In, in_map_iff.
    intros [r [Hr Hin]].
    assert (H : In r (filter (fun r => cell r mode_label =? tag) (rows df))).
    { apply filter_In. split; [assumption|]. rewrite Hr. apply String.eqb_refl. }
    rewrite Hf in H. destruct H.
  - apply mem_In. rewrite stable_sort_In, first_seen_In, in_map_iff.
    assert (H : In r (filter (fun r => cell r mode_label =? tag) (rows df)))
      by (rewrite Hf; now left).
    apply filter_In in H. destruct H as [Hin He]. apply String.eqb_eq in He.
    now exists r.
Qed.

Lemma type_keys_valid (mode_label : string) (df : DataFrame) :
  (forall r, In r (rows df) ->
             cell r mode_label = "full" \/ cell r mode_label = "split") ->
  forallb (fun k => mem k ["full"; "split"]) (type_keys mode_label df) = true.
Proof.
  intros H. apply forallb_forall. intros k Hk.
  unfold type_keys in Hk. rewrite stable_sort_In, first_seen_In, in_map_iff in Hk.
  destruct Hk as [r [<- Hr]]. destruct (H r Hr) as [-> | ->]; reflexivity.
Qed.

Section MergeFacts.
Variable remove_decimal_or_strip : string -> string.
Variable config : Config.

(** The merge up to the dictionary of the row types. *)
Lemma merge_unfold (df : DataFrame) (mode_label : string) :
  GENERAL_mode config = "full&split" ->
  info_columns config "Annotation_mode" = Ok (JStr mode_label) ->
  mem mode_label (annotation_columns df) = true ->
  _merge_full_and_split remove_decimal_or_strip config df
  = (dfs <- (if forallb (fun k => mem k ["full"; "split"]) (type_keys mode_label df)
             then Ok (fold_left
                        (fun d k => dict_set d k (type_frame mode_label k df))
                        (type_keys mode_label df) [])
             else Raise (ValueError msg_annotation_type)) ;;
     match dict_get dfs "full" with
     | None =>
         match dict_get dfs "split" with
         | None => Ok ([warn_no_annotation_mode], [])
         | Some split =>
             let annots :=
               fold_left (fun annots ann => dict_set annots ann ".")
                         (columns split) [] in
             annots <- for_each (merge_split remove_decimal_or_strip config
                                             (JStr mode_label) split)
                                (columns split) annots ;;
             Ok ([], annots)
         end
     | Some full =>
         if (1 <? List.length (rows full))%nat then
           Raise (ValueError msg_several_full)
         else
           annots <- for_each (seed_from_full remove_decimal_or_strip
                                 (select_columns df (annotation_columns df)) full)
                              (columns full) [] ;;
           match dict_get dfs "split" with
           | None => Ok ([], annots)
           | Some split =>
               annots <- for_each (merge_split remove_decimal_or_strip config
                                               (JStr mode_label) split)
                                  (columns split) annots ;;
               Ok ([], annots)
           end
     end).
Proof.
  intros Hmode Hinfo Hcol. unfold _merge_full_and_split.
  rewrite Hmode, Hinfo. cbn [String.eqb Ascii.eqb Bool.eqb negb bind as_label].
  unfold groupby, has_column. cbn [columns select_columns rows]. rewrite Hcol.
  cbn [bind]. fold (type_keys mode_label df).
  rewrite <- (collect_types_spec (fun k => type_frame mode_label k df)).
  reflexivity.
Qed.

(** C6.  A group with more than one row tagged full is not merged: the
    merge raises a ValueError, whatever else the group and the
    configuration hold; with the supported mode and rows tagged full or
    split only, it is the error of the single full line. *)
Theorem merge_several_full_rows_fail (df : DataFrame) (mode_label : string) :
  info_columns config "Annotation_mode" = Ok (JStr mode_label) ->
  mem mode_label (annotation_columns df) = true ->
  1 < List.length (rows_tagged mode_label "full" df) ->
  (exists msg,
      _merge_full_and_split remove_decimal_or_strip config df
      = Raise (ValueError msg))
  /\ (GENERAL_mode config = "full&split" ->
      (forall r, In r (rows df) ->
                 cell r mode_label = "full" \/ cell r mode_label = "split") ->
      _merge_full_and_split remove_decimal_or_strip config df
      = Raise (ValueError msg_several_full)).
Proof.
  intros Hinfo Hcol Hfull.
  assert (Hget : forall acc,
             dict_get (fold_left
                         (fun d k => dict_set d k (type_frame mode_label k df))
                         (type_keys mode_label df) acc) "full"
             = Some (type_frame mode_label "full" df)).
  { intros acc. rewrite dict_get_fold_set, type_keys_mem.
    destruct (List.length (rows_tagged mode_label "full" df)); [lia | reflexivity]. }
  assert (Hlen : (1 <? List.length (rows (type_frame mode_label "full" df)))%nat = true)
    by (apply Nat.ltb_lt; exact Hfull).
  split.
  - destruct (String.eqb_spec (GENERAL_mode config) "full&split") as [Hmode|Hmode].
    + rewrite (merge_unfold df Hmode Hinfo Hcol).
      destruct (forallb _ (type_keys mode_label df)); cbn [bind].
      * rewrite Hget, Hlen. now exists msg_several_full.
      * now exists msg_annotation_type.
    + unfold _merge_full_and_split.
      apply String.eqb_neq in Hmode. rewrite Hmode. now exists msg_mode.
  - intros Hmode Htags. rewrite (merge_unfold df Hmode Hinfo Hcol).
    rewrite (type_keys_valid _ _ Htags). cbn [bind]. now rewrite Hget, Hlen.
Qed.

End MergeFacts.

(** Two rows tagged full: the merge raises the error of the single full
    line. *)
Lemma merge_several_full_rows_fail_witness :
  1 < List.length (rows_tagged "Annotation_mode" "full" group_two_full)
  /\ (exists msg,
         _merge_full_and_split remove_decimal_or_strip_model config_bed group_two_full
         = Raise (ValueError msg))
  /\ _merge_full_and_split remove_decimal_or_strip_model config_bed group_two_full
     = Raise (ValueError msg_several_full).
Proof.
  assert (H1 : info_columns config_bed "Annotation_mode" = Ok (JStr "Annotation_mode"))
    by reflexivity.
  assert (H2 : mem "Annotation_mode" (annotation_columns group_two_full) = true)
    by reflexivity.
  assert (H3 : 1 < List.length (rows_tagged "Annotation_mode" "full" group_two_full))
    by (vm_compute; lia).
  destruct (merge_several_full_rows_fail remove_decimal_or_strip_model
              config_bed group_two_full H1 H2 H3) as [Ha Hb].
  split; [exact H3 | split; [exact Ha|]].
  apply Hb; [reflexivity|].
  intros r [<-|[<-|[]]]; left; reflexivity.
Defined.

(** ** Loops over the columns *)

Lemma seed_dots (cols : list string) (d : dict string) :
  NoDup cols ->
  (forall a, In a cols -> ~ In a (dict_keys d)) ->
  fold_left (fun annots ann => dict_set annots ann ".") cols d
  = d ++ map (fun ann => (ann, ".")) cols.
Proof.
  revert d. induction cols as [|a cols IH]; intros d Hnd Hd; simpl.
  - now rewrite app_nil_r.
  - inversion Hnd; subst. rewrite dict_set_new by (apply Hd; now left).
    rewrite IH; auto.
    + now rewrite <- app_assoc.
    + intros b Hb. unfold dict_keys. rewrite map_app, in_app_iff. simpl.
      intros [Hin|[->|[]]]; [|contradiction].
      apply (Hd b); [now right | exact Hin].
Qed.

Section ColumnLoops.
Variable remove_decimal_or_strip : string -> string.
Variable config : Config.

Lemma seed_from_full_loop (df full : DataFrame) (r : Row) (cols : list string)
      (d : dict string) :
  first_index df = Ok (label r) ->
  (forall a, In a cols -> loc full (label r) a = Ok (cell r a)) ->
  NoDup cols ->
  (forall a, In a cols -> ~ In a (dict_keys d)) ->
  for_each (seed_from_full remove_decimal_or_strip df full) cols d
  = Ok (d ++ map (fun ann => (ann, remove_decimal_or_strip (cell r ann))) cols).
Proof.
  intros Hi. revert d. induction cols as [|a cols IH]; intros d Hloc Hnd Hd; simpl.
  - now rewrite app_nil_r.
  - inversion Hnd; subst. unfold seed_from_full at 1.
    rewrite Hi. cbn [bind]. rewrite (Hloc a) by now left. cbn [bind].
    rewrite dict_set_new by (apply Hd; now left).
    rewrite IH; auto.
    + now rewrite <- app_assoc.
    + intros b Hb. apply Hloc. now right.
    + intros b Hb. unfold dict_keys. rewrite map_app, in_app_iff. simpl.
      intros [Hin|[->|[]]]; [|contradiction].
      apply (Hd b); [now right | exact Hin].
Qed.

Lemma merge_split_loop (mode_label : string) (split : DataFrame)
      (old : string -> string) (q p : list string) :
  NoDup (p ++ q) ->
  (forall a, In a q -> has_column split a = true) ->
  for_each (merge_split remove_decimal_or_strip config (JStr mode_label) split) q
           (map (fun a => (a, split_value remove_decimal_or_strip config mode_label split old a)) p
            ++ map (fun a => (a, old a)) q)
  = Ok (map (fun a => (a, split_value remove_decimal_or_strip config mode_label split old a)) (p ++ q)).
Proof.
  revert p. induction q as [|a q IH]; intros p Hnd Hcol; simpl.
  - now rewrite !app_nil_r.
  - assert (Ha : ~ In a (dict_keys
                           (map (fun a => (a, split_value remove_decimal_or_strip config mode_label split old a)) p))).
    { unfold dict_keys. rewrite map_map. simpl. rewrite map_id.
      apply NoDup_remove_2 in Hnd. intros Hin. apply Hnd. apply in_app_iff. now left. }
    assert (Hstep :
      merge_split remove_decimal_or_strip config (JStr mode_label) split
        (map (fun a => (a, split_value remove_decimal_or_strip config mode_label split old a)) p
         ++ (a, old a) :: map (fun a => (a, old a)) q) a
      = Ok (map (fun a => (a, split_value remove_decimal_or_strip config mode_label split old a)) (p ++ [a])
            ++ map (fun a => (a, old a)) q)).
    { rewrite map_app. cbn [map]. rewrite <- app_assoc. cbn [app].
      unfold merge_split. cbn [json_is].
      destruct (mode_label =? a) eqn:Hm.
      - rewrite dict_set_middle by exact Ha.
        assert (Hv : split_value remove_decimal_or_strip config mode_label split old a = GENERAL_mode config)
          by (unfold split_value; now rewrite Hm).
        now rewrite Hv.
      - unfold column_values. rewrite (Hcol a) by now left. cbn [bind].
        unfold dict_item. rewrite dict_get_middle by exact Ha. cbn [bind].
        rewrite dict_set_middle by exact Ha.
        assert (Hv : split_value remove_decimal_or_strip config mode_label split old a
                     = join "|" (old a :: map remove_decimal_or_strip
                                              (map (fun r => cell r a) (rows split))))
          by (unfold split_value; now rewrite Hm).
        now rewrite Hv. }
    rewrite Hstep. cbn [bind]. rewrite IH.
    + now rewrite <- app_assoc.
    + now rewrite <- app_assoc.
    + intros b Hb. apply Hcol. now right.
Qed.

End ColumnLoops.

(** ** C1: the merged value of a field *)

Section MergedValues.
Variable remove_decimal_or_strip : string -> string.
Variable config : Config.

Lemma type_frame_lookup (df : DataFrame) (mode_label tag : string) :
  dict_get (fold_left (fun d k => dict_set d k (type_frame mode_label k df))
                      (type_keys mode_label df) []) tag
  = match rows_tagged mode_label tag df with
    | [] => None
    | _ :: _ => Some (type_frame mode_label tag df)
    end.
Proof.
  rewrite dict_get_fold_set, type_keys_mem.
  now destruct (rows_tagged mode_label tag df).
Qed.

(** X1.  What the merge returns for a group that has split rows and whose full
    row, when it has one, is its first row: for every annotation column,
    in the order of the columns, the value of the full row (or "."), then
    the values of the split rows in the order of the rows, joined with
    "|" and nothing removed; the mode for the column of the row types. *)
Lemma merge_full_and_split_joined (df : DataFrame) (mode_label : string) :
  GENERAL_mode config = "full&split" ->
  info_columns config "Annotation_mode" = Ok (JStr mode_label) ->
  mem mode_label (annotation_columns df) = true ->
  (forall r, In r (rows df) ->
             cell r mode_label = "full" \/ cell r mode_label = "split") ->
  NoDup (annotation_columns df) ->
  rows_tagged mode_label "split" df <> [] ->
  (rows_tagged mode_label "full" df = []
   \/ exists r rest, rows df = r :: rest /\ rows_tagged mode_label "full" df = [r]) ->
  _merge_full_and_split remove_decimal_or_strip config df
  = Ok ([], map (fun ann =>
                   (ann, if mode_label =? ann then "full&split"
                         else merged_value remove_decimal_or_strip mode_label df ann))
                (annotation_columns df)).
Proof.
  intros Hmode Hinfo Hcol Htags Hnd Hsplit Hfull.
  rewrite (@merge_unfold remove_decimal_or_strip config df mode_label Hmode Hinfo Hcol).
  rewrite (type_keys_valid _ _ Htags). cbn [bind].
  rewrite !type_frame_lookup.
  set (split := type_frame mode_label "split" df).
  assert (Hhas : forall a, In a (annotation_columns df) -> has_column split a = true)
    by (intros a Ha; now apply mem_In).
  assert (Hvalue : forall old,
             (forall ann, old ann = full_value remove_decimal_or_strip mode_label df ann) ->
             map (fun a => (a, split_value remove_decimal_or_strip config
                                           mode_label split old a))
                 (annotation_columns df)
             = map (fun ann =>
                      (ann, if mode_label =? ann then "full&split"
                            else merged_value remove_decimal_or_strip mode_label df ann))
                   (annotation_columns df)).
  { intros old Hold. apply map_ext. intros a. unfold split_value, merged_value.
    rewrite Hmode, Hold, map_map. reflexivity. }
  destruct (rows_tagged mode_label "split" df) as [|s ss] eqn:Hs; [congruence|].
  destruct Hfull as [Hnone | [r [rest [Hrows Hone]]]].
  - rewrite Hnone. change (columns split) with (annotation_columns df).
    rewrite (@seed_dots (annotation_columns df) [] Hnd) by (intros a _ []). cbn [app].
    pose proof (merge_split_loop remove_decimal_or_strip config mode_label split
                  (fun _ => ".") (annotation_columns df) [] Hnd Hhas) as Hloop.
    cbn [map app] in Hloop. fold split. rewrite Hloop. cbn [bind].
    rewrite Hvalue; [reflexivity|].
    intros ann. unfold full_value. now rewrite Hnone.
  - rewrite Hone. cbn [rows type_frame columns]. rewrite Hone.
    cbn [List.length Nat.ltb Nat.leb].
    rewrite (@seed_from_full_loop remove_decimal_or_strip _ _ r (annotation_columns df) []).
    + cbn [bind app]. change (columns split) with (annotation_columns df).
      pose proof (merge_split_loop remove_decimal_or_strip config mode_label split
                    (fun a => remove_decimal_or_strip (cell r a))
                    (annotation_columns df) [] Hnd Hhas) as Hloop.
      cbn [map app] in Hloop. fold split. rewrite Hloop. cbn [bind].
      rewrite Hvalue; [reflexivity|].
      intros ann. unfold full_value. now rewrite Hone.
    + unfold first_index. cbn [rows select_columns]. now rewrite Hrows.
    + intros a Ha. unfold loc. cbn [rows type_frame]. rewrite Hone. cbn [find].
      rewrite Nat.eqb_refl. unfold has_column. cbn [columns type_frame].
      apply mem_In in Ha. now rewrite Ha.
    + exact Hnd.
    + intros a _ [].
Qed.

(** The merge of a group whose only full row is not its first row: the
    lookup of line 145 asks the full rows for the label of the first row
    of the group. *)
Lemma merge_full_not_first_raises (df : DataFrame) (mode_label : string)
      (first full : Row) (rest : list Row) :
  GENERAL_mode config = "full&split" ->
  info_columns config "Annotation_mode" = Ok (JStr mode_label) ->
  mem mode_label (annotation_columns df) = true ->
  (forall r, In r (rows df) ->
             cell r mode_label = "full" \/ cell r mode_label = "split") ->
  rows df = first :: rest ->
  rows_tagged mode_label "full" df = [full] ->
  label full <> label first ->
  _merge_full_and_split remove_decimal_or_strip config df
  = Raise (KeyError (KInt (label first))).
Proof.
  intros Hmode Hinfo Hcol Htags Hrows Hone Hlabel.
  rewrite (@merge_unfold remove_decimal_or_strip config df mode_label Hmode Hinfo Hcol).
  rewrite (type_keys_valid _ _ Htags). cbn [bind].
  rewrite !type_frame_lookup, Hone. cbn [rows type_frame columns]. rewrite Hone.
  cbn [List.length Nat.ltb Nat.leb].
  destruct (annotation_columns df) as [|a cols] eqn:Hc; [discriminate|].
  cbn [for_each]. unfold seed_from_full at 1. unfold first_index.
  cbn [rows select_columns]. rewrite Hrows. cbn [bind].
  unfold loc. cbn [rows type_frame]. rewrite Hone. cbn [find].
  apply Nat.eqb_neq in Hlabel. now rewrite Hlabel.
Qed.

End MergedValues.

(** C1.  A variant whose split row stands before its full row in the
    table: C1 gives the field Gene_name the value of the full row followed
    by that of the split row, and the merge raises a KeyError instead,
    whatever the normalization of the decimals is.  With the full row
    first, the values are joined as C1 states, the repeated ones kept. *)
Theorem merge_split_row_before_full_raises :
  forall rds : string -> string,
    _merge_full_and_split rds config_bed group_split_first
    = Raise (KeyError (KInt 0))
    /\ merged_value (fun s => s) "Annotation_mode" group_split_first "Gene_name"
       = "BRCA1|BRCA1_tx2"
    /\ _merge_full_and_split (fun s => s) config_bed group_full_first
       = Ok ([], [("AnnotSV_ID", "V1|V1|V1"); ("SV_chrom", "chr1|chr1|chr1");
                  ("SV_start", "100|100|100"); ("SV_type", "DEL|DEL|DEL");
                  ("Samples_ID", "S1|S1|S1"); ("Annotation_mode", "full&split");
                  ("Gene_name", "BRCA1|BRCA1|BRCA1")]).
Proof.
  intros rds. split; [|split].
  - apply merge_full_not_first_raises
      with (mode_label := "Annotation_mode")
           (first := mkRow 0 (bed_row "V1" "chr1" "100" "split" "BRCA1_tx2"))
           (full := mkRow 1 (bed_row "V1" "chr1" "100" "full" "BRCA1"))
           (rest := [mkRow 1 (bed_row "V1" "chr1" "100" "full" "BRCA1")]);
      try reflexivity.
    + intros r [<-|[<-|[]]]; [right | left]; reflexivity.
    + discriminate.
  - reflexivity.
  - vm_compute. reflexivity.
Qed.

(** ** C7: a group without usable row types *)

Section MergeWithoutTypes.
Variable remove_decimal_or_strip : string -> string.
Variable config : Config.

(** Without the column of the row types, [groupby] raises. *)
Lemma merge_missing_mode_column_raises (df : DataFrame) (mode_label : string) :
  GENERAL_mode config = "full&split" ->
  info_columns config "Annotation_mode" = Ok (JStr mode_label) ->
  mem mode_label (annotation_columns df) = false ->
  _merge_full_and_split remove_decimal_or_strip config df
  = Raise (KeyError (KStr mode_label)).
Proof.
  intros Hmode Hinfo Hcol. unfold _merge_full_and_split.
  rewrite Hmode, Hinfo. cbn [String.eqb Ascii.eqb Bool.eqb negb bind as_label].
  unfold groupby, has_column. cbn [columns select_columns]. now rewrite Hcol.
Qed.

(** The warning of line 132 is logged for a frame without rows only. *)
Lemma merge_warns_only_without_rows (df : DataFrame)
      (warns : list string) (annots : dict string) :
  _merge_full_and_split remove_decimal_or_strip config df = Ok (warns, annots) ->
  warns <> [] -> rows df = [].
Proof.
  intros H Hw.
  destruct (String.eqb_spec (GENERAL_mode config) "full&split") as [Hmode|Hmode].
  2:{ unfold _merge_full_and_split in H. apply String.eqb_neq in Hmode.
      rewrite Hmode in H. discriminate. }
  destruct (info_columns config "Annotation_mode") as [[l|l|o]|e] eqn:Hinfo.
  2-4: unfold _merge_full_and_split in H; rewrite Hmode, Hinfo in H; discriminate.
  destruct (mem l (annotation_columns df)) eqn:Hcol.
  2:{ rewrite (merge_missing_mode_column_raises df Hmode Hinfo Hcol) in H.
      discriminate. }
  rewrite (@merge_unfold remove_decimal_or_strip config df l Hmode Hinfo Hcol) in H.
  destruct (forallb _ (type_keys l df)) eqn:Hvalid; [|discriminate].
  cbn [bind] in H. rewrite !type_frame_lookup in H.
  destruct (rows_tagged l "full" df) as [|f fs] eqn:Hf.
  - destruct (rows_tagged l "split" df) as [|s ss] eqn:Hs.
    + destruct (rows df) as [|r rs] eqn:Hr; [reflexivity|]. exfalso.
      rewrite forallb_forall in Hvalid.
      assert (Hk : In (cell r l) (type_keys l df)).
      { unfold type_keys. rewrite stable_sort_In, first_seen_In, Hr. now left. }
      apply Hvalid in Hk. unfold mem in Hk. cbn [existsb] in Hk.
      rewrite !orb_true_iff in Hk. unfold rows_tagged in Hf, Hs. rewrite Hr in Hf, Hs.
      cbn [filter] in Hf, Hs.
      destruct Hk as [Hk|[Hk|Hk]]; [| |discriminate].
      * rewrite Hk in Hf. discriminate.
      * rewrite Hk in Hs. discriminate.
    + destruct (for_each _ _ _); [|discriminate]. cbn [bind] in H.
      inversion H; subst. congruence.
  - destruct (_ <? _)%nat; [discriminate|].
    destruct (for_each _ _ _); [|discriminate]. cbn [bind] in H.
    destruct (rows_tagged l "split" df).
    + inversion H; subst. congruence.
    + destruct (for_each _ _ _); [|discriminate]. cbn [bind] in H.
      inversion H; subst. congruence.
Qed.

(** X5.  No group of [_build_info_dic] is empty: a conversion never logs the
    warning. *)
Lemma build_info_dic_never_warns (input_df : DataFrame)
      (sample_list main_vcf_cols warns : list string) (info_dic : dict (dict string)) :
  _build_info_dic remove_decimal_or_strip config input_df sample_list main_vcf_cols
  = Ok (warns, info_dic) ->
  warns = [].
Proof.
  unfold _build_info_dic. intros H.
  destruct (_build_input_annot_df _ _ _ _) as [df|e]; [|discriminate]. cbn [bind] in H.
  destruct (info_columns config "AnnotSV_ID") as [[id|l|o]|e]; try discriminate.
  cbn [bind as_label] in H. unfold groupby in H.
  destruct (has_column df id); [|discriminate]. cbn [bind] in H.
  change warns with (fst (warns, info_dic)).
  eapply (for_each_invariant (fun st : list string * dict (dict string) => fst st = []));
    [| |exact H]; [|reflexivity].
  intros st g st' Hg Hst Hbody. cbv beta in Hbody.
  destruct (_merge_full_and_split remove_decimal_or_strip config (snd g))
    as [[w a]|e] eqn:Hm; [|discriminate].
  cbn [bind] in Hbody. inversion Hbody; subst. cbn [fst snd]. rewrite Hst. cbn [app].
  destruct w as [|w ws]; [reflexivity|]. exfalso.
  assert (Hrows : rows (snd g) = [])
    by (apply (merge_warns_only_without_rows _ Hm); discriminate).
  apply in_map_iff in Hg. destruct Hg as [k [<- Hk]]. cbn [snd rows] in Hrows.
  apply stable_sort_In, first_seen_In, in_map_iff in Hk. destruct Hk as [r [Hr Hin]].
  assert (Hf : In r (filter (fun r0 : Row => cell r0 id =? k) (rows df))).
  { apply filter_In. split; [assumption|]. rewrite Hr. apply String.eqb_refl. }
  rewrite Hrows in Hf. destruct Hf.
Qed.

End MergeWithoutTypes.

(** C7.  A table without the column of the row types: the merge of its
    group raises a KeyError and the conversion fails before it opens the
    output file, where C7 has a warning, an empty INFO field and no
    failure. *)
Theorem merge_without_mode_column_raises :
  forall rds : string -> string,
    _merge_full_and_split rds config_bed table_without_mode
    = Raise (KeyError (KStr "Annotation_mode"))
    /\ convert rds is_helper_func_model no_helper_functions fixed_header
               (table_reader table_without_mode) config_bed "in.tsv"
       = (Raise (KeyError (KStr "Annotation_mode")), None).
Proof.
  intros rds. split.
  - now apply merge_missing_mode_column_raises.
  - vm_compute. reflexivity.
Qed.

(** ** C3: the columns left to the merge *)

(** The frame [_build_input_annot_df] works on lacks one column of the
    input, and no more. *)
Lemma drop_loop_one (input_df : DataFrame) (columns_to_drop : list json)
      (df : DataFrame) :
  drop_loop input_df columns_to_drop = Some df ->
  exists c, In (JStr c) columns_to_drop
            /\ has_column input_df c = true
            /\ columns df = filter (fun x => negb (x =? c)) (columns input_df)
            /\ rows df = rows input_df.
Proof.
  unfold drop_loop.
  assert (Hgen : forall acc,
             (forall d, acc = Some d ->
                exists c, In (JStr c) columns_to_drop /\ has_column input_df c = true
                          /\ columns d = filter (fun x => negb (x =? c)) (columns input_df)
                          /\ rows d = rows input_df) ->
             forall l, incl l columns_to_drop ->
             fold_left (fun df col => match drop_label input_df col with
                                      | Ok d => Some d
                                      | Raise _ => df
                                      end) l acc = Some df ->
             exists c, In (JStr c) columns_to_drop /\ has_column input_df c = true
                       /\ columns df = filter (fun x => negb (x =? c)) (columns input_df)
                       /\ rows df = rows input_df).
  { intros acc Hacc l. revert acc Hacc.
    induction l as [|x l IH]; intros acc Hacc Hl H; simpl in H.
    - now apply Hacc.
    - apply (IH _) in H; auto.
      + intros d Hd. destruct x as [x|x|x]; cbn [drop_label] in Hd;
          [|now apply Hacc|now apply Hacc].
        unfold drop in Hd.
        destruct (has_column input_df x) eqn:Hx.
        * inversion Hd; subst. exists x. repeat split; auto. apply Hl. now left.
        * now apply Hacc.
      + intros y Hy. apply Hl. now right. }
  apply (Hgen None); [discriminate | apply incl_refl].
Qed.

(** C3.  The table of one row made from a VCF file, with its FORMAT,
    sample, samples and INFO columns: of the columns that C3 has stripped
    before the merge, only INFO (by [_build_input_annot_df]) and ID, REF,
    ALT, QUAL, FILTER (by the merge) are; the merged annotation of the
    variant has the keys FORMAT, S1, Samples_ID, SV_chrom and SV_start,
    and the INFO field of its line carries them. *)
Theorem merged_keys_keep_vcf_columns :
  result_map
    (fun p => (p_sample_list p, p_main_vcf_cols p, p_info_dic p))
    (prepare remove_decimal_or_strip_model no_helper_functions
             (table_reader table_from_vcf) config_vcf "in.tsv")
  = Ok (["S1"],
        ["SV_chrom"; "SV_start"; "ID"; "REF"; "ALT"; "QUAL"; "FILTER"],
        [("V1", [("AnnotSV_ID", "V1"); ("SV_chrom", "chr1"); ("SV_start", "100");
                 ("FORMAT", "GT"); ("S1", "0/1"); ("Samples_ID", "S1");
                 ("SV_type", "DEL"); ("Annotation_mode", "full");
                 ("Gene_name", "BRCA1")])])
  /\ convert remove_decimal_or_strip_model is_helper_func_model no_helper_functions
             fixed_header (table_reader table_from_vcf) config_vcf "in.tsv"
     = (Ok tt,
        Some (bed_header
              ++ join tab ["chr1"; "100"; "sv1"; "N"; "<DEL>"; "50"; "PASS";
                           "AnnotSV_ID=V1;SV_chrom=chr1;SV_start=100;FORMAT=GT;S1=0/1;Samples_ID=S1;SV_type=DEL;Annotation_mode=full;Gene_name=BRCA1";
                           "GT"; "0/1"]
              ++ newline)%string).
Proof.
  split; vm_compute; reflexivity.
Qed.

(** ** C8: the samples and their columns *)

(** C8 as stated fails: the FORMAT role is mapped to the column FMT of
    the table, the sample S1 of the samples column has no column, and the
    sample list is returned. *)
Lemma sample_check_skipped_for_other_format_label :
  vcf_columns config_fmt "FORMAT" = Ok (JStr "FMT")
  /\ has_column table_fmt "FMT" = true
  /\ column_values table_fmt "Samples_ID" = Ok ["S1"]
  /\ has_column table_fmt "S1" = false
  /\ _get_sample_list config_fmt table_fmt = Ok ["S1"].
Proof.
  repeat split.
Qed.

Section SampleList.
Variable config : Config.

(** C8, amended.  When the configured FORMAT label is the word FORMAT,
    every sample name obtained by splitting the cells of the samples column
    on commas must be a column of the table: one that is not makes
    [_get_sample_list] raise its ValueError. *)
Theorem get_sample_list_requires_sample_columns
        (input_df : DataFrame) (sample name : string) :
  vcf_columns config "SAMPLE" = Ok (JStr sample) ->
  vcf_columns config "FORMAT" = Ok (JStr "FORMAT") ->
  has_column input_df sample = true ->
  In name (flat_map (split_on comma)
                    (map (fun r => cell r sample) (rows input_df))) ->
  has_column input_df name = false ->
  _get_sample_list config input_df = Raise (ValueError msg_samples).
Proof.
  intros Hs Hf Hcol Hin Hname. unfold _get_sample_list.
  rewrite Hs. cbn [bind as_label]. unfold column_values. rewrite Hcol. cbn [bind].
  rewrite Hf. cbn [bind json_is String.eqb Ascii.eqb Bool.eqb].
  destruct (forallb _ _) eqn:Hall; [|reflexivity].
  rewrite forallb_forall in Hall. rewrite (Hall name) in Hname; [discriminate|].
  apply first_seen_In. apply in_flat_map. apply in_flat_map in Hin.
  destruct Hin as [c [Hc Hn]]. exists c. split; [assumption|].
  now rewrite split_or_cell.
Qed.

(** When every sample has its column, or when the FORMAT label is not the
    word FORMAT, the sample list is returned: the names in the order of
    their first appearance. *)
Lemma get_sample_list_ok (input_df : DataFrame) (sample : string) (format : json) :
  vcf_columns config "SAMPLE" = Ok (JStr sample) ->
  vcf_columns config "FORMAT" = Ok format ->
  has_column input_df sample = true ->
  (json_is format "FORMAT" = true ->
   forall name, In name (flat_map (split_on comma)
                                  (map (fun r => cell r sample) (rows input_df))) ->
                has_column input_df name = true) ->
  _get_sample_list config input_df
  = Ok (first_seen (flat_map (split_on comma)
                             (map (fun r => cell r sample) (rows input_df)))).
Proof.
  intros Hs Hf Hcol Hall. unfold _get_sample_list.
  rewrite Hs. cbn [bind as_label]. unfold column_values. rewrite Hcol. cbn [bind].
  rewrite Hf. cbn [bind].
  assert (Heq : flat_map (fun c => if contains_char comma c then split_on comma c else [c])
                         (map (fun r => cell r sample) (rows input_df))
                = flat_map (split_on comma) (map (fun r => cell r sample) (rows input_df))).
  { apply flat_map_ext. intros c. apply split_or_cell. }
  rewrite Heq. destruct (json_is format "FORMAT") eqn:Hj; [|reflexivity].
  destruct (forallb _ _) eqn:Hb; [reflexivity|].
  assert (Ht : forallb (has_column input_df)
                 (first_seen (flat_map (split_on comma)
                                (map (fun r => cell r sample) (rows input_df)))) = true).
  { apply forallb_forall. intros n Hn. apply Hall; [reflexivity|].
    now apply first_seen_In. }
  congruence.
Qed.

End SampleList.

(** A table made from a VCF file whose samples column names S1 and S2
    and that has a column for neither. *)
Lemma get_sample_list_requires_sample_columns_witness :
  In "S2" (flat_map (split_on comma)
                    (map (fun r => cell r "Samples_ID")
                         (rows table_format_without_sample)))
  /\ has_column table_format_without_sample "S2" = false
  /\ _get_sample_list config_vcf table_format_without_sample
     = Raise (ValueError msg_samples).
Proof.
  assert (Hin : In "S2" (flat_map (split_on comma)
                           (map (fun r => cell r "Samples_ID")
                                (rows table_format_without_sample))))
    by (right; left; reflexivity).
  split; [exact Hin | split; [reflexivity|]].
  apply (@get_sample_list_requires_sample_columns config_vcf
           table_format_without_sample "Samples_ID" "S2");
    try reflexivity. exact Hin.
Defined.

(** ** C9: the SV_type column *)

(** C9 as stated fails: the configured SV_type label, QUAL, names no
    column of the loaded table, and the conversion ends normally.  QUAL
    has no label of its own in this configuration, so [_get_main_vcf_cols]
    adds a column of that name before the label is looked for. *)
Lemma conversion_with_defaulted_sv_type_column :
  info_columns config_sv_type_qual "SV_type" = Ok (JStr "QUAL")
  /\ has_column table_without_sv_type "QUAL" = false
  /\ convert remove_decimal_or_strip_model is_helper_func_model no_helper_functions
             fixed_header (table_reader table_without_sv_type)
             config_sv_type_qual "in.tsv"
     = (Ok tt,
        Some (header_text ["##fileformat=VCFv4.2"; "##source=AnnotSV";
                           join tab ["#CHROM"; "POS"; "ID"; "REF"; "ALT"; "QUAL";
                                     "FILTER"; "INFO"; "FORMAT"; "S1"]]
              ++ join tab ["chr1"; "100"; "."; "."; "."; "."; "PASS";
                           "AnnotSV_ID=V1;SV_chrom=chr1;SV_start=100;Annotation_mode=full;Gene_name=BRCA1";
                           "GT"; "0/1"]
              ++ newline)%string).
Proof.
  repeat split.
Qed.

Section SvTypeColumn.
Variable remove_decimal_or_strip : string -> string.
Variable is_helper_func : json -> result bool.
Variable HelperFunctions : Config -> result (string -> result helper_func).
Variable create_vcf_header : string -> Config -> list string -> result (list string).
Variable read_csv_sorted : Config -> string -> result DataFrame.
Variable config : Config.

(** The check of lines 93-100, and [_build_info_dic] stopping there. *)
Lemma build_input_annot_df_requires_sv_type
      (input_df : DataFrame) (sample_list main_vcf_cols : list string) (sv : string) :
  info_columns config "SV_type" = Ok (JStr sv) ->
  sv = "" \/ has_column input_df sv = false ->
  exists e,
    _build_input_annot_df config input_df sample_list main_vcf_cols = Raise e
    /\ _build_info_dic remove_decimal_or_strip config input_df sample_list main_vcf_cols
       = Raise e.
Proof.
  intros Hinfo Hsv.
  assert (Hraise : exists e, _build_input_annot_df config input_df sample_list
                               main_vcf_cols = Raise e).
  { unfold _build_input_annot_df.
    destruct (vcf_columns config "SAMPLE") as [sample|e]; [|now exists e].
    destruct (vcf_columns config "FORMAT") as [format|e]; [|now exists e].
    destruct (info_columns config "INFO") as [info|e]; [|now exists e].
    cbn [bind].
    destruct (drop_loop input_df _) as [df|] eqn:Hdrop; [|now eexists].
    rewrite Hinfo. cbn [bind json_is as_label].
    destruct (String.eqb_spec sv "") as [->|Hne]; [now eexists|].
    destruct Hsv as [->|Hsv]; [congruence|].
    destruct (drop_loop_one _ _ Hdrop) as [c [_ [_ [Hc _]]]].
    assert (Hno : has_column (replace_regex semicolon comma df) sv = false).
    { unfold has_column. cbn [columns replace_regex]. rewrite Hc.
      apply mem_false_In. intros Hin. apply filter_In in Hin. destruct Hin as [Hin _].
      apply mem_In in Hin. unfold has_column in Hsv. congruence. }
    rewrite Hno. now eexists. }
  destruct Hraise as [e He]. exists e. split; [exact He|].
  unfold _build_info_dic. now rewrite He.
Qed.

(** C9, amended.  When the configured SV_type label is empty, or names no
    column of the table as [_get_main_vcf_cols] leaves it, the conversion
    raises before the output file is opened, and [_build_info_dic] raises
    in [_build_input_annot_df], before it merges any group. *)
Theorem convert_requires_sv_type_column (tsv sv : string) :
  info_columns config "SV_type" = Ok (JStr sv) ->
  (sv = ""
   \/ forall loaded main,
        read_csv_sorted config tsv = Ok loaded ->
        _get_main_vcf_cols config (reset_index loaded) = Ok main ->
        has_column (snd main) sv = false) ->
  (exists e,
      prepare remove_decimal_or_strip HelperFunctions read_csv_sorted config tsv
      = Raise e
      /\ convert remove_decimal_or_strip is_helper_func HelperFunctions
                 create_vcf_header read_csv_sorted config tsv
         = (Raise e, None))
  /\ (forall loaded main sample_list,
         read_csv_sorted config tsv = Ok loaded ->
         _get_main_vcf_cols config (reset_index loaded) = Ok main ->
         exists e,
           _build_input_annot_df config (snd main) sample_list (fst main) = Raise e
           /\ _build_info_dic remove_decimal_or_strip config (snd main) sample_list
                              (fst main)
              = Raise e).
Proof.
  intros Hinfo Hsv.
  assert (Hstep : forall loaded main sample_list,
             read_csv_sorted config tsv = Ok loaded ->
             _get_main_vcf_cols config (reset_index loaded) = Ok main ->
             exists e,
               _build_input_annot_df config (snd main) sample_list (fst main) = Raise e
               /\ _build_info_dic remove_decimal_or_strip config (snd main) sample_list
                                  (fst main)
                  = Raise e).
  { intros loaded main sample_list Hread Hmain.
    apply build_input_annot_df_requires_sv_type with (sv := sv); [exact Hinfo|].
    destruct Hsv as [->|Hsv]; [now left | right; now apply (Hsv loaded)]. }
  split; [|exact Hstep].
  assert (Hprep : exists e,
             prepare remove_decimal_or_strip HelperFunctions read_csv_sorted config tsv
             = Raise e).
  { unfold prepare.
    destruct (HelperFunctions config) as [helper|e]; [|now exists e]. cbn [bind].
    unfold _build_input_dataframe.
    destruct (read_csv_sorted config tsv) as [loaded|e] eqn:Hread; [|now exists e].
    cbn [bind].
    destruct (_get_sample_list config (reset_index loaded)) as [samples|e];
      [|now exists e].
    cbn [bind].
    destruct (_get_main_vcf_cols config (reset_index loaded)) as [main|e] eqn:Hmain;
      [|now exists e].
    cbn [bind].
    destruct (Hstep loaded main samples eq_refl Hmain) as [e [_ He]].
    rewrite He. now exists e. }
  destruct Hprep as [e He]. exists e. split; [exact He|].
  now apply convert_prepare_raises.
Qed.

End SvTypeColumn.

(** The table without an SV_type column, read with the configuration
    that names SV_type. *)
Lemma convert_requires_sv_type_column_witness :
  info_columns config_bed "SV_type" = Ok (JStr "SV_type")
  /\ has_column table_without_sv_type "SV_type" = false
  /\ exists e,
      prepare remove_decimal_or_strip_model no_helper_functions
              (table_reader table_without_sv_type) config_bed "in.tsv"
      = Raise e
      /\ convert remove_decimal_or_strip_model is_helper_func_model
                 no_helper_functions fixed_header
                 (table_reader table_without_sv_type) config_bed "in.tsv"
         = (Raise e, None).
Proof.
  assert (H1 : info_columns config_bed "SV_type" = Ok (JStr "SV_type"))
    by reflexivity.
  assert (H2 : "SV_type" = ""
               \/ forall loaded main,
                    table_reader table_without_sv_type config_bed "in.tsv" = Ok loaded ->
                    _get_main_vcf_cols config_bed (reset_index loaded) = Ok main ->
                    has_column (snd main) "SV_type" = false).
  { right. intros loaded main Hl Hm. inversion Hl; subst loaded.
    vm_compute in Hm. inversion Hm; subst main. reflexivity. }
  split; [exact H1 | split; [reflexivity|]].
  exact (proj1 (@convert_requires_sv_type_column
                  remove_decimal_or_strip_model is_helper_func_model
                  no_helper_functions fixed_header
                  (table_reader table_without_sv_type) config_bed
                  "in.tsv" "SV_type" H1 H2)).
Defined.

(** ** C10: semicolons *)

Lemma fold_left_invariant {A S : Type} (P : S -> Prop) (f : S -> A -> S) (l : list A) :
  (forall acc x, In x l -> P acc -> P (f acc x)) ->
  forall acc, P acc -> P (fold_left f l acc).
Proof.
  induction l as [|x l IH]; intros Hstep acc Hacc; simpl; [assumption|].
  apply IH.
  - intros a y Hy. apply Hstep. now right.
  - apply Hstep; [now left | assumption].
Qed.

Lemma clean_join (sep : string) (l : list string) :
  clean sep -> Forall clean l -> clean (join sep l).
Proof.
  unfold clean. intros Hsep Hl. rewrite count_char_join, Hsep, Nat.mul_0_r, Nat.add_0_r.
  induction Hl as [|x l Hx _ IH]; simpl; [reflexivity|]. now rewrite Hx, IH.
Qed.

Lemma loc_In (df : DataFrame) (lbl : nat) (c v : string) :
  loc df lbl c = Ok v ->
  exists r, In r (rows df) /\ v = cell r c /\ In c (columns df).
Proof.
  unfold loc. destruct (find _ (rows df)) as [r|] eqn:Hf; [|discriminate].
  destruct (has_column df c) eqn:Hc; [|discriminate].
  intros H. inversion H; subst. exists r. repeat split.
  - now apply find_some in Hf.
  - now apply mem_In.
Qed.

Lemma clean_annots_set (cols : list string) (annots : dict string) (k v : string) :
  clean_annots cols annots -> In k cols -> clean v ->
  clean_annots cols (dict_set annots k v).
Proof.
  intros Ha Hk Hv k' v' Hin. apply dict_set_In in Hin.
  destruct Hin as [Heq|Hin]; [inversion Heq; subst; now split | now apply Ha].
Qed.

Section Semicolons.
Variable remove_decimal_or_strip : string -> string.
Variable config : Config.
Hypothesis remove_decimal_or_strip_clean :
  forall s, clean s -> clean (remove_decimal_or_strip s).

Lemma build_input_annot_df_ok (input_df df : DataFrame)
      (sample_list main_vcf_cols : list string) :
  _build_input_annot_df config input_df sample_list main_vcf_cols = Ok df ->
  rows df = rows (replace_regex semicolon comma input_df)
  /\ incl (columns df) (columns input_df).
Proof.
  unfold _build_input_annot_df. intros H.
  destruct (vcf_columns config "SAMPLE") as [sample|e]; [|discriminate].
  destruct (vcf_columns config "FORMAT") as [format|e]; [|discriminate].
  destruct (info_columns config "INFO") as [info|e]; [|discriminate].
  cbn [bind] in H.
  destruct (drop_loop input_df _) as [d|] eqn:Hdrop; [|discriminate].
  destruct (info_columns config "SV_type") as [sv|e]; [|discriminate].
  cbn [bind] in H. destruct (json_is sv ""); [discriminate|].
  destruct (as_label sv) as [svl|e]; [|discriminate]. cbn [bind] in H.
  destruct (negb _); [discriminate|]. inversion H; subst df.
  destruct (drop_loop_one _ _ Hdrop) as [c [_ [_ [Hc Hr]]]].
  cbn [rows columns replace_regex]. rewrite Hr, Hc. split; [reflexivity|].
  intros x Hx. now apply filter_In in Hx.
Qed.

Lemma replace_regex_clean (df : DataFrame) :
  clean_cells (replace_regex semicolon comma df).
Proof.
  intros r c Hr. cbn [rows replace_regex] in Hr. apply in_map_iff in Hr.
  destruct Hr as [r0 [<- _]]. cbn [cell]. apply count_char_replace. discriminate.
Qed.

Lemma seed_from_full_clean (cols : list string) (df full : DataFrame)
      (annots annots' : dict string) (ann : string) :
  clean_cells full -> incl (columns full) cols ->
  clean_annots cols annots ->
  seed_from_full remove_decimal_or_strip df full annots ann = Ok annots' ->
  clean_annots cols annots'.
Proof.
  intros Hfull Hincl Ha H. unfold seed_from_full in H.
  destruct (first_index df) as [i|e]; [|discriminate]. cbn [bind] in H.
  destruct (loc full i ann) as [v|e] eqn:Hloc; [|discriminate]. cbn [bind] in H.
  inversion H; subst. apply loc_In in Hloc. destruct Hloc as [r [Hr [-> Hc]]].
  apply clean_annots_set; auto.
Qed.

Lemma merge_split_clean (cols : list string) (mode_col : json) (split : DataFrame)
      (annots annots' : dict string) (ann : string) :
  clean (GENERAL_mode config) ->
  clean_cells split -> In ann cols ->
  clean_annots cols annots ->
  merge_split remove_decimal_or_strip config mode_col split annots ann = Ok annots' ->
  clean_annots cols annots'.
Proof.
  intros Hmode Hsplit Hann Ha H. unfold merge_split in H.
  destruct (json_is mode_col ann).
  - inversion H; subst. now apply clean_annots_set.
  - unfold column_values in H. destruct (has_column split ann); [|discriminate].
    cbn [bind] in H. unfold dict_item in H.
    destruct (dict_get annots ann) as [current|] eqn:Hget; [|discriminate].
    cbn [bind] in H. apply Ok_inj in H. subst annots'.
    apply clean_annots_set; auto.
    apply clean_join; [reflexivity|]. constructor.
    + apply dict_get_In in Hget. now apply Ha in Hget.
    + apply Forall_forall. intros v Hv. apply in_map_iff in Hv.
      destruct Hv as [x [<- Hx]]. apply in_map_iff in Hx. destruct Hx as [r [<- Hr]].
      now apply remove_decimal_or_strip_clean, Hsplit.
Qed.

(** The merge of a group with clean cells: keys among the columns of the
    group, values without ";". *)
Lemma merge_clean (df : DataFrame) (warns : list string) (annots : dict string) :
  clean_cells df ->
  _merge_full_and_split remove_decimal_or_strip config df = Ok (warns, annots) ->
  clean_annots (columns df) annots.
Proof.
  intros Hdf H.
  destruct (String.eqb_spec (GENERAL_mode config) "full&split") as [Hmode|Hmode].
  2:{ unfold _merge_full_and_split in H. apply String.eqb_neq in Hmode.
      rewrite Hmode in H. discriminate. }
  destruct (info_columns config "Annotation_mode") as [[l|l|o]|e] eqn:Hinfo.
  2-4: unfold _merge_full_and_split in H; rewrite Hmode, Hinfo in H; discriminate.
  destruct (mem l (annotation_columns df)) eqn:Hcol.
  2:{ rewrite (@merge_missing_mode_column_raises remove_decimal_or_strip config
                 df l Hmode Hinfo Hcol) in H. discriminate. }
  rewrite (@merge_unfold remove_decimal_or_strip config df l Hmode Hinfo Hcol) in H.
  destruct (forallb _ (type_keys l df)); [|discriminate].
  cbn [bind] in H. rewrite !type_frame_lookup in H.
  assert (Hcols : incl (annotation_columns df) (columns df))
    by (intros x Hx; now apply filter_In in Hx).
  assert (Hframe : forall tag, clean_cells (type_frame l tag df)).
  { intros tag r c Hr. cbn [rows type_frame] in Hr. apply filter_In in Hr.
    now apply Hdf. }
  assert (Hm : clean (GENERAL_mode config)) by (rewrite Hmode; reflexivity).
  assert (Hsplit : forall start out,
             clean_annots (columns df) start ->
             for_each (merge_split remove_decimal_or_strip config (JStr l)
                                   (type_frame l "split" df))
                      (columns (type_frame l "split" df)) start = Ok out ->
             clean_annots (columns df) out).
  { intros start out Hstart Hrun.
    eapply (for_each_invariant (clean_annots (columns df))); [|exact Hstart|exact Hrun].
    intros acc x acc' Hx Hacc Hbody.
    eapply merge_split_clean;
      [exact Hm | apply Hframe | apply Hcols; exact Hx | exact Hacc | exact Hbody]. }
  assert (Hnil : clean_annots (columns df) []) by (intros k v []).
  destruct (rows_tagged l "full" df) as [|f fs].
  - destruct (rows_tagged l "split" df) as [|s ss].
    + inversion H; subst. exact Hnil.
    + destruct (for_each _ _ _) as [out|e] eqn:Hrun; [|discriminate].
      cbn [bind] in H. inversion H; subst. eapply Hsplit; [|exact Hrun].
      apply fold_left_invariant; [|exact Hnil].
      intros acc x Hx Hacc. apply clean_annots_set; auto. reflexivity.
  - destruct (_ <? _)%nat; [discriminate|].
    destruct (for_each _ (columns (type_frame l "full" df)) _) as [seeded|e] eqn:Hseed;
      [|discriminate].
    cbn [bind] in H.
    assert (Hseeded : clean_annots (columns df) seeded).
    { eapply (for_each_invariant (clean_annots (columns df))); [|exact Hnil|exact Hseed].
      intros acc x acc' Hx Hacc Hbody.
      eapply seed_from_full_clean;
        [apply Hframe | exact Hcols | exact Hacc | exact Hbody]. }
    destruct (rows_tagged l "split" df) as [|s ss].
    + inversion H; subst. exact Hseeded.
    + destruct (for_each (merge_split _ _ _ _) _ _) as [out|e] eqn:Hrun;
        [|discriminate].
      cbn [bind] in H. inversion H; subst.
      exact (Hsplit _ _ Hseeded Hrun).
Qed.

(** The ";" of an INFO field whose keys and values hold none: one between
    two pairs. *)
Lemma info_field_semicolons (annots : dict string) :
  (forall k v, In (k, v) annots -> clean k /\ clean v) ->
  count_char semicolon (info_field annots) = List.length annots - 1.
Proof.
  intros H. unfold info_field. rewrite count_char_join, length_map.
  assert (Hsum : forall d : dict string,
             (forall k v, In (k, v) d -> clean k /\ clean v) ->
             list_sum (map (count_char semicolon)
                           (map (fun kv : string * string =>
                                   (fst kv ++ "=" ++ snd kv)%string) d)) = 0).
  { induction d as [|[k v] d IH]; intros Hd; [reflexivity|].
    cbn [map fst snd]. rewrite !count_char_app.
    destruct (Hd k v (or_introl eq_refl)) as [Hk Hv]. unfold clean in Hk, Hv.
    unfold list_sum in *. cbn [fold_right].
    rewrite Hk, Hv, IH; [reflexivity|]. intros k' v' Hin. apply Hd. now right. }
  rewrite (Hsum annots H). simpl. lia.
Qed.

(** C10, amended.  [_build_input_annot_df] replaces every ";" of the cells
    by ","; no value of a merged annotation holds a ";"; and when no
    column label of the table holds one either, the only ";" of the INFO
    field of a variant are those between its pairs. *)
Theorem merged_values_without_semicolon
        (input_df : DataFrame) (sample_list main_vcf_cols warns : list string)
        (info_dic : dict (dict string)) :
  _build_info_dic remove_decimal_or_strip config input_df sample_list main_vcf_cols
  = Ok (warns, info_dic) ->
  (exists df,
      _build_input_annot_df config input_df sample_list main_vcf_cols = Ok df
      /\ rows df
         = map (fun r => mkRow (label r)
                               (fun c => replace_char semicolon comma (cell r c)))
               (rows input_df))
  /\ forall variant_id annots,
      In (variant_id, annots) info_dic ->
      (forall k v, In (k, v) annots -> clean v)
      /\ ((forall c, In c (columns input_df) -> clean c) ->
          count_char semicolon (info_field annots) = List.length annots - 1).
Proof.
  unfold _build_info_dic. intros H.
  destruct (_build_input_annot_df _ _ _ _) as [df|e] eqn:Hdf; [|discriminate].
  cbn [bind] in H. destruct (build_input_annot_df_ok _ _ _ Hdf) as [Hrows Hincl].
  split; [exists df; split; [reflexivity | exact Hrows]|].
  assert (Hclean : clean_cells df).
  { intros r c Hr. rewrite Hrows in Hr. now apply (replace_regex_clean input_df). }
  destruct (info_columns config "AnnotSV_ID") as [[id|l|o]|e]; try discriminate.
  cbn [bind as_label] in H. unfold groupby in H.
  destruct (has_column df id); [|discriminate]. cbn [bind] in H.
  assert (Hall : forall variant_id annots,
             In (variant_id, annots) info_dic -> clean_annots (columns df) annots).
  { change info_dic with (snd (warns, info_dic)).
    eapply (for_each_invariant
              (fun st : list string * dict (dict string) =>
                 forall variant_id annots,
                   In (variant_id, annots) (snd st) ->
                   clean_annots (columns df) annots));
      [| |exact H]; [|intros ? ? []].
    intros st g st' Hg Hst Hbody. cbv beta in Hbody.
    destruct (_merge_full_and_split remove_decimal_or_strip config (snd g))
      as [[w a]|e] eqn:Hm; [|discriminate].
    cbn [bind] in Hbody. inversion Hbody; subst. cbn [fst snd].
    intros variant_id annots Hin. apply dict_set_In in Hin.
    destruct Hin as [Heq|Hin]; [|now apply (Hst variant_id)].
    inversion Heq; subst.
    apply in_map_iff in Hg. destruct Hg as [k [<- _]].
    apply (merge_clean (df := mkDF (columns df)
                                   (filter (fun r => cell r id =? k) (rows df)))
                       (warns := w)); [|exact Hm].
    intros r c Hr. cbn [rows] in Hr. apply filter_In in Hr. now apply Hclean. }
  intros variant_id annots Hin. specialize (Hall _ _ Hin). split.
  - intros k v Hkv. now apply (Hall k v).
  - intros Hlabels. apply info_field_semicolons. intros k v Hkv.
    destruct (Hall k v Hkv) as [Hk Hv]. split; [|exact Hv].
    apply Hlabels, Hincl, Hk.
Qed.

End Semicolons.

Lemma count_char_strip_trailing (d c : ascii) (s : string) :
  count_char d (strip_trailing c s) <= count_char d s.
Proof.
  induction s as [|a s IH]; simpl; [lia|].
  destruct (strip_trailing c s) as [|b t] eqn:Hs.
  - destruct (Ascii.eqb a c); simpl in *; lia.
  - change (count_char d (String a (String b t)))
      with ((if Ascii.eqb a d then 1 else 0) + count_char d (String b t)).
    lia.
Qed.

(** The model of the decimal normalization only removes characters. *)
Lemma remove_decimal_or_strip_model_clean (s : string) :
  clean s -> clean (remove_decimal_or_strip_model s).
Proof.
  unfold clean, remove_decimal_or_strip_model. intros H.
  destruct (looks_decimal s); [|exact H].
  pose proof (count_char_strip_trailing semicolon "."%char
                (strip_trailing "0"%char s)) as H1.
  pose proof (count_char_strip_trailing semicolon "0"%char s) as H2.
  lia.
Qed.

(** C10 as stated fails: a column label with a ";" goes to the INFO field
    as it is, and the field of the variant holds six ";" for six pairs. *)
Lemma info_field_with_semicolon_in_label :
  convert remove_decimal_or_strip_model is_helper_func_model no_helper_functions
          fixed_header (table_reader table_semicolon_label) config_bed "in.tsv"
  = (Ok tt,
     Some (bed_header
           ++ join tab ["chr1"; "100"; "."; "."; "."; "."; "PASS";
                        "AnnotSV_ID=V1;SV_chrom=chr1;SV_start=100;SV_type=DEL;Annotation_mode=full;Gene;name=BRCA1";
                        "GT"; "0/1"]
           ++ newline)%string)
  /\ exists annots,
      result_map p_info_dic
        (prepare remove_decimal_or_strip_model no_helper_functions
                 (table_reader table_semicolon_label) config_bed "in.tsv")
      = Ok [("V1", annots)]
      /\ List.length annots = 6
      /\ count_char semicolon (info_field annots) = 6
      /\ count_char semicolon (info_field annots) <> List.length annots - 1.
Proof.
  split; [vm_compute; reflexivity|].
  eexists. split; [vm_compute; reflexivity|].
  split; [reflexivity|]. split; [reflexivity|]. vm_compute. discriminate.
Qed.

(** A variant whose cells hold semicolons: commas in the merged values. *)
Lemma merged_values_without_semicolon_witness :
  _build_info_dic remove_decimal_or_strip_model config_bed
                  (reset_index table_semicolon_cells) ["S1"]
                  ["SV_chrom"; "SV_start"; "ID"; "REF"; "ALT"; "QUAL"; "FILTER"]
  = Ok ([], [("V1", [("AnnotSV_ID", "V1|V1|V1"); ("SV_chrom", "chr1|chr1|chr1");
                     ("SV_start", "100|100|100"); ("SV_type", "DEL|DEL|DEL");
                     ("Annotation_mode", "full&split");
                     ("Gene_name", "BRCA1,BRCA2|BRCA1,|BRCA2")])])
  /\ forall variant_id annots,
      In (variant_id, annots)
         [("V1", [("AnnotSV_ID", "V1|V1|V1"); ("SV_chrom", "chr1|chr1|chr1");
                  ("SV_start", "100|100|100"); ("SV_type", "DEL|DEL|DEL");
                  ("Annotation_mode", "full&split");
                  ("Gene_name", "BRCA1,BRCA2|BRCA1,|BRCA2")])] ->
      (forall k v, In (k, v) annots -> clean v)
      /\ ((forall c, In c (columns (reset_index table_semicolon_cells)) -> clean c) ->
          count_char semicolon (info_field annots) = List.length annots - 1).
Proof.
  assert (H : _build_info_dic remove_decimal_or_strip_model config_bed
                (reset_index table_semicolon_cells) ["S1"]
                ["SV_chrom"; "SV_start"; "ID"; "REF"; "ALT"; "QUAL"; "FILTER"]
              = Ok ([], [("V1", [("AnnotSV_ID", "V1|V1|V1");
                                 ("SV_chrom", "chr1|chr1|chr1");
                                 ("SV_start", "100|100|100");
                                 ("SV_type", "DEL|DEL|DEL");
                                 ("Annotation_mode", "full&split");
                                 ("Gene_name", "BRCA1,BRCA2|BRCA1,|BRCA2")])]))
    by (vm_compute; reflexivity).
  split; [exact H|].
  exact (proj2 (@merged_values_without_semicolon
                  remove_decimal_or_strip_model config_bed
                  remove_decimal_or_strip_model_clean
                  (reset_index table_semicolon_cells) ["S1"]
                  ["SV_chrom"; "SV_start"; "ID"; "REF"; "ALT"; "QUAL"; "FILTER"]
                  [] _ H)).
Defined.

(** ** C5: the data line of a group *)


Lemma first_row_values_inv (df : DataFrame) (cols vals : list string) :
  first_row_values df cols = Ok vals ->
  exists r rest, rows df = r :: rest /\ vals = map (cell r) cols.
Proof.
  unfold first_row_values. destruct (find _ cols); [discriminate|].
  destruct (rows df) as [|r rest]; [discriminate|].
  intros H. inversion H. now exists r, rest.
Qed.

Lemma same_rows_but_refl (keys : list string) (df : DataFrame) :
  same_rows_but keys df df.
Proof.
  unfold same_rows_but. induction (rows df); constructor; auto.
Qed.

Lemma same_rows_but_set (keys : list string) (df df' : DataFrame) (k v : string) :
  In k keys -> same_rows_but keys df df' ->
  same_rows_but keys df (set_column df' k v).
Proof.
  unfold same_rows_but. cbn [rows set_column]. intros Hk H.
  induction H as [|r r' rs rs' [Hl Hc] _ IH]; cbn [map]; constructor; auto.
  cbn [label cell]. split; [exact Hl|]. intros c Hn.
  destruct (String.eqb_spec c k) as [->|Hne]; [contradiction | now apply Hc].
Qed.

Section DataLines.
Variable remove_decimal_or_strip : string -> string.
Variable is_helper_func : json -> result bool.
Variable HelperFunctions : Config -> result (string -> result helper_func).
Variable create_vcf_header : string -> Config -> list string -> result (list string).
Variable read_csv_sorted : Config -> string -> result DataFrame.
Variable config : Config.










(** What the completed row holds under the name of a role. *)
Lemma complete_cells_keeps (helper : string -> result helper_func)
      (cells cells' : string -> string) (item : string * json) (c : string) :
  fst item <> c ->
  complete_cells is_helper_func helper cells item = Ok cells' ->
  cells' c = cells c.
Proof.
  intros Hne H. unfold complete_cells in H.
  assert (Hset : forall v, set_cell cells (fst item) v c = cells c).
  { intros v. unfold set_cell.
    destruct (String.eqb_spec c (fst item)); [congruence | reflexivity]. }
  destruct (fst item =? "INFO"); [apply Ok_inj in H; now subst|].
  destruct (_ && _); [apply Ok_inj in H; subst; apply Hset|].
  destruct (is_helper_func (snd item)) as [[|]|e]; try discriminate; cbn [bind] in H.
  - destruct (item_1 (snd item)); [|discriminate]. cbn [bind] in H.
    destruct (helper _); [|discriminate]. cbn [bind] in H.
    destruct (slice_2 (snd item)); [|discriminate]. cbn [bind] in H.
    destruct (_ _) as [v|e] in H; [|discriminate]. cbn [bind] in H.
    apply Ok_inj in H. subst. apply Hset.
  - apply Ok_inj in H. now subst.
Qed.

Lemma completed_keeps (helper : string -> result helper_func)
      (items : list (string * json)) (cells cells' : string -> string) (c : string) :
  ~ In c (map fst items) ->
  for_each (complete_cells is_helper_func helper) items cells = Ok cells' ->
  cells' c = cells c.
Proof.
  intros Hc.
  apply (for_each_invariant (fun x : string -> string => x c = cells c));
    [|reflexivity].
  intros acc item acc' Hin Hacc Hbody. rewrite <- Hacc.
  apply (@complete_cells_keeps helper acc acc' item c); [|exact Hbody].
  intros Heq. apply Hc. rewrite <- Heq. now apply in_map.
Qed.

(** A FILTER role without a column: the completed row holds PASS. *)
Lemma completed_row_filter_pass (helper : string -> result helper_func)
      (cells filled : string -> string) :
  NoDup (dict_keys (VCF_COLUMNS config)) ->
  vcf_columns config "FILTER" = Ok (JStr "") ->
  completed_row is_helper_func helper config cells = Ok filled ->
  filled "FILTER" = "PASS".
Proof.
  intros Hnd Hf H. unfold completed_row in H. unfold vcf_columns, dict_item in Hf.
  destruct (dict_get (VCF_COLUMNS config) "FILTER") as [v|] eqn:Hget; [|discriminate].
  apply Ok_inj in Hf. subst v. apply dict_get_In, in_split in Hget.
  destruct Hget as [pre [post Hsplit]]. rewrite Hsplit in H, Hnd.
  unfold dict_keys in Hnd. rewrite map_app in Hnd. cbn [map fst] in Hnd.
  apply NoDup_remove_2 in Hnd. rewrite for_each_app in H.
  destruct (for_each _ pre cells) as [cells1|e]; [|discriminate].
  cbn [bind for_each] in H. unfold complete_cells at 1 in H. cbn in H.
  apply completed_keeps with (c := "FILTER") in H.
  - rewrite H. reflexivity.
  - intros Hin. apply Hnd, in_app_iff. now right.
Qed.

(** A role with a helper-function pattern: the completed row holds,
    under the name of the role, what the function returned for the cells
    that the pattern names. *)
Lemma completed_row_helper (helper : string -> result helper_func)
      (cells filled : string -> string) (k : string) (v : json) :
  NoDup (dict_keys (VCF_COLUMNS config)) ->
  In (k, v) (VCF_COLUMNS config) ->
  k <> "INFO" ->
  (k =? "FILTER") && json_is v "" = false ->
  is_helper_func v = Ok true ->
  completed_row is_helper_func helper config cells = Ok filled ->
  exists name func labels before,
    item_1 v = Ok name
    /\ helper name = Ok func
    /\ slice_2 v = Ok labels
    /\ func (map before labels) = Ok (filled k)
    /\ forall c, ~ In c (dict_keys (VCF_COLUMNS config)) -> before c = cells c.
Proof.
  intros Hnd Hin Hk Hf Hv H. unfold completed_row in H.
  apply in_split in Hin. destruct Hin as [pre [post Hsplit]].
  rewrite Hsplit in H, Hnd |- *.
  unfold dict_keys in Hnd |- *. rewrite map_app in Hnd |- *. cbn [map fst] in Hnd |- *.
  apply NoDup_remove_2 in Hnd. rewrite for_each_app in H.
  destruct (for_each _ pre cells) as [cells1|e] eqn:Hpre; [|discriminate].
  cbn [bind for_each] in H. unfold complete_cells at 1 in H. cbn [fst snd] in H.
  apply String.eqb_neq in Hk. rewrite Hk, Hf, Hv in H. cbn [bind] in H.
  destruct (item_1 v) as [name|e] eqn:Hname; [|discriminate]. cbn [bind] in H.
  destruct (helper name) as [func|e] eqn:Hfunc; [|discriminate]. cbn [bind] in H.
  destruct (slice_2 v) as [labels|e] eqn:Hlabels; [|discriminate]. cbn [bind] in H.
  destruct (func (map cells1 labels)) as [res|e] eqn:Hres; [|discriminate].
  cbn [bind] in H. apply completed_keeps with (c := k) in H.
  - exists name, func, labels, cells1.
    split; [reflexivity|]. split; [exact Hfunc|]. split; [reflexivity|]. split.
    + rewrite H. unfold set_cell. rewrite String.eqb_refl. exact Hres.
    + intros c Hc. apply (@completed_keeps helper pre cells cells1 c); [|exact Hpre].
      intros Hin. apply Hc, in_app_iff. now left.
  - intros Hin. apply Hnd, in_app_iff. now right.
Qed.

(** The description leaves nothing of the line open: a group has one
    line at most. *)
Lemma data_line_unique (p : Prepared) (g : string * DataFrame) (line line' : string) :
  data_line remove_decimal_or_strip is_helper_func config p g line ->
  data_line remove_decimal_or_strip is_helper_func config p g line' ->
  line = line'.
Proof.
  intros [first [rest [filled [annots [sc [Hrows [Hfilled [_ [Hget [_ [Hsc ->]]]]]]]]]]].
  intros [first' [rest' [filled' [annots' [sc' [Hrows' [Hfilled' [_ [Hget' [_ [Hsc' ->]]]]]]]]]]].
  rewrite Hrows in Hrows'. inversion Hrows'; subst first' rest'. clear Hrows'.
  rewrite Hfilled in Hfilled'. apply Ok_inj in Hfilled'. subst filled'.
  rewrite Hget in Hget'. inversion Hget'; subst annots'. clear Hget'.
  destruct (vcf_columns config "FORMAT") as [[[|a f]|l|o]|e]; try contradiction;
    now subst.
Qed.



End DataLines.


Section OneLinePerGroup.
Variable remove_decimal_or_strip : string -> string.
Variable is_helper_func : json -> result bool.
Variable HelperFunctions : Config -> result (string -> result helper_func).
Variable create_vcf_header : string -> Config -> list string -> result (list string).
Variable read_csv_sorted : Config -> string -> result DataFrame.
Variable config : Config.


End OneLinePerGroup.


(** ** C2: the INFO lines of the header *)

Lemma string_length_app (a b : string) :
  String.length (a ++ b) = String.length a + String.length b.
Proof.
  induction a as [|x a IH]; simpl; [reflexivity|]. now rewrite IH.
Qed.

Lemma starts_with_length (p s : string) :
  starts_with p s = true -> String.length p <= String.length s.
Proof.
  revert s. induction p as [|a p IH]; intros s H; simpl; [lia|].
  destruct s as [|b s]; simpl in H; [discriminate|].
  apply andb_true_iff in H. destruct H as [_ H]. apply IH in H. simpl. lia.
Qed.

Lemma xs_length (n : nat) : String.length (xs n) = n.
Proof.
  induction n as [|n IH]; simpl; [reflexivity|]. now rewrite IH.
Qed.

(** No line of a header starts like the INFO line of a key longer than
    the header. *)
Lemma long_key_not_declared (header : list string) (l : string) :
  In l header ->
  starts_with
    (info_line_start (long_key (list_sum (map String.length header)))) l = false.
Proof.
  intros Hin. destruct (starts_with _ l) eqn:Hs; [|reflexivity].
  apply starts_with_length in Hs. unfold info_line_start, long_key in Hs.
  rewrite !string_length_app in Hs. cbn [String.length] in Hs.
  rewrite xs_length in Hs.
  assert (Hl : String.length l <= list_sum (map String.length header)).
  { clear Hs. induction header as [|x header IH]; [destruct Hin|].
    unfold list_sum. cbn [map fold_right]. fold (list_sum (map String.length header)).
    destruct Hin as [->|Hin]; [lia|]. apply IH in Hin. lia. }
  lia.
Qed.

(** The conversion of a table with one annotation column, whatever its
    label after a Z and whatever builds the header. *)
Lemma prepare_table_with_column (tail : string) :
  result_map
    (fun p => (p_sample_list p, p_info_keys p))
    (prepare remove_decimal_or_strip_model no_helper_functions
             (table_reader (table_with_column (String "Z" tail))) config_bed "in.tsv")
  = Ok (["S1"],
        ["AnnotSV_ID"; "SV_chrom"; "SV_start"; "SV_type"; "Annotation_mode";
         String "Z" tail]).
Proof.
  cbn. repeat (rewrite String.eqb_refl; cbn). reflexivity.
Qed.

Lemma convert_table_with_column
      (create_vcf_header : string -> Config -> list string -> result (list string))
      (tail : string) :
  convert remove_decimal_or_strip_model is_helper_func_model no_helper_functions
          create_vcf_header (table_reader (table_with_column (String "Z" tail)))
          config_bed "in.tsv"
  = match create_vcf_header "in.tsv" config_bed ["S1"] with
    | Ok vcf_header =>
        (Ok tt, Some (header_text vcf_header ++ line_with_key (String "Z" tail))%string)
    | Raise e => (Raise e, Some "")
    end.
Proof.
  unfold convert. cbn -[header_text]. repeat (rewrite String.eqb_refl; cbn -[header_text]).
  destruct (create_vcf_header "in.tsv" config_bed ["S1"]) as [vcf_header|e];
    [|reflexivity].
  cbn -[header_text]. repeat (rewrite String.eqb_refl; cbn -[header_text]).
  unfold row_of. cbn -[header_text].
  repeat (rewrite String.eqb_refl; cbn -[header_text]).
  rewrite !string_app_nil_r, !string_app_assoc. reflexivity.
Qed.

(** C2.  The header [convert] writes is the one [commons.create_vcf_header]
    makes of the path, the configuration and the sample list: the keys
    gathered in lines 327-330 do not reach it.  So, whatever that function
    is, there is a table of one variant and one sample whose conversion
    ends normally, whose GlobalInfoKeySet holds a key, and whose header
    has no INFO line for this key. *)
Theorem emitted_header_ignores_info_keys :
  forall create_vcf_header : string -> Config -> list string -> result (list string),
  exists key : string,
    result_map
      (fun p => (p_sample_list p, p_info_keys p))
      (prepare remove_decimal_or_strip_model no_helper_functions
               (table_reader (table_with_column key)) config_bed "in.tsv")
    = Ok (["S1"],
          ["AnnotSV_ID"; "SV_chrom"; "SV_start"; "SV_type"; "Annotation_mode"; key])
    /\ (forall vcf_header,
           create_vcf_header "in.tsv" config_bed ["S1"] = Ok vcf_header ->
           convert remove_decimal_or_strip_model is_helper_func_model
                   no_helper_functions create_vcf_header
                   (table_reader (table_with_column key)) config_bed "in.tsv"
           = (Ok tt, Some (header_text vcf_header ++ line_with_key key)%string)
           /\ forall l, In l vcf_header -> starts_with (info_line_start key) l = false)
    /\ (forall e,
           create_vcf_header "in.tsv" config_bed ["S1"] = Raise e ->
           convert remove_decimal_or_strip_model is_helper_func_model
                   no_helper_functions create_vcf_header
                   (table_reader (table_with_column key)) config_bed "in.tsv"
           = (Raise e, Some "")).
Proof.
  intros create_vcf_header.
  destruct (create_vcf_header "in.tsv" config_bed ["S1"]) as [header|e] eqn:Hh.
  - exists (long_key (list_sum (map String.length header))). split; [|split].
    + apply prepare_table_with_column.
    + intros vcf_header Hv. apply Ok_inj in Hv. subst vcf_header. split.
      * unfold long_key. now rewrite convert_table_with_column, Hh.
      * intros l Hl. now apply long_key_not_declared.
    + discriminate.
  - exists (long_key 0). split; [|split].
    + apply prepare_table_with_column.
    + discriminate.
    + intros e' He. apply (f_equal (fun r => match r with
                                             | Raise x => x
                                             | Ok _ => e
                                             end)) in He. subst e'.
      unfold long_key. now rewrite convert_table_with_column, Hh.
Qed.

(** The static [_create_vcf_header], which [convert] does not call, does
    what C2 states of the keys it is given. *)
Lemma append_lines_spec (line : string -> result string) (keys header out : list string) :
  append_lines line keys header = Ok out ->
  incl header out
  /\ forall key, In key keys -> exists l, line key = Ok l /\ In l out.
Proof.
  unfold append_lines. revert header.
  induction keys as [|k keys IH]; intros header H; simpl in H.
  - apply Ok_inj in H. subst. split; [apply incl_refl | intros key []].
  - destruct (line k) as [l|e] eqn:Hl; [|discriminate]. cbn [bind] in H.
    apply IH in H. destruct H as [Hincl Hkeys]. split.
    + intros x Hx. apply Hincl, in_app_iff. now left.
    + intros key [<-|Hk]; [|now apply Hkeys].
      exists l. split; [exact Hl|]. apply Hincl, in_app_iff. right. now left.
Qed.

Lemma typed_line_described (config : Config) (section key type description : string)
      (descriptions : dict (dict string)) (info_config : dict string) :
  dict_get (COLUMNS_DESCRIPTION config) section = Some descriptions ->
  dict_get descriptions key = Some info_config ->
  dict_get info_config "Type" = Some type ->
  dict_get info_config "Description" = Some description ->
  typed_line config section key
  = Ok ("##" ++ section ++ "=<ID=" ++ key ++ ",Number=.,Type=" ++ type
             ++ ",Description=" ++ dquote ++ description ++ dquote ++ ">")%string.
Proof.
  intros Hs Hk Ht Hd. unfold typed_line, dict_item.
  rewrite Hs. cbn [bind]. rewrite Hk, Ht. cbn [bind]. now rewrite Hd.
Qed.

Lemma typed_line_default (config : Config) (section key : string)
      (descriptions : dict (dict string)) :
  dict_get (COLUMNS_DESCRIPTION config) section = Some descriptions ->
  dict_get descriptions key = None ->
  typed_line config section key
  = Ok ("##" ++ section ++ "=<ID=" ++ key
             ++ ",Number=.,Type=String,Description=" ++ dquote
             ++ "Imported from " ++ GENERAL_origin config ++ dquote ++ ">")%string.
Proof.
  intros Hs Hk. unfold typed_line, dict_item. rewrite Hs. cbn [bind]. now rewrite Hk.
Qed.

(** X17.  Every key of [info_keys] has its typed INFO line in the header of the
    static [_create_vcf_header]: the line of its description in the
    configuration, or the line of the default description. *)
Lemma create_vcf_header_declares_info_keys
      (today : string) (abspath : string -> string) (input_path : string)
      (config : Config) (sample_list : list string) (input_df : DataFrame)
      (info_keys header : list string) :
  _create_vcf_header today abspath input_path config sample_list input_df info_keys
  = Ok header ->
  forall key, In key info_keys ->
    exists line, typed_line config "INFO" key = Ok line /\ In line header.
Proof.
  unfold _create_vcf_header. intros H key Hkey.
  destruct (vcf_columns config "FILTER") as [v|e]; [|discriminate]. cbn [bind] in H.
  destruct (as_label v) as [filter_col|e]; [|discriminate]. cbn [bind] in H.
  match type of H with
  | (header <- ?first ;; _) = _ => destruct first as [h0|e]; [|discriminate]
  end.
  cbn [bind] in H.
  destruct (vcf_columns config "REF") as [v1|e]; [|discriminate]. cbn [bind] in H.
  destruct (as_label v1) as [ref|e]; [|discriminate]. cbn [bind] in H.
  destruct (column_values input_df ref) as [refs|e]; [|discriminate]. cbn [bind] in H.
  destruct (vcf_columns config "ALT") as [v2|e]; [|discriminate]. cbn [bind] in H.
  destruct (as_label v2) as [alt|e]; [|discriminate]. cbn [bind] in H.
  destruct (column_values input_df alt) as [alts|e]; [|discriminate]. cbn [bind] in H.
  destruct (append_lines (described_line config "REF") _ h0) as [h1|e]; [|discriminate].
  cbn [bind] in H.
  destruct (append_lines (described_line config "ALT") _ h1) as [h2|e]; [|discriminate].
  cbn [bind] in H.
  destruct (vcf_columns config "FORMAT") as [v3|e]; [|discriminate]. cbn [bind] in H.
  destruct (as_label v3) as [format|e]; [|discriminate]. cbn [bind] in H.
  destruct (column_values input_df format) as [formats|e]; [|discriminate].
  cbn [bind] in H.
  destruct (append_lines (typed_line config "INFO") info_keys h2) as [h3|e] eqn:Hinfo;
    [|discriminate].
  cbn [bind] in H.
  destruct (append_lines (typed_line config "FORMAT") _ h3) as [h4|e] eqn:Hformat;
    [|discriminate].
  cbn [bind] in H. apply Ok_inj in H. subst header.
  destruct (append_lines_spec _ _ _ Hinfo) as [_ Hlines].
  destruct (append_lines_spec _ _ _ Hformat) as [Hincl _].
  destruct (Hlines key Hkey) as [line [Hline Hin]].
  exists line. split; [exact Hline|]. apply in_app_iff. left. now apply Hincl.
Qed.

(* ===================================================================== *)
(** * More properties of the converter *)
(* ===================================================================== *)

(** ** The merge: row types, keys and values *)

Lemma dict_keys_set_known {V : Type} (d : dict V) (k : string) (v : V) :
  In k (dict_keys d) -> dict_keys (dict_set d k v) = dict_keys d.
Proof.
  induction d as [|[k0 v0] d IH]; simpl; [tauto|].
  destruct (String.eqb_spec k0 k) as [->|Hne]; [reflexivity|].
  intros [H|H]; [congruence|]. simpl. now rewrite IH.
Qed.

Lemma dict_keys_set_new {V : Type} (d : dict V) (k : string) (v : V) :
  ~ In k (dict_keys d) -> dict_keys (dict_set d k v) = dict_keys d ++ [k].
Proof.
  intros H. rewrite dict_set_new by exact H. unfold dict_keys. now rewrite map_app.
Qed.

Section MergeMore.
Variable remove_decimal_or_strip : string -> string.
Variable config : Config.

(** X2.  A group that is one full row: the merged annotation is that row, cell
    by cell in the order of the annotation columns, each value normalized;
    the column of the row types keeps the value full. *)
Theorem merge_full_row_only (df : DataFrame) (mode_label : string) (r : Row) :
  GENERAL_mode config = "full&split" ->
  info_columns config "Annotation_mode" = Ok (JStr mode_label) ->
  mem mode_label (annotation_columns df) = true ->
  NoDup (annotation_columns df) ->
  rows df = [r] ->
  cell r mode_label = "full" ->
  _merge_full_and_split remove_decimal_or_strip config df
  = Ok ([], map (fun ann => (ann, remove_decimal_or_strip (cell r ann)))
                (annotation_columns df)).
Proof.
  intros Hmode Hinfo Hcol Hnd Hrows Hfull.
  rewrite (@merge_unfold remove_decimal_or_strip config df mode_label Hmode Hinfo Hcol).
  rewrite type_keys_valid
    by (intros x Hx; rewrite Hrows in Hx; destruct Hx as [<-|[]]; now left).
  cbn [bind]. rewrite !type_frame_lookup.
  assert (Hf : rows_tagged mode_label "full" df = [r]).
  { unfold rows_tagged. rewrite Hrows. cbn [filter]. now rewrite Hfull. }
  assert (Hs : rows_tagged mode_label "split" df = []).
  { unfold rows_tagged. rewrite Hrows. cbn [filter]. now rewrite Hfull. }
  rewrite Hf, Hs. cbn [rows type_frame columns]. rewrite Hf.
  cbn [List.length Nat.ltb Nat.leb].
  rewrite (@seed_from_full_loop remove_decimal_or_strip _ _ r (annotation_columns df) []).
  - reflexivity.
  - unfold first_index. cbn [rows select_columns]. now rewrite Hrows.
  - intros a Ha. unfold loc. cbn [rows type_frame]. rewrite Hf. cbn [find].
    rewrite Nat.eqb_refl. unfold has_column. cbn [columns type_frame].
    apply mem_In in Ha. now rewrite Ha.
  - exact Hnd.
  - intros a _ [].
Qed.

(** X3.  A row whose type is neither full nor split stops the merge of its
    group with the ValueError of line 125, wherever the row stands. *)
Theorem merge_other_row_type_raises (df : DataFrame) (mode_label : string) (r : Row) :
  GENERAL_mode config = "full&split" ->
  info_columns config "Annotation_mode" = Ok (JStr mode_label) ->
  mem mode_label (annotation_columns df) = true ->
  In r (rows df) ->
  cell r mode_label <> "full" ->
  cell r mode_label <> "split" ->
  _merge_full_and_split remove_decimal_or_strip config df
  = Raise (ValueError msg_annotation_type).
Proof.
  intros Hmode Hinfo Hcol Hr Hnf Hns.
  rewrite (@merge_unfold remove_decimal_or_strip config df mode_label Hmode Hinfo Hcol).
  destruct (forallb _ (type_keys mode_label df)) eqn:Hall; [|reflexivity].
  rewrite forallb_forall in Hall.
  assert (Hk : In (cell r mode_label) (type_keys mode_label df)).
  { unfold type_keys. rewrite stable_sort_In, first_seen_In. apply in_map_iff.
    now exists r. }
  apply Hall in Hk. unfold mem in Hk. cbn [existsb] in Hk.
  rewrite !orb_true_iff in Hk. destruct Hk as [Hk|[Hk|Hk]]; [| |discriminate].
  - apply String.eqb_eq in Hk. contradiction.
  - apply String.eqb_eq in Hk. contradiction.
Qed.

Lemma seed_from_full_keys (df full : DataFrame) (q : list string)
      (start out : dict string) :
  for_each (seed_from_full remove_decimal_or_strip df full) q start = Ok out ->
  NoDup (dict_keys start ++ q) ->
  dict_keys out = dict_keys start ++ q.
Proof.
  revert start. induction q as [|a q IH]; intros start H Hnd; simpl in H.
  - apply Ok_inj in H. subst. now rewrite app_nil_r.
  - unfold seed_from_full at 1 in H.
    destruct (first_index df) as [i|e]; [|discriminate]. cbn [bind] in H.
    destruct (loc full i a) as [v|e]; [|discriminate]. cbn [bind] in H.
    apply IH in H.
    + rewrite H, dict_keys_set_new.
      * now rewrite <- app_assoc.
      * apply NoDup_remove_2 in Hnd. intros Hin. apply Hnd, in_app_iff. now left.
    + rewrite dict_keys_set_new.
      * rewrite <- app_assoc. exact Hnd.
      * apply NoDup_remove_2 in Hnd. intros Hin. apply Hnd, in_app_iff. now left.
Qed.

Lemma merge_split_keys (mode_col : json) (split : DataFrame) (q : list string)
      (start out : dict string) :
  for_each (merge_split remove_decimal_or_strip config mode_col split) q start = Ok out ->
  incl q (dict_keys start) ->
  dict_keys out = dict_keys start.
Proof.
  intros H Hq.
  apply (for_each_invariant
           (fun acc : dict string => dict_keys acc = dict_keys start)
           (merge_split remove_decimal_or_strip config mode_col split) q)
    with (acc := start); [|reflexivity|exact H].
  intros acc x acc' Hx Hacc Hbody. unfold merge_split in Hbody.
  assert (Hin : In x (dict_keys acc)) by (rewrite Hacc; now apply Hq).
  destruct (json_is mode_col x).
  - apply Ok_inj in Hbody. subst acc'. now rewrite dict_keys_set_known.
  - destruct (column_values split x); [|discriminate]. cbn [bind] in Hbody.
    destruct (dict_item acc x); [|discriminate]. cbn [bind] in Hbody.
    apply Ok_inj in Hbody. subst acc'. now rewrite dict_keys_set_known.
Qed.

(** X4.  The keys of the merged annotation of a group with rows: its columns
    other than ID, REF, ALT, QUAL and FILTER, each once and in the order
    of the columns, whatever the rows hold. *)
Theorem merged_keys_are_annotation_columns
        (df : DataFrame) (warns : list string) (annots : dict string) :
  _merge_full_and_split remove_decimal_or_strip config df = Ok (warns, annots) ->
  rows df <> [] ->
  NoDup (annotation_columns df) ->
  dict_keys annots = annotation_columns df.
Proof.
  intros H Hrows Hnd.
  assert (Hw : warns = []).
  { destruct warns as [|w ws]; [reflexivity|]. exfalso. apply Hrows.
    apply (@merge_warns_only_without_rows remove_decimal_or_strip config df
             (w :: ws) annots H). discriminate. }
  destruct (String.eqb_spec (GENERAL_mode config) "full&split") as [Hmode|Hmode].
  2:{ unfold _merge_full_and_split in H. apply String.eqb_neq in Hmode.
      rewrite Hmode in H. discriminate. }
  destruct (info_columns config "Annotation_mode") as [[l|l|o]|e] eqn:Hinfo.
  2-4: unfold _merge_full_and_split in H; rewrite Hmode, Hinfo in H; discriminate.
  destruct (mem l (annotation_columns df)) eqn:Hcol.
  2:{ rewrite (@merge_missing_mode_column_raises remove_decimal_or_strip config
                 df l Hmode Hinfo Hcol) in H. discriminate. }
  rewrite (@merge_unfold remove_decimal_or_strip config df l Hmode Hinfo Hcol) in H.
  destruct (forallb _ (type_keys l df)); [|discriminate].
  cbn [bind] in H. rewrite !type_frame_lookup in H.
  destruct (rows_tagged l "full" df) as [|f fs].
  - destruct (rows_tagged l "split" df) as [|s ss].
    + apply Ok_inj in H. inversion H; subst. discriminate.
    + cbn [columns type_frame] in H.
      rewrite (@seed_dots (annotation_columns df) [] Hnd) in H by (intros a _ []).
      cbn [app] in H.
      destruct (for_each _ _ _) as [out|e] eqn:Hrun; [|discriminate].
      cbn [bind] in H. apply Ok_inj in H. inversion H; subst out.
      apply merge_split_keys in Hrun.
      * rewrite Hrun. unfold dict_keys. rewrite map_map. cbn [fst]. apply map_id.
      * unfold dict_keys. rewrite map_map. cbn [fst]. rewrite map_id. apply incl_refl.
  - destruct (_ <? _)%nat; [discriminate|].
    cbn [columns type_frame] in H.
    destruct (for_each (seed_from_full _ _ _) _ _) as [seeded|e] eqn:Hseed;
      [|discriminate].
    cbn [bind] in H. apply seed_from_full_keys in Hseed; [|exact Hnd].
    cbn [dict_keys map app] in Hseed.
    destruct (rows_tagged l "split" df) as [|s ss].
    + apply Ok_inj in H. inversion H; subst. exact Hseed.
    + destruct (for_each (merge_split _ _ _ _) _ _) as [out|e] eqn:Hrun;
        [|discriminate].
      cbn [bind] in H. apply Ok_inj in H. inversion H; subst out.
      apply merge_split_keys in Hrun.
      * now rewrite Hrun.
      * rewrite Hseed. apply incl_refl.
Qed.

End MergeMore.

(** Lines 327-330: the GlobalInfoKeySet holds a key exactly when some
    merged annotation has it, and holds it once. *)
Theorem info_keys_are_the_union (info_dic : dict (dict string)) :
  NoDup (info_keys_of info_dic)
  /\ forall key,
      In key (info_keys_of info_dic)
      <-> exists variant_id annots,
            In (variant_id, annots) info_dic /\ In key (dict_keys annots).
Proof.
  unfold info_keys_of. split; [apply first_seen_NoDup|].
  intros key. rewrite first_seen_In, in_flat_map. split.
  - intros [[id annots] [Hin Hk]]. now exists id, annots.
  - intros [id [annots [Hin Hk]]]. now exists (id, annots).
Qed.

(** A list that a pass of [first_seen] leaves as it is has no duplicate. *)
Lemma NoDup_by_first_seen (l : list string) : first_seen l = l -> NoDup l.
Proof.
  intros <-. apply first_seen_NoDup.
Qed.

(** The variant with a full row only: the position 100.0 loses its
    decimal, the row type stays full. *)
Lemma merge_full_row_only_witness :
  rows group_full_only = [mkRow 4 (bed_row "V1" "chr1" "100.0" "full" "BRCA1")]
  /\ _merge_full_and_split remove_decimal_or_strip_model config_bed group_full_only
     = Ok ([], [("AnnotSV_ID", "V1"); ("SV_chrom", "chr1"); ("SV_start", "100");
                ("SV_type", "DEL"); ("Samples_ID", "S1");
                ("Annotation_mode", "full"); ("Gene_name", "BRCA1")]).
Proof.
  split; [reflexivity|].
  rewrite (@merge_full_row_only remove_decimal_or_strip_model config_bed
             group_full_only "Annotation_mode"
             (mkRow 4 (bed_row "V1" "chr1" "100.0" "full" "BRCA1")));
    try reflexivity.
  now apply NoDup_by_first_seen.
Defined.

(** A row of type partial after the full row. *)
Lemma merge_other_row_type_raises_witness :
  In (mkRow 1 (bed_row "V1" "chr1" "100" "partial" "BRCA1_tx2"))
     (rows group_other_type)
  /\ _merge_full_and_split remove_decimal_or_strip_model config_bed group_other_type
     = Raise (ValueError msg_annotation_type).
Proof.
  assert (Hin : In (mkRow 1 (bed_row "V1" "chr1" "100" "partial" "BRCA1_tx2"))
                   (rows group_other_type)) by (right; now left).
  split; [exact Hin|].
  apply (@merge_other_row_type_raises remove_decimal_or_strip_model config_bed
           group_other_type "Annotation_mode"
           (mkRow 1 (bed_row "V1" "chr1" "100" "partial" "BRCA1_tx2")));
    try reflexivity; try exact Hin; discriminate.
Defined.

(** The group of one full and two split rows. *)
Lemma merged_keys_are_annotation_columns_witness :
  _merge_full_and_split remove_decimal_or_strip_model config_bed group_full_first
  = Ok ([], [("AnnotSV_ID", "V1|V1|V1"); ("SV_chrom", "chr1|chr1|chr1");
             ("SV_start", "100|100|100"); ("SV_type", "DEL|DEL|DEL");
             ("Samples_ID", "S1|S1|S1"); ("Annotation_mode", "full&split");
             ("Gene_name", "BRCA1|BRCA1|BRCA1")])
  /\ dict_keys [("AnnotSV_ID", "V1|V1|V1"); ("SV_chrom", "chr1|chr1|chr1");
                ("SV_start", "100|100|100"); ("SV_type", "DEL|DEL|DEL");
                ("Samples_ID", "S1|S1|S1"); ("Annotation_mode", "full&split");
                ("Gene_name", "BRCA1|BRCA1|BRCA1")]
     = annotation_columns group_full_first.
Proof.
  assert (H : _merge_full_and_split remove_decimal_or_strip_model config_bed
                group_full_first
              = Ok ([], [("AnnotSV_ID", "V1|V1|V1"); ("SV_chrom", "chr1|chr1|chr1");
                         ("SV_start", "100|100|100"); ("SV_type", "DEL|DEL|DEL");
                         ("Samples_ID", "S1|S1|S1"); ("Annotation_mode", "full&split");
                         ("Gene_name", "BRCA1|BRCA1|BRCA1")]))
    by (vm_compute; reflexivity).
  split; [exact H|].
  apply (@merged_keys_are_annotation_columns remove_decimal_or_strip_model config_bed
           group_full_first [] _ H).
  - discriminate.
  - now apply NoDup_by_first_seen.
Defined.

(** The group of one full and two split rows that repeat its values:
    nothing is removed from the joined values. *)
Lemma merge_full_and_split_joined_witness :
  rows_tagged "Annotation_mode" "split" group_full_first <> []
  /\ _merge_full_and_split remove_decimal_or_strip_model config_bed group_full_first
     = Ok ([], map (fun ann =>
                      (ann, if "Annotation_mode" =? ann then "full&split"
                            else merged_value remove_decimal_or_strip_model
                                              "Annotation_mode" group_full_first ann))
                   (annotation_columns group_full_first))
  /\ merged_value remove_decimal_or_strip_model "Annotation_mode" group_full_first
                  "Gene_name"
     = "BRCA1|BRCA1|BRCA1".
Proof.
  assert (Hs : rows_tagged "Annotation_mode" "split" group_full_first <> [])
    by discriminate.
  split; [exact Hs|]. split; [|reflexivity].
  apply (@merge_full_and_split_joined remove_decimal_or_strip_model config_bed
           group_full_first "Annotation_mode"); try reflexivity.
  - intros r [<-|[<-|[<-|[]]]]; [left | right | right]; reflexivity.
  - now apply NoDup_by_first_seen.
  - exact Hs.
  - right. eexists. eexists. split; reflexivity.
Defined.

(** The table of two variants: its two groups are merged without any
    warning. *)
Lemma build_info_dic_never_warns_witness :
  _build_info_dic remove_decimal_or_strip_model config_bed
                  (reset_index table_two_chromosomes) ["S1"]
                  ["SV_chrom"; "SV_start"; "ID"; "REF"; "ALT"; "QUAL"; "FILTER"]
  = Ok ([], two_chromosomes_info_dic)
  /\ ([] : list string) = [].
Proof.
  assert (H : _build_info_dic remove_decimal_or_strip_model config_bed
                (reset_index table_two_chromosomes) ["S1"]
                ["SV_chrom"; "SV_start"; "ID"; "REF"; "ALT"; "QUAL"; "FILTER"]
              = Ok ([], two_chromosomes_info_dic))
    by (vm_compute; reflexivity).
  split; [exact H|].
  exact (@build_info_dic_never_warns remove_decimal_or_strip_model config_bed
           (reset_index table_two_chromosomes) ["S1"]
           ["SV_chrom"; "SV_start"; "ID"; "REF"; "ALT"; "QUAL"; "FILTER"]
           [] two_chromosomes_info_dic H).
Defined.

(** ** The frame of the annotations *)

Lemma drop_loop_snoc (input_df : DataFrame) (l : list json) (col : json) :
  drop_loop input_df (l ++ [col])
  = match drop_label input_df col with
    | Ok d => Some d
    | Raise _ => drop_loop input_df l
    end.
Proof.
  unfold drop_loop. rewrite fold_left_app. reflexivity.
Qed.

Lemma drop_loop_last (input_df : DataFrame) (columns_to_drop : list json) :
  drop_loop input_df columns_to_drop
  = match find (is_label_of input_df) (rev columns_to_drop) with
    | Some (JStr c) =>
        Some (mkDF (filter (fun x => negb (x =? c)) (columns input_df))
                   (rows input_df))
    | _ => None
    end.
Proof.
  induction columns_to_drop as [|col l IH] using rev_ind; [reflexivity|].
  rewrite drop_loop_snoc, rev_app_distr. cbn [rev app find].
  destruct col as [c|c|c]; cbn [drop_label is_label_of]; try exact IH.
  unfold drop. destruct (has_column input_df c); [reflexivity | exact IH].
Qed.

(** X7.  The values of the SAMPLE, FORMAT and INFO roles go to
    [columns_to_drop] as the configuration has them, a helper-function
    pattern too, and a drop that fails is passed over.  The frame
    [_build_input_annot_df] returns is the table, its semicolons replaced,
    without one column: the last element of [columns_to_drop], that is of
    the samples, the main columns, and the values of the SAMPLE, FORMAT
    and INFO roles in this order, that is the label of a column of the
    table.  Every other column stays. *)
Theorem annotation_frame_lacks_last_droppable_column
        (config : Config) (input_df df : DataFrame)
        (sample_list main_vcf_cols : list string) :
  _build_input_annot_df config input_df sample_list main_vcf_cols = Ok df ->
  exists sample format info c,
    vcf_columns config "SAMPLE" = Ok sample
    /\ vcf_columns config "FORMAT" = Ok format
    /\ info_columns config "INFO" = Ok info
    /\ find (is_label_of input_df)
            (rev (map JStr sample_list ++ map JStr main_vcf_cols
                  ++ [sample; format; info]))
       = Some (JStr c)
    /\ columns df = filter (fun x => negb (x =? c)) (columns input_df)
    /\ rows df = rows (replace_regex semicolon comma input_df).
Proof.
  unfold _build_input_annot_df. intros H.
  destruct (vcf_columns config "SAMPLE") as [sample|e]; [|discriminate].
  destruct (vcf_columns config "FORMAT") as [format|e]; [|discriminate].
  destruct (info_columns config "INFO") as [info|e]; [|discriminate].
  cbn [bind] in H. rewrite drop_loop_last in H.
  destruct (find _ _) as [[c|c|c]|] eqn:Hfind; try discriminate.
  destruct (info_columns config "SV_type") as [sv|e]; [|discriminate].
  cbn [bind] in H. destruct (json_is sv ""); [discriminate|].
  destruct (as_label sv) as [svl|e]; [|discriminate]. cbn [bind] in H.
  destruct (negb _); [discriminate|]. apply Ok_inj in H. subst df.
  exists sample, format, info, c. repeat split; auto.
Qed.

(** A BED table and a helper-function pattern for FORMAT: the pattern is
    the label of no column, and the column of the samples is the one that
    is removed. *)
Lemma annotation_frame_lacks_last_droppable_column_witness :
  exists df,
    _build_input_annot_df config_format_helper table_one_variant ["S1"]
      ["SV_chrom"; "SV_start"; "ID"; "REF"; "ALT"; "QUAL"; "FILTER"] = Ok df
    /\ exists sample format info c,
        vcf_columns config_format_helper "SAMPLE" = Ok sample
        /\ vcf_columns config_format_helper "FORMAT" = Ok format
        /\ info_columns config_format_helper "INFO" = Ok info
        /\ find (is_label_of table_one_variant)
                (rev (map JStr ["S1"]
                      ++ map JStr ["SV_chrom"; "SV_start"; "ID"; "REF"; "ALT";
                                   "QUAL"; "FILTER"]
                      ++ [sample; format; info]))
           = Some (JStr c)
        /\ columns df = filter (fun x => negb (x =? c)) (columns table_one_variant)
        /\ rows df = rows (replace_regex semicolon comma table_one_variant).
Proof.
  eexists. split; [vm_compute; reflexivity|].
  apply (@annotation_frame_lacks_last_droppable_column config_format_helper
           table_one_variant _ ["S1"]
           ["SV_chrom"; "SV_start"; "ID"; "REF"; "ALT"; "QUAL"; "FILTER"]).
  vm_compute. reflexivity.
Defined.

(** ** The main columns *)

Lemma defaulted_set (df : DataFrame) (role c : string) :
  defaulted df role -> defaulted (set_column df c ".") role.
Proof.
  intros [Hc Hr]. split.
  - unfold has_column in *. cbn [columns set_column].
    destruct (has_column df c); [exact Hc|].
    apply mem_In. apply in_app_iff. left. now apply mem_In.
  - intros r Hin. cbn [rows set_column] in Hin. apply in_map_iff in Hin.
    destruct Hin as [r0 [<- Hin]]. cbn [cell].
    destruct (role =? c); [reflexivity | now apply Hr].
Qed.

Lemma defaulted_new (df : DataFrame) (c : string) :
  defaulted (set_column df c ".") c.
Proof.
  split.
  - unfold has_column at 1. cbn [columns set_column].
    destruct (has_column df c) eqn:Hc; [exact Hc|].
    apply mem_In. apply in_app_iff. right. now left.
  - intros r Hin. cbn [rows set_column] in Hin. apply in_map_iff in Hin.
    destruct Hin as [r0 [<- Hin]]. cbn [cell]. now rewrite String.eqb_refl.
Qed.

Lemma main_label_set (config : Config) (df : DataFrame) (role label c : string) :
  main_label config df role label ->
  main_label config (set_column df c ".") role label.
Proof.
  unfold main_label. destruct (vcf_columns config role) as [[[|a s]|l|o]|e]; auto;
    intros [Hl Hd]; split; auto using defaulted_set.
Qed.

Lemma set_column_labels (df : DataFrame) (c v : string) :
  map label (rows (set_column df c v)) = map label (rows df).
Proof.
  cbn [rows set_column]. rewrite map_map. reflexivity.
Qed.

Lemma set_column_columns (df : DataFrame) (c v : string) :
  incl (columns df) (columns (set_column df c v)).
Proof.
  cbn [columns set_column]. destruct (has_column df c); [apply incl_refl|].
  intros x Hx. apply in_app_iff. now left.
Qed.

Lemma relabel_cells (n : nat) (rs : list Row) :
  map cell (relabel n rs) = map cell rs.
Proof.
  revert n. induction rs as [|r rs IH]; intros n; simpl; [reflexivity|].
  now rewrite IH.
Qed.

Lemma relabel_column (c : string) (rs : list Row) :
  map (fun r => cell r c) (relabel 0 rs) = map (fun r => cell r c) rs.
Proof.
  change (fun r : Row => cell r c) with (fun r : Row => (fun f : string -> string => f c) (cell r)).
  rewrite <- !(map_map cell (fun f : string -> string => f c)).
  now rewrite relabel_cells.
Qed.

Lemma same_rows_but_column (keys : list string) (df df' : DataFrame) (c : string) :
  same_rows_but keys df df' -> ~ In c keys ->
  map (fun r => cell r c) (rows df') = map (fun r => cell r c) (rows df).
Proof.
  unfold same_rows_but. intros H Hc.
  induction H as [|r r' rs rs' [_ Hcell] _ IH]; simpl; [reflexivity|].
  now rewrite IH, Hcell.
Qed.

Lemma get_main_vcf_cols_same_rows (config : Config) (input_df : DataFrame)
      (main : list string * DataFrame) :
  _get_main_vcf_cols config input_df = Ok main ->
  same_rows_but main_roles input_df (snd main).
Proof.
  unfold _get_main_vcf_cols.
  apply (for_each_invariant
           (fun st : list string * DataFrame =>
              same_rows_but main_roles input_df (snd st))).
  - intros acc x acc' Hx Hacc Hbody. cbv beta in Hbody.
    destruct (vcf_columns config x) as [v|e]; [|discriminate]. cbn [bind] in Hbody.
    destruct v as [[|a s]|l|o]; apply Ok_inj in Hbody; subst acc'; cbn [snd];
      auto using same_rows_but_set.
  - apply same_rows_but_refl.
Qed.

Section MainColumns.
Variable config : Config.

Lemma get_main_vcf_cols_loop (input_df : DataFrame) (l done : list string)
      (st out : list string * DataFrame) :
  for_each
    (fun (st : list string * DataFrame) col =>
       config_col <- vcf_columns config col ;;
       match config_col with
       | JStr "" => Ok (fst st ++ [col], set_column (snd st) col ".")
       | JStr s => Ok (fst st ++ [s], snd st)
       | _ => Ok (fst st ++ [col], set_column (snd st) col ".")
       end) l st = Ok out ->
  Forall2 (main_label config (snd st)) done (fst st) ->
  incl (columns input_df) (columns (snd st)) ->
  map label (rows (snd st)) = map label (rows input_df) ->
  Forall2 (main_label config (snd out)) (done ++ l) (fst out)
  /\ incl (columns input_df) (columns (snd out))
  /\ map label (rows (snd out)) = map label (rows input_df).
Proof.
  revert done st. induction l as [|x l IH]; intros done st H Hdone Hcols Hrows;
    simpl in H.
  - apply Ok_inj in H. subst out. rewrite app_nil_r. auto.
  - destruct (vcf_columns config x) as [v|e] eqn:Hx; [|discriminate].
    cbn [bind] in H.
    assert (Hset : Forall2 (main_label config (set_column (snd st) x "."))
                           (done ++ [x]) (fst st ++ [x])
                   -> incl (columns input_df) (columns (set_column (snd st) x "."))
                      /\ map label (rows (set_column (snd st) x "."))
                         = map label (rows input_df)).
    { intros _. split.
      - intros c Hc. now apply set_column_columns, Hcols.
      - now rewrite set_column_labels. }
    assert (Hdef : (match v with JStr (String _ _) => False | _ => True end) ->
                   Forall2 (main_label config (set_column (snd st) x "."))
                           (done ++ [x]) (fst st ++ [x])).
    { intros Hv. apply Forall2_app.
      - eapply Forall2_impl; [|exact Hdone]. intros a b. apply main_label_set.
      - constructor; [|constructor]. unfold main_label. rewrite Hx.
        destruct v as [[|a s]|l'|o]; try contradiction;
          (split; [reflexivity | apply defaulted_new]). }
    replace (done ++ x :: l) with ((done ++ [x]) ++ l) by (now rewrite <- app_assoc).
    destruct v as [[|a s]|l'|o].
    + apply (IH (done ++ [x])) in H; cbn [fst snd]; auto; apply Hset; auto.
    + apply (IH (done ++ [x])) in H; cbn [fst snd]; auto.
      apply Forall2_app; [exact Hdone|].
      constructor; [|constructor]. unfold main_label. now rewrite Hx.
    + apply (IH (done ++ [x])) in H; cbn [fst snd]; auto; apply Hset; auto.
    + apply (IH (done ++ [x])) in H; cbn [fst snd]; auto; apply Hset; auto.
Qed.

Lemma get_main_vcf_cols_rows (input_df : DataFrame) (main : list string * DataFrame) :
  _get_main_vcf_cols config input_df = Ok main ->
  map label (rows (snd main)) = map label (rows input_df).
Proof.
  unfold _get_main_vcf_cols. intros H.
  apply (@get_main_vcf_cols_loop input_df main_roles []) in H; cbn [fst snd]; auto.
  - tauto.
  - apply incl_refl.
Qed.

(** X8.  [_get_main_vcf_cols] validates nothing: for each of the seven roles,
    in their order, it returns the configured label as it is when it is a
    string that is not empty, and the name of the role otherwise, after it
    gave the table a column of that name with "." in every row.  The table
    keeps its columns, its rows and their index labels, and every cell of
    a column that does not bear the name of a role. *)
Theorem get_main_vcf_cols_labels (input_df : DataFrame)
        (main : list string * DataFrame) :
  _get_main_vcf_cols config input_df = Ok main ->
  Forall2 (main_label config (snd main)) main_roles (fst main)
  /\ incl (columns input_df) (columns (snd main))
  /\ same_rows_but main_roles input_df (snd main).
Proof.
  intros H. pose proof (get_main_vcf_cols_same_rows _ _ H) as Hsame.
  unfold _get_main_vcf_cols in H.
  apply (@get_main_vcf_cols_loop input_df main_roles []) in H; cbn [fst snd]; auto.
  - tauto.
  - apply incl_refl.
Qed.

End MainColumns.

(** A configuration with labels for two roles, none for four and a
    helper-function pattern for one. *)
Lemma get_main_vcf_cols_labels_witness :
  exists df,
    _get_main_vcf_cols config_helper_id table_one_variant
    = Ok (["SV_chrom"; "SV_start"; "ID"; "REF"; "ALT"; "QUAL"; "FILTER"], df)
    /\ Forall2 (main_label config_helper_id df) main_roles
               ["SV_chrom"; "SV_start"; "ID"; "REF"; "ALT"; "QUAL"; "FILTER"]
    /\ incl (columns table_one_variant) (columns df)
    /\ same_rows_but main_roles table_one_variant df.
Proof.
  eexists. split; [vm_compute; reflexivity|].
  apply (@get_main_vcf_cols_labels config_helper_id table_one_variant
           (["SV_chrom"; "SV_start"; "ID"; "REF"; "ALT"; "QUAL"; "FILTER"], _)).
  vm_compute. reflexivity.
Defined.

(** ** The samples *)

(** X9.  The sample list [_get_sample_list] returns holds every name once: the
    names are those that the cells of the samples column give when they
    are split at the commas.  When the configured FORMAT label is FORMAT,
    each of them is a column of the table. *)
Theorem sample_list_distinct_names (config : Config) (input_df : DataFrame)
        (sample_list : list string) :
  _get_sample_list config input_df = Ok sample_list ->
  exists sample,
    vcf_columns config "SAMPLE" = Ok (JStr sample)
    /\ has_column input_df sample = true
    /\ NoDup sample_list
    /\ (forall name,
          In name sample_list <->
          exists r, In r (rows input_df) /\ In name (split_on comma (cell r sample)))
    /\ (vcf_columns config "FORMAT" = Ok (JStr "FORMAT") ->
        forall name, In name sample_list -> has_column input_df name = true).
Proof.
  unfold _get_sample_list. intros H.
  destruct (vcf_columns config "SAMPLE") as [v|e]; [|discriminate]. cbn [bind] in H.
  destruct v as [sample|?|?]; try discriminate. cbn [bind as_label] in H.
  unfold column_values in H.
  destruct (has_column input_df sample) eqn:Hcol; [|discriminate]. cbn [bind] in H.
  rewrite (flat_map_ext _ _ (split_or_cell comma)) in H.
  destruct (vcf_columns config "FORMAT") as [format|e]; [|discriminate].
  cbn [bind] in H.
  assert (Hl : sample_list
               = first_seen (flat_map (split_on comma)
                                      (map (fun r => cell r sample) (rows input_df)))
               /\ (json_is format "FORMAT" = true ->
                   forallb (has_column input_df) sample_list = true)).
  { destruct (json_is format "FORMAT").
    - destruct (forallb _ _) eqn:Hb; [|discriminate].
      apply Ok_inj in H. subst sample_list. auto.
    - apply Ok_inj in H. subst sample_list. split; [reflexivity | discriminate]. }
  destruct Hl as [Hl Hall]. exists sample. repeat split; auto.
  - rewrite Hl. apply first_seen_NoDup.
  - rewrite Hl. intros Hin. apply first_seen_In, in_flat_map in Hin.
    destruct Hin as [c [Hc Hin]]. apply in_map_iff in Hc.
    destruct Hc as [r [<- Hr]]. now exists r.
  - rewrite Hl. intros [r [Hr Hin]]. apply first_seen_In, in_flat_map.
    exists (cell r sample). split; [|exact Hin]. apply in_map_iff. now exists r.
  - intros Hf name Hin. apply Ok_inj in Hf. subst format.
    specialize (Hall eq_refl). rewrite forallb_forall in Hall. now apply Hall.
Qed.

(** Two rows that name the samples S2,S1 and S1. *)
Lemma sample_list_distinct_names_witness :
  _get_sample_list config_vcf table_samples = Ok ["S2"; "S1"]
  /\ exists sample,
      vcf_columns config_vcf "SAMPLE" = Ok (JStr sample)
      /\ has_column table_samples sample = true
      /\ NoDup ["S2"; "S1"]
      /\ (forall name,
            In name ["S2"; "S1"] <->
            exists r, In r (rows table_samples)
                      /\ In name (split_on comma (cell r sample)))
      /\ (vcf_columns config_vcf "FORMAT" = Ok (JStr "FORMAT") ->
          forall name, In name ["S2"; "S1"] -> has_column table_samples name = true).
Proof.
  assert (H : _get_sample_list config_vcf table_samples = Ok ["S2"; "S1"])
    by (vm_compute; reflexivity).
  split; [exact H|].
  exact (@sample_list_distinct_names config_vcf table_samples ["S2"; "S1"] H).
Defined.

(** ** The dictionary of the merged annotations *)

Lemma stable_sort_NoDup {A : Type} (leb : A -> A -> bool) (l : list A) :
  NoDup l -> NoDup (stable_sort leb l).
Proof.
  apply Permutation_NoDup. symmetry. apply stable_sort_perm.
Qed.

Lemma string_leb_trans (x y z : string) :
  (x <=? y)%string = true -> (y <=? z)%string = true -> (x <=? z)%string = true.
Proof.
  unfold String.leb.
  destruct (String.compare x y) eqn:Hxy; try discriminate;
    destruct (String.compare y z) eqn:Hyz; try discriminate; intros _ _.
  - apply String.compare_eq_iff in Hxy. subst. now rewrite Hyz.
  - apply String.compare_eq_iff in Hxy. subst. now rewrite Hyz.
  - apply String.compare_eq_iff in Hyz. subst. now rewrite Hxy.
  - apply String_as_OT.cmp_lt in Hxy, Hyz.
    assert (H : String.compare x z = Lt)
      by (apply String_as_OT.cmp_lt; eapply String_as_OT.lt_trans; eauto).
    now rewrite H.
Qed.

Section InfoDic.
Variable remove_decimal_or_strip : string -> string.
Variable config : Config.

Lemma build_info_dic_loop (groups : list (string * DataFrame))
      (st out : list string * dict (dict string)) :
  for_each
    (fun (st : list string * dict (dict string)) (g : string * DataFrame) =>
       merged <- _merge_full_and_split remove_decimal_or_strip config (snd g) ;;
       Ok (fst st ++ fst merged, dict_set (snd st) (fst g) (snd merged)))
    groups st = Ok out ->
  NoDup (dict_keys (snd st) ++ map fst groups) ->
  dict_keys (snd out) = dict_keys (snd st) ++ map fst groups.
Proof.
  revert st. induction groups as [|g gs IH]; intros st H Hnd; simpl in H.
  - apply Ok_inj in H. subst out. simpl. now rewrite app_nil_r.
  - destruct (_merge_full_and_split _ _ (snd g)) as [merged|e]; [|discriminate].
    cbn [bind] in H. apply IH in H; cbn [snd] in *.
    + rewrite H, dict_keys_set_new.
      * now rewrite <- app_assoc.
      * intros Hin. apply NoDup_remove_2 in Hnd. apply Hnd.
        apply in_app_iff. now left.
    + rewrite dict_keys_set_new.
      * rewrite <- app_assoc. exact Hnd.
      * intros Hin. apply NoDup_remove_2 in Hnd. apply Hnd.
        apply in_app_iff. now left.
Qed.

(** The keys of [annots_dic]: the identifiers of the rows after the
    semicolons were replaced, each once, in the order pandas sorts the
    groups. *)
Lemma build_info_dic_keys (input_df : DataFrame)
      (sample_list main_vcf_cols warns : list string) (info_dic : dict (dict string)) :
  _build_info_dic remove_decimal_or_strip config input_df sample_list main_vcf_cols
  = Ok (warns, info_dic) ->
  exists id_col,
    info_columns config "AnnotSV_ID" = Ok (JStr id_col)
    /\ dict_keys info_dic
       = stable_sort String.leb
           (first_seen (map (fun r => replace_char semicolon comma (cell r id_col))
                            (rows input_df))).
Proof.
  unfold _build_info_dic. intros H.
  destruct (_build_input_annot_df _ _ _ _) as [df|e] eqn:Hdf; [|discriminate].
  cbn [bind] in H.
  destruct (info_columns config "AnnotSV_ID") as [[id|l|o]|e]; try discriminate.
  cbn [bind as_label] in H. unfold groupby in H.
  destruct (has_column df id); [|discriminate]. cbn [bind] in H.
  apply build_info_dic_loop in H.
  - exists id. split; [reflexivity|]. unfold dict_keys in *.
    cbn [snd map app] in H. rewrite H, map_map. cbn [fst]. rewrite map_id.
    apply build_input_annot_df_ok in Hdf. destruct Hdf as [Hrows _].
    rewrite Hrows. cbn [rows replace_regex]. rewrite map_map. reflexivity.
  - unfold dict_keys. cbn [snd map app]. rewrite map_map. cbn [fst]. rewrite map_id.
    apply stable_sort_NoDup, first_seen_NoDup.
Qed.

(** X6.  [annots_dic] has one entry for each identifier of the table, under
    the identifier with its semicolons replaced by commas: no key holds a
    semicolon and no key comes twice. *)
Theorem info_dic_has_one_entry_per_identifier (input_df : DataFrame)
        (sample_list main_vcf_cols warns : list string)
        (info_dic : dict (dict string)) :
  _build_info_dic remove_decimal_or_strip config input_df sample_list main_vcf_cols
  = Ok (warns, info_dic) ->
  exists id_col,
    info_columns config "AnnotSV_ID" = Ok (JStr id_col)
    /\ NoDup (dict_keys info_dic)
    /\ StronglySorted (fun a b => String.leb a b = true) (dict_keys info_dic)
    /\ forall key,
         In key (dict_keys info_dic) <->
         exists r, In r (rows input_df)
                   /\ key = replace_char semicolon comma (cell r id_col).
Proof.
  intros H. destruct (build_info_dic_keys _ _ _ H) as [id [Hid Hkeys]].
  exists id. split; [exact Hid|]. rewrite Hkeys. split; [|split].
  - apply stable_sort_NoDup, first_seen_NoDup.
  - exact (@stable_sort_sorted string String.leb String.leb_total string_leb_trans _).
  - intros key. rewrite stable_sort_In, first_seen_In, in_map_iff. split.
    + intros [r [<- Hr]]. now exists r.
    + intros [r [Hr ->]]. now exists r.
Qed.

End InfoDic.

(** The table of two variants: the keys V1 and V2. *)
Lemma info_dic_has_one_entry_per_identifier_witness :
  _build_info_dic remove_decimal_or_strip_model config_bed
                  (reset_index table_two_chromosomes) ["S1"]
                  ["SV_chrom"; "SV_start"; "ID"; "REF"; "ALT"; "QUAL"; "FILTER"]
  = Ok ([], two_chromosomes_info_dic)
  /\ exists id_col,
      info_columns config_bed "AnnotSV_ID" = Ok (JStr id_col)
      /\ NoDup (dict_keys two_chromosomes_info_dic)
      /\ StronglySorted (fun a b => String.leb a b = true)
                        (dict_keys two_chromosomes_info_dic)
      /\ forall key,
           In key (dict_keys two_chromosomes_info_dic) <->
           exists r, In r (rows (reset_index table_two_chromosomes))
                     /\ key = replace_char semicolon comma (cell r id_col).
Proof.
  assert (H : _build_info_dic remove_decimal_or_strip_model config_bed
                (reset_index table_two_chromosomes) ["S1"]
                ["SV_chrom"; "SV_start"; "ID"; "REF"; "ALT"; "QUAL"; "FILTER"]
              = Ok ([], two_chromosomes_info_dic))
    by (vm_compute; reflexivity).
  split; [exact H|].
  exact (@info_dic_has_one_entry_per_identifier remove_decimal_or_strip_model
           config_bed (reset_index table_two_chromosomes) ["S1"]
           ["SV_chrom"; "SV_start"; "ID"; "REF"; "ALT"; "QUAL"; "FILTER"] []
           two_chromosomes_info_dic H).
Defined.

(** ** The conversion: failures and edge cases *)

Section ConvertMore.
Variable remove_decimal_or_strip : string -> string.
Variable is_helper_func : json -> result bool.
Variable HelperFunctions : Config -> result (string -> result helper_func).
Variable create_vcf_header : string -> Config -> list string -> result (list string).
Variable read_csv_sorted : Config -> string -> result DataFrame.
Variable config : Config.

Lemma prepare_inv (tsv : string) (p : Prepared) :
  prepare remove_decimal_or_strip HelperFunctions read_csv_sorted config tsv = Ok p ->
  exists loaded main warns,
    read_csv_sorted config tsv = Ok loaded
    /\ _get_sample_list config (reset_index loaded) = Ok (p_sample_list p)
    /\ _get_main_vcf_cols config (reset_index loaded) = Ok main
    /\ p_main_vcf_cols p = fst main
    /\ p_input_df p = snd main
    /\ _build_info_dic remove_decimal_or_strip config (snd main) (p_sample_list p)
                       (fst main)
       = Ok (warns, p_info_dic p).
Proof.
  unfold prepare. intros H.
  destruct (HelperFunctions config) as [h|e]; [|discriminate]. cbn [bind] in H.
  unfold _build_input_dataframe in H.
  destruct (read_csv_sorted config tsv) as [loaded|e]; [|discriminate].
  cbn [bind] in H.
  destruct (_get_sample_list config (reset_index loaded)) as [l|e] eqn:Hl;
    [|discriminate].
  cbn [bind] in H.
  destruct (_get_main_vcf_cols config (reset_index loaded)) as [main|e] eqn:Hm;
    [|discriminate].
  cbn [bind] in H.
  destruct (_build_info_dic _ _ _ _ _) as [[warns dic]|e] eqn:Hi; [|discriminate].
  cbn [bind] in H. apply Ok_inj in H. subst p. cbn.
  exists loaded, main, warns. auto 10.
Qed.

Lemma emit_groups_missing_key (helper : string -> result helper_func)
      (sample_list main_vcf_cols : list string) (info_dic : dict (dict string))
      (groups : list (string * DataFrame)) (g : string * DataFrame) :
  In g groups -> dict_get info_dic (fst g) = None ->
  exists e,
    fst (emit_groups is_helper_func config helper sample_list main_vcf_cols
                     info_dic groups) = Raise e.
Proof.
  intros Hin Hnone. induction groups as [|g0 gs IH]; [destruct Hin|]. simpl.
  destruct (emit_group is_helper_func config helper sample_list main_vcf_cols
                       info_dic g0) as [[[]|e] w] eqn:He.
  - destruct Hin as [->|Hin].
    + exfalso. unfold emit_group in He.
      destruct (for_each _ (VCF_COLUMNS config) (snd g)); [|discriminate].
      destruct (first_row_values _ _); [|discriminate].
      unfold dict_item in He. rewrite Hnone in He. discriminate.
    + cbn [fst]. now apply IH.
  - exists e. reflexivity.
Qed.

(** X12.  The dictionary of the merged annotations is keyed by the identifiers
    with their semicolons replaced, the emission looks the groups up by
    the identifiers of the table: a table with a semicolon in an
    identifier is never converted.  The conversion raises, at the latest
    when it looks up the first such variant. *)
Theorem convert_fails_on_semicolon_in_identifier
        (tsv id_col : string) (loaded : DataFrame) (r : Row) :
  read_csv_sorted config tsv = Ok loaded ->
  info_columns config "AnnotSV_ID" = Ok (JStr id_col) ->
  ~ In id_col main_roles ->
  In r (rows loaded) ->
  count_char semicolon (cell r id_col) <> 0 ->
  exists e,
    fst (convert remove_decimal_or_strip is_helper_func HelperFunctions
                 create_vcf_header read_csv_sorted config tsv) = Raise e.
Proof.
  intros Hread Hid Hnot Hr Hsemi. unfold convert.
  destruct (prepare _ _ _ _ _) as [p|e] eqn:Hp; [|eexists; reflexivity].
  destruct (prepare_inv _ Hp)
    as [loaded' [main [warns [Hread' [Hl [Hm [Hmc [Hdf Hinfo]]]]]]]].
  rewrite Hread in Hread'. apply Ok_inj in Hread'. subst loaded'.
  destruct (create_vcf_header tsv config (p_sample_list p)); [|eexists; reflexivity].
  destruct (emission_groups config (p_input_df p)) as [groups|e] eqn:Hg;
    [|eexists; reflexivity].
  cbn [fst].
  destruct (emission_groups_inv _ _ Hg) as [id [chrom [rs [Hid' [_ [Hperm [_ ->]]]]]]].
  rewrite Hid in Hid'. apply Ok_inj in Hid'. injection Hid' as <-.
  apply emit_groups_missing_key
    with (g := (cell r id_col,
                mkDF (columns (p_input_df p))
                     (filter (fun x => cell x id_col =? cell r id_col) rs))).
  - apply in_map_iff.
    exists (cell r id_col, filter (fun x => cell x id_col =? cell r id_col) rs).
    split; [reflexivity|]. unfold groups_of. apply in_map_iff.
    exists (cell r id_col). split; [reflexivity|]. apply first_seen_In.
    apply (Permutation_in _ (Permutation_map _ (Permutation_sym Hperm))).
    rewrite Hdf.
    rewrite (@same_rows_but_column main_roles (reset_index loaded) (snd main) id_col
               (@get_main_vcf_cols_same_rows config (reset_index loaded) main Hm)
               Hnot).
    cbn [rows reset_index]. rewrite relabel_column. apply in_map_iff. now exists r.
  - cbn [fst]. apply dict_get_None. intros Hin.
    destruct (@build_info_dic_keys remove_decimal_or_strip config (snd main)
                (p_sample_list p) (fst main) warns (p_info_dic p) Hinfo)
      as [id [Hid' Hkeys]].
    rewrite Hkeys in Hin. apply stable_sort_In, first_seen_In, in_map_iff in Hin.
    destruct Hin as [r' [Heq _]]. apply Hsemi. rewrite <- Heq.
    apply count_char_replace. discriminate.
Qed.

Lemma get_main_vcf_cols_no_rows (input_df : DataFrame) (main : list string * DataFrame) :
  _get_main_vcf_cols config input_df = Ok main ->
  rows (snd main) = [] <-> rows input_df = [].
Proof.
  intros H. apply get_main_vcf_cols_same_rows in H. unfold same_rows_but in H.
  split; intros Hnil; rewrite Hnil in H; now inversion H.
Qed.

Lemma build_info_dic_other_mode (input_df : DataFrame)
      (sample_list main_vcf_cols : list string) :
  GENERAL_mode config <> "full&split" ->
  rows input_df <> [] ->
  exists e,
    _build_info_dic remove_decimal_or_strip config input_df sample_list main_vcf_cols
    = Raise e.
Proof.
  intros Hmode Hrows. unfold _build_info_dic.
  destruct (_build_input_annot_df config input_df sample_list main_vcf_cols)
    as [df|e] eqn:Hdf; [|eexists; reflexivity].
  cbn [bind].
  destruct (info_columns config "AnnotSV_ID") as [v|e]; [|eexists; reflexivity].
  cbn [bind].
  destruct (as_label v) as [id|e]; [|eexists; reflexivity]. cbn [bind].
  unfold groupby. destruct (has_column df id); [|eexists; reflexivity]. cbn [bind].
  apply build_input_annot_df_ok in Hdf. destruct Hdf as [Hr _].
  destruct (stable_sort String.leb
              (first_seen (map (fun r => cell r id) (rows df)))) as [|k ks] eqn:Hk.
  - exfalso. pose proof (stable_sort_perm String.leb
                           (first_seen (map (fun r => cell r id) (rows df)))) as Hp.
    rewrite Hk in Hp. apply Permutation_nil in Hp.
    rewrite Hr in Hp. cbn [rows replace_regex] in Hp.
    destruct (rows input_df); [now apply Hrows | discriminate].
  - cbn [map for_each]. unfold _merge_full_and_split.
    apply String.eqb_neq in Hmode. rewrite Hmode. cbn [negb bind].
    eexists; reflexivity.
Qed.

(** X10.  The merge supports the mode full&split only, and it runs for every
    variant before the output file is opened: with another mode in the
    configuration, no table with a row is converted and no file is
    written. *)
Theorem convert_other_mode_writes_nothing (tsv : string) (loaded : DataFrame) :
  GENERAL_mode config <> "full&split" ->
  read_csv_sorted config tsv = Ok loaded ->
  rows loaded <> [] ->
  exists e,
    convert remove_decimal_or_strip is_helper_func HelperFunctions
            create_vcf_header read_csv_sorted config tsv = (Raise e, None).
Proof.
  intros Hmode Hread Hrows.
  assert (Hp : exists e, prepare remove_decimal_or_strip HelperFunctions
                                 read_csv_sorted config tsv = Raise e).
  { unfold prepare.
    destruct (HelperFunctions config); [|eexists; reflexivity]. cbn [bind].
    unfold _build_input_dataframe. rewrite Hread. cbn [bind].
    destruct (_get_sample_list config (reset_index loaded)) as [l|e];
      [|eexists; reflexivity].
    cbn [bind].
    destruct (_get_main_vcf_cols config (reset_index loaded)) as [main|e] eqn:Hm;
      [|eexists; reflexivity].
    cbn [bind].
    destruct (@build_info_dic_other_mode (snd main) l (fst main) Hmode) as [e He].
    - intros Hnil.
      apply (@get_main_vcf_cols_no_rows (reset_index loaded) main Hm) in Hnil.
      cbn [rows reset_index] in Hnil. destruct (rows loaded); [now apply Hrows|].
      discriminate.
    - rewrite He. eexists; reflexivity. }
  destruct Hp as [e He]. exists e. now apply convert_prepare_raises.
Qed.

Lemma get_sample_list_no_rows (input_df : DataFrame) (sample_list : list string) :
  rows input_df = [] ->
  _get_sample_list config input_df = Ok sample_list -> sample_list = [].
Proof.
  intros Hrows H. unfold _get_sample_list in H.
  destruct (vcf_columns config "SAMPLE") as [v|e]; [|discriminate]. cbn [bind] in H.
  destruct (as_label v) as [sample|e]; [|discriminate]. cbn [bind] in H.
  unfold column_values in H.
  destruct (has_column input_df sample); [|discriminate]. cbn [bind] in H.
  rewrite Hrows in H. cbn [map flat_map first_seen forallb] in H.
  destruct (vcf_columns config "FORMAT") as [format|e]; [|discriminate].
  cbn [bind] in H.
  destruct (json_is format "FORMAT"); apply Ok_inj in H; auto.
Qed.

(** X11.  A table without rows: no variant is merged or emitted, whatever the
    mode, and when the output file is opened it gets the lines of the
    header for an empty sample list and nothing else. *)
Theorem convert_table_without_rows_writes_header_only
        (tsv : string) (loaded : DataFrame) (res : result unit) (content : string) :
  read_csv_sorted config tsv = Ok loaded ->
  rows loaded = [] ->
  convert remove_decimal_or_strip is_helper_func HelperFunctions
          create_vcf_header read_csv_sorted config tsv = (res, Some content) ->
  match create_vcf_header tsv config [] with
  | Ok vcf_header => content = header_text vcf_header
  | Raise e => content = "" /\ res = Raise e
  end.
Proof.
  intros Hread Hrows. unfold convert.
  destruct (prepare _ _ _ _ _) as [p|e] eqn:Hp; [|discriminate].
  destruct (prepare_inv _ Hp)
    as [loaded' [main [warns [Hread' [Hl [Hm [Hmc [Hdf Hinfo]]]]]]]].
  rewrite Hread in Hread'. apply Ok_inj in Hread'. subst loaded'.
  assert (Hnil : rows (reset_index loaded) = [])
    by (cbn [rows reset_index]; now rewrite Hrows).
  rewrite (@get_sample_list_no_rows (reset_index loaded) (p_sample_list p) Hnil Hl).
  destruct (create_vcf_header tsv config []) as [hdr|e].
  2:{ intros H. inversion H. auto. }
  destruct (emission_groups config (p_input_df p)) as [groups|e] eqn:Hg.
  2:{ intros H. now inversion H. }
  destruct (emission_groups_inv _ _ Hg) as [id [chrom [rs [_ [_ [Hperm [_ ->]]]]]]].
  rewrite Hdf, (proj2 (@get_main_vcf_cols_no_rows (reset_index loaded) main Hm) Hnil)
    in Hperm.
  apply Permutation_sym, Permutation_nil in Hperm. subst rs.
  cbn. intros H. inversion H. now rewrite string_app_nil_r.
Qed.

End ConvertMore.

(** One variant with the identifier V;1: its annotation is stored under
    V,1 and looked up under V;1. *)
Lemma convert_fails_on_semicolon_in_identifier_witness :
  exists e,
    fst (convert remove_decimal_or_strip_model is_helper_func_model
                 no_helper_functions fixed_header
                 (table_reader table_semicolon_identifier) config_bed "in.tsv")
    = Raise e.
Proof.
  apply (@convert_fails_on_semicolon_in_identifier
           remove_decimal_or_strip_model is_helper_func_model no_helper_functions
           fixed_header (table_reader table_semicolon_identifier) config_bed
           "in.tsv" "AnnotSV_ID" table_semicolon_identifier
           (mkRow 0 (bed_row "V;1" "chr1" "100" "full" "BRCA1"))).
  - reflexivity.
  - reflexivity.
  - vm_compute. intuition discriminate.
  - left. reflexivity.
  - vm_compute. discriminate.
Defined.

(** The table of two variants, with the mode full in the configuration. *)
Lemma convert_other_mode_writes_nothing_witness :
  exists e,
    convert remove_decimal_or_strip_model is_helper_func_model
            no_helper_functions fixed_header
            (table_reader table_two_chromosomes) config_full_mode "in.tsv"
    = (Raise e, None).
Proof.
  apply (@convert_other_mode_writes_nothing
           remove_decimal_or_strip_model is_helper_func_model no_helper_functions
           fixed_header (table_reader table_two_chromosomes) config_full_mode
           "in.tsv" table_two_chromosomes).
  - vm_compute. discriminate.
  - reflexivity.
  - vm_compute. discriminate.
Defined.

(** The columns of a BED table without any row. *)
Lemma convert_table_without_rows_writes_header_only_witness :
  convert remove_decimal_or_strip_model is_helper_func_model
          no_helper_functions fixed_header
          (table_reader table_empty) config_bed "in.tsv"
  = (Ok tt, Some empty_table_vcf)
  /\ match fixed_header "in.tsv" config_bed [] with
     | Ok vcf_header => empty_table_vcf = header_text vcf_header
     | Raise e => empty_table_vcf = "" /\ Ok tt = Raise e
     end.
Proof.
  assert (H : convert remove_decimal_or_strip_model is_helper_func_model
                      no_helper_functions fixed_header
                      (table_reader table_empty) config_bed "in.tsv"
              = (Ok tt, Some empty_table_vcf))
    by (vm_compute; reflexivity).
  split; [exact H|].
  exact (@convert_table_without_rows_writes_header_only
           remove_decimal_or_strip_model is_helper_func_model no_helper_functions
           fixed_header (table_reader table_empty) config_bed
           "in.tsv" table_empty (Ok tt) empty_table_vcf eq_refl eq_refl H).
Defined.

(** ** The static header builder *)

Lemma append_lines_added (P : string -> Prop) (line : string -> result string)
      (keys header out : list string) :
  (forall k l, line k = Ok l -> P l) ->
  append_lines line keys header = Ok out ->
  exists added, out = header ++ added /\ Forall P added.
Proof.
  intros HP. unfold append_lines. revert header.
  induction keys as [|k keys IH]; intros header H; simpl in H.
  - apply Ok_inj in H. subst. exists []. split; [now rewrite app_nil_r | constructor].
  - destruct (line k) as [l|e] eqn:Hl; [|discriminate]. cbn [bind] in H.
    apply IH in H. destruct H as [added [-> Hadded]].
    exists (l :: added). split.
    + now rewrite <- app_assoc.
    + constructor; [now apply (HP k) | exact Hadded].
Qed.

Lemma described_line_start (config : Config) (section key line : string) :
  described_line config section key = Ok line -> starts_with "##" line = true.
Proof.
  unfold described_line.
  destruct (dict_item (COLUMNS_DESCRIPTION config) section) as [d|e]; [|discriminate].
  cbn [bind]. destruct (dict_get d key) as [c|].
  - destruct (dict_item c "Description"); [|discriminate]. cbn [bind].
    intros H. apply Ok_inj in H. now subst.
  - intros H. apply Ok_inj in H. now subst.
Qed.

Lemma typed_line_start (config : Config) (section key line : string) :
  typed_line config section key = Ok line -> starts_with "##" line = true.
Proof.
  unfold typed_line.
  destruct (dict_item (COLUMNS_DESCRIPTION config) section) as [d|e]; [|discriminate].
  cbn [bind]. destruct (dict_get d key) as [c|].
  - destruct (dict_item c "Type"); [|discriminate]. cbn [bind].
    destruct (dict_item c "Description"); [|discriminate]. cbn [bind].
    intros H. apply Ok_inj in H. now subst.
  - intros H. apply Ok_inj in H. now subst.
Qed.

Section StaticHeaderFacts.
Variable today : string.
Variable abspath : string -> string.
Variable input_path : string.
Variable config : Config.
Variable sample_list : list string.
Variable input_df : DataFrame.
Variable info_keys : list string.

(** X18.  The header of the static [_create_vcf_header] is framed: the four
    lines of the file format, the date, the source and the input file come
    first, the lines of the genome and the line of the column titles with
    the sample names come last, and every line between them starts with
    two hashes. *)
Theorem create_vcf_header_frame (header : list string) :
  _create_vcf_header today abspath input_path config sample_list input_df info_keys
  = Ok header ->
  exists body,
    header
    = ["##fileformat=VCFv4.2";
       "##fileDate=" ++ today;
       "##source=" ++ GENERAL_origin config;
       "##InputFile=" ++ abspath input_path]%string
      ++ body ++ GENOME_vcf_header config
      ++ [join tab (["#CHROM"; "POS"; "ID"; "REF"; "ALT"; "QUAL"; "FILTER";
                     "INFO"; "FORMAT"] ++ sample_list)]
    /\ Forall (fun l => starts_with "##" l = true) body.
Proof.
  unfold _create_vcf_header. intros H.
  destruct (vcf_columns config "FILTER") as [v|e]; [|discriminate]. cbn [bind] in H.
  destruct (as_label v) as [filter_col|e]; [|discriminate]. cbn [bind] in H.
  match type of H with
  | (header <- ?first ;; _) = _ => destruct first as [h0|e] eqn:Hfirst; [|discriminate]
  end.
  cbn [bind] in H.
  destruct (vcf_columns config "REF") as [v1|e]; [|discriminate]. cbn [bind] in H.
  destruct (as_label v1) as [ref|e]; [|discriminate]. cbn [bind] in H.
  destruct (column_values input_df ref) as [refs|e]; [|discriminate]. cbn [bind] in H.
  destruct (vcf_columns config "ALT") as [v2|e]; [|discriminate]. cbn [bind] in H.
  destruct (as_label v2) as [alt|e]; [|discriminate]. cbn [bind] in H.
  destruct (column_values input_df alt) as [alts|e]; [|discriminate]. cbn [bind] in H.
  destruct (append_lines (described_line config "REF") _ h0) as [h1|e] eqn:Hrefs;
    [|discriminate].
  cbn [bind] in H.
  destruct (append_lines (described_line config "ALT") _ h1) as [h2|e] eqn:Halts;
    [|discriminate].
  cbn [bind] in H.
  destruct (vcf_columns config "FORMAT") as [v3|e]; [|discriminate]. cbn [bind] in H.
  destruct (as_label v3) as [format|e]; [|discriminate]. cbn [bind] in H.
  destruct (column_values input_df format) as [formats|e]; [|discriminate].
  cbn [bind] in H.
  destruct (append_lines (typed_line config "INFO") info_keys h2) as [h3|e] eqn:Hinfo;
    [|discriminate].
  cbn [bind] in H.
  destruct (append_lines (typed_line config "FORMAT") _ h3) as [h4|e] eqn:Hformat;
    [|discriminate].
  cbn [bind] in H. apply Ok_inj in H. subst header.
  set (P := fun l : string => starts_with "##" l = true).
  assert (Hf : exists filters,
             h0 = ["##fileformat=VCFv4.2";
                   "##fileDate=" ++ today;
                   "##source=" ++ GENERAL_origin config;
                   "##InputFile=" ++ abspath input_path]%string ++ filters
             /\ Forall P filters).
  { destruct (has_column input_df filter_col) eqn:Hc.
    - unfold column_values in Hfirst. rewrite Hc in Hfirst. cbn [bind] in Hfirst.
      apply Ok_inj in Hfirst. subst h0. eexists. split; [reflexivity|].
      apply Forall_forall. intros l Hl. apply in_map_iff in Hl.
      destruct Hl as [f [<- _]]. reflexivity.
    - apply Ok_inj in Hfirst. subst h0. eexists. split; [reflexivity|].
      constructor; [reflexivity | constructor]. }
  destruct Hf as [filters [-> Hfilters]].
  apply (append_lines_added P) in Hrefs; [|apply described_line_start].
  destruct Hrefs as [a1 [-> H1]].
  apply (append_lines_added P) in Halts; [|apply described_line_start].
  destruct Halts as [a2 [-> H2]].
  apply (append_lines_added P) in Hinfo; [|apply typed_line_start].
  destruct Hinfo as [a3 [-> H3]].
  apply (append_lines_added P) in Hformat; [|apply typed_line_start].
  destruct Hformat as [a4 [-> H4]].
  exists (filters ++ a1 ++ a2 ++ a3 ++ a4). split.
  - rewrite <- !app_assoc. reflexivity.
  - repeat (apply Forall_app; split); assumption.
Qed.

(** X19.  The static builder reads the columns of the REF, ALT and FORMAT roles
    of the table without a test: it returns a header only for a
    configuration that gives the three roles a label and a table that has
    the three columns, and raises otherwise (AnnotSV files made from a BED
    file have none of them). *)
Theorem create_vcf_header_needs_ref_alt_format (header : list string) :
  _create_vcf_header today abspath input_path config sample_list input_df info_keys
  = Ok header ->
  exists ref alt format,
    vcf_columns config "REF" = Ok (JStr ref)
    /\ vcf_columns config "ALT" = Ok (JStr alt)
    /\ vcf_columns config "FORMAT" = Ok (JStr format)
    /\ has_column input_df ref = true
    /\ has_column input_df alt = true
    /\ has_column input_df format = true.
Proof.
  unfold _create_vcf_header. intros H.
  destruct (vcf_columns config "FILTER") as [v|e]; [|discriminate]. cbn [bind] in H.
  destruct (as_label v) as [filter_col|e]; [|discriminate]. cbn [bind] in H.
  match type of H with
  | (header <- ?first ;; _) = _ => destruct first as [h0|e]; [|discriminate]
  end.
  cbn [bind] in H.
  destruct (vcf_columns config "REF") as [[ref|?|?]|e]; try discriminate.
  cbn [bind as_label] in H. unfold column_values at 1 in H.
  destruct (has_column input_df ref) eqn:Href; [|discriminate]. cbn [bind] in H.
  destruct (vcf_columns config "ALT") as [[alt|?|?]|e]; try discriminate.
  cbn [bind as_label] in H. unfold column_values at 1 in H.
  destruct (has_column input_df alt) eqn:Halt; [|discriminate]. cbn [bind] in H.
  destruct (append_lines (described_line config "REF") _ h0) as [h1|e]; [|discriminate].
  cbn [bind] in H.
  destruct (append_lines (described_line config "ALT") _ h1) as [h2|e]; [|discriminate].
  cbn [bind] in H.
  destruct (vcf_columns config "FORMAT") as [[format|?|?]|e]; try discriminate.
  cbn [bind as_label] in H. unfold column_values at 1 in H.
  destruct (has_column input_df format) eqn:Hformat; [|discriminate].
  exists ref, alt, format. auto 10.
Qed.

End StaticHeaderFacts.

(** The table made from a VCF file, with the keys SV_type and Gene_name. *)
Lemma create_vcf_header_frame_witness :
  exists header,
    _create_vcf_header "03/11/2026" (fun path => path) "in.tsv" config_described
                       ["S1"] table_from_vcf ["SV_type"; "Gene_name"] = Ok header
    /\ exists body,
        header
        = ["##fileformat=VCFv4.2";
           "##fileDate=" ++ "03/11/2026";
           "##source=" ++ GENERAL_origin config_described;
           "##InputFile=" ++ "in.tsv"]%string
          ++ body ++ GENOME_vcf_header config_described
          ++ [join tab (["#CHROM"; "POS"; "ID"; "REF"; "ALT"; "QUAL"; "FILTER";
                         "INFO"; "FORMAT"] ++ ["S1"])]
        /\ Forall (fun l => starts_with "##" l = true) body.
Proof.
  eexists. split; [vm_compute; reflexivity|].
  apply (@create_vcf_header_frame "03/11/2026" (fun path => path) "in.tsv"
           config_described ["S1"] table_from_vcf ["SV_type"; "Gene_name"]).
  vm_compute. reflexivity.
Defined.

Lemma create_vcf_header_needs_ref_alt_format_witness :
  exists header,
    _create_vcf_header "03/11/2026" (fun path => path) "in.tsv" config_described
                       ["S1"] table_from_vcf ["SV_type"; "Gene_name"] = Ok header
    /\ exists ref alt format,
        vcf_columns config_described "REF" = Ok (JStr ref)
        /\ vcf_columns config_described "ALT" = Ok (JStr alt)
        /\ vcf_columns config_described "FORMAT" = Ok (JStr format)
        /\ has_column table_from_vcf ref = true
        /\ has_column table_from_vcf alt = true
        /\ has_column table_from_vcf format = true.
Proof.
  eexists. split; [vm_compute; reflexivity|].
  eapply (@create_vcf_header_needs_ref_alt_format "03/11/2026" (fun path => path)
            "in.tsv" config_described ["S1"] table_from_vcf ["SV_type"; "Gene_name"]).
  vm_compute. reflexivity.
Defined.

(** The key Gene_name has no description in the configuration, SV_type
    has one: each has its line. *)
Lemma create_vcf_header_declares_info_keys_witness :
  exists header,
    _create_vcf_header "03/11/2026" (fun path => path) "in.tsv" config_described
                       ["S1"] table_from_vcf ["SV_type"; "Gene_name"] = Ok header
    /\ forall key, In key ["SV_type"; "Gene_name"] ->
         exists line, typed_line config_described "INFO" key = Ok line
                      /\ In line header.
Proof.
  eexists. split; [vm_compute; reflexivity|].
  apply (@create_vcf_header_declares_info_keys "03/11/2026" (fun path => path)
           "in.tsv" config_described ["S1"] table_from_vcf ["SV_type"; "Gene_name"]).
  vm_compute. reflexivity.
Defined.

(** ** The order of the rows in the emission *)

Lemma insert_sorted_filter {A : Type} (leb : A -> A -> bool) (p : A -> bool)
      (x : A) (l : list A) :
  (forall y, In y l -> p x = true -> p y = true -> leb x y = true) ->
  filter p (insert_sorted leb x l) = if p x then x :: filter p l else filter p l.
Proof.
  induction l as [|y l IH]; intros H; simpl.
  - destruct (p x); reflexivity.
  - destruct (leb x y) eqn:Hxy; simpl.
    + destruct (p x); reflexivity.
    + rewrite IH by (intros z Hz; apply H; now right).
      destruct (p x) eqn:Hpx; [|reflexivity].
      destruct (p y) eqn:Hpy; [|reflexivity].
      rewrite (H y) in Hxy; auto; [discriminate | now left].
Qed.

(** A stable sort keeps the order of the elements of a class whose
    members are below one another. *)
Lemma stable_sort_filter {A : Type} (leb : A -> A -> bool) (p : A -> bool)
      (l : list A) :
  (forall x y, In x l -> In y l -> p x = true -> p y = true -> leb x y = true) ->
  filter p (stable_sort leb l) = filter p l.
Proof.
  induction l as [|x l IH]; intros H; simpl; [reflexivity|].
  rewrite insert_sorted_filter.
  - rewrite IH; [reflexivity|]. intros a b Ha Hb. apply H; now right.
  - intros y Hy. apply stable_sort_In in Hy. apply H; [now left | now right].
Qed.

Lemma insert_sorted_map {A B : Type} (g : A -> B) (lebA : A -> A -> bool)
      (lebB : B -> B -> bool) (x : A) (l : list A) :
  (forall a b, lebB (g a) (g b) = lebA a b) ->
  insert_sorted lebB (g x) (map g l) = map g (insert_sorted lebA x l).
Proof.
  intros H. induction l as [|y l IH]; simpl; [reflexivity|].
  rewrite H. destruct (lebA x y); simpl; [reflexivity|]. now rewrite IH.
Qed.

Lemma stable_sort_map {A B : Type} (g : A -> B) (lebA : A -> A -> bool)
      (lebB : B -> B -> bool) (l : list A) :
  (forall a b, lebB (g a) (g b) = lebA a b) ->
  stable_sort lebB (map g l) = map g (stable_sort lebA l).
Proof.
  intros H. induction l as [|x l IH]; simpl; [reflexivity|].
  rewrite IH. now apply insert_sorted_map.
Qed.

Lemma combine_map_r {A B C : Type} (f : B -> C) (l : list A) (l' : list B) :
  combine l (map f l') = map (fun p => (fst p, f (snd p))) (combine l l').
Proof.
  revert l'. induction l as [|x l IH]; intros [|y l']; simpl; try reflexivity.
  now rewrite IH.
Qed.

Lemma combine_seq_snd {B : Type} (l : list B) (s : nat) :
  map snd (combine (seq s (List.length l)) l) = l.
Proof.
  revert s. induction l as [|x l IH]; intros s; simpl; [reflexivity|].
  now rewrite IH.
Qed.

Lemma take_rows_pairs (rs : list Row) (l : list (nat * Row)) :
  Forall (fun ir => nth_error rs (fst ir) = Some (snd ir)) l ->
  take_rows rs (map fst l) = Ok (map snd l).
Proof.
  induction 1 as [|[i r] l Hi _ IH]; simpl; [reflexivity|].
  cbn [fst snd] in Hi. rewrite Hi, IH. reflexivity.
Qed.

(** Lines 339-341: the rows in the positions that [index_natsorted] gives
    for a column are the rows in the stable order of the natural keys of
    that column. *)
Lemma iloc_index_natsorted_stable (df : DataFrame) (c : string) :
  iloc df (index_natsorted (map (fun r => cell r c) (rows df)))
  = Ok (mkDF (columns df)
             (stable_sort (fun r1 r2 => natsort_leb (cell r1 c) (cell r2 c))
                          (rows df))).
Proof.
  unfold iloc, index_natsorted. rewrite length_map, combine_map_r.
  rewrite (@stable_sort_map (nat * Row) (nat * string)
             (fun p => (fst p, cell (snd p) c))
             (fun a b => natsort_leb (cell (snd a) c) (cell (snd b) c))
             (fun a b => natsort_leb (snd a) (snd b)))
    by reflexivity.
  rewrite map_map. cbn [fst].
  rewrite (@take_rows_pairs (rows df)).
  - cbn [bind]. do 2 f_equal.
    rewrite <- (@stable_sort_map (nat * Row) Row snd
                  (fun a b => natsort_leb (cell (snd a) c) (cell (snd b) c))
                  (fun r1 r2 => natsort_leb (cell r1 c) (cell r2 c)))
      by reflexivity.
    now rewrite combine_seq_snd.
  - apply Forall_forall. intros [i r] Hin. apply stable_sort_In in Hin.
    apply combine_seq_In in Hin. destruct Hin as [_ Hn].
    rewrite Nat.sub_0_r in Hn. exact Hn.
Qed.

Lemma natsort_leb_refl (a : string) : natsort_leb a a = true.
Proof.
  destruct (natsort_leb_total a a); assumption.
Qed.

Section EmissionStable.
Variable config : Config.

Lemma emission_groups_stable (input_df : DataFrame)
      (groups : list (string * DataFrame)) :
  emission_groups config input_df = Ok groups ->
  exists id_col chrom,
    info_columns config "AnnotSV_ID" = Ok (JStr id_col)
    /\ vcf_columns config "#CHROM" = Ok (JStr chrom)
    /\ groups
       = map (fun g => (fst g, mkDF (columns input_df) (snd g)))
             (groups_of id_col
                (stable_sort (fun r1 r2 => natsort_leb (cell r1 chrom) (cell r2 chrom))
                             (rows input_df))).
Proof.
  unfold emission_groups. intros H.
  destruct (info_columns config "AnnotSV_ID") as [id|e]; [|discriminate].
  destruct (vcf_columns config "#CHROM") as [[chrom|l|o]|e]; try discriminate.
  simpl in H. unfold column_values in H.
  destruct (has_column input_df chrom); [|discriminate]. simpl in H.
  rewrite iloc_index_natsorted_stable in H. simpl in H.
  destruct id as [id|l|o]; try discriminate. simpl in H.
  match type of H with
  | groupby false ?d id = _ => destruct (has_column d id) eqn:Hc
  end.
  - rewrite (groupby_false_groups _ _ Hc) in H. apply Ok_inj in H. subst groups.
    exists id, chrom. auto.
  - unfold groupby in H. rewrite Hc in H. discriminate.
Qed.

(** X13.  The natural sort of the emission is stable.  A variant whose rows all
    name one chromosome is emitted with its rows in the order of the
    table: its first row, from which the main columns and the FORMAT and
    sample columns of its line are read, is its first row in the table. *)
Theorem emitted_group_keeps_table_order
        (input_df : DataFrame) (groups : list (string * DataFrame))
        (g : string * DataFrame) (id_col chrom v : string) :
  emission_groups config input_df = Ok groups ->
  info_columns config "AnnotSV_ID" = Ok (JStr id_col) ->
  vcf_columns config "#CHROM" = Ok (JStr chrom) ->
  In g groups ->
  (forall r, In r (rows input_df) -> cell r id_col = fst g -> cell r chrom = v) ->
  columns (snd g) = columns input_df
  /\ rows (snd g) = filter (fun r => cell r id_col =? fst g) (rows input_df).
Proof.
  intros Hg Hid Hchrom Hin Hone.
  destruct (emission_groups_stable _ Hg) as [id [c [Hid' [Hc' ->]]]].
  rewrite Hid in Hid'. apply Ok_inj in Hid'. injection Hid' as <-.
  rewrite Hchrom in Hc'. apply Ok_inj in Hc'. injection Hc' as <-.
  apply in_map_iff in Hin. destruct Hin as [g' [<- Hin]].
  apply groups_of_rows in Hin. destruct Hin as [Hrows _].
  cbn [fst snd columns rows]. split; [reflexivity|].
  rewrite Hrows. apply stable_sort_filter.
  intros x y Hx Hy Hpx Hpy. apply String.eqb_eq in Hpx, Hpy.
  rewrite (Hone x Hx Hpx), (Hone y Hy Hpy). apply natsort_leb_refl.
Qed.

End EmissionStable.

(** The table of two variants: V1, on chr10, is emitted after V2, with
    its full row before its split row, as in the table. *)
Lemma emitted_group_keeps_table_order_witness :
  exists groups g,
    emission_groups config_bed (reset_index table_two_chromosomes) = Ok groups
    /\ In g groups
    /\ fst g = "V1"
    /\ columns (snd g) = columns (reset_index table_two_chromosomes)
    /\ rows (snd g)
       = filter (fun r => cell r "AnnotSV_ID" =? fst g)
                (rows (reset_index table_two_chromosomes)).
Proof.
  eexists. eexists. split; [vm_compute; reflexivity|].
  split; [right; left; reflexivity|]. split; [reflexivity|].
  eapply (@emitted_group_keeps_table_order config_bed
            (reset_index table_two_chromosomes) _ _ "AnnotSV_ID" "SV_chrom" "chr10").
  - vm_compute. reflexivity.
  - reflexivity.
  - reflexivity.
  - right. left. reflexivity.
  - intros r Hr. vm_compute in Hr.
    destruct Hr as [<-|[<-|[<-|[]]]]; vm_compute; intros H;
      try reflexivity; discriminate.
Defined.

(** ** The FILTER column of the lines *)

Lemma set_column_keeps_value (df : DataFrame) (k w c v : string) :
  k <> c ->
  (forall r, In r (rows df) -> cell r c = v) ->
  forall r, In r (rows (set_column df k w)) -> cell r c = v.
Proof.
  intros Hk H r Hr. cbn [rows set_column] in Hr. apply in_map_iff in Hr.
  destruct Hr as [r0 [<- Hr0]]. cbn [cell].
  destruct (String.eqb_spec c k) as [->|_]; [congruence | now apply H].
Qed.

Section FilterPass.
Variable is_helper_func : json -> result bool.
Variable config : Config.

Lemma fill_column_keeps_value (helper : string -> result helper_func)
      (df df' : DataFrame) (item : string * json) (c v : string) :
  fst item <> c ->
  (forall r, In r (rows df) -> cell r c = v) ->
  fill_column is_helper_func helper df item = Ok df' ->
  forall r, In r (rows df') -> cell r c = v.
Proof.
  intros Hk Hdf H. unfold fill_column in H.
  destruct (fst item =? "INFO").
  - destruct (snd item) as [s|l|o]; try discriminate.
    destruct (for_each _ o tt); [|discriminate]. cbn [bind] in H.
    apply Ok_inj in H. now subst.
  - destruct (_ && _).
    + apply Ok_inj in H. subst. now apply set_column_keeps_value.
    + destruct (is_helper_func (snd item)) as [[|]|e]; try discriminate;
        cbn [bind] in H.
      * destruct (item_1 (snd item)); [|discriminate]. cbn [bind] in H.
        destruct (helper _); [|discriminate]. cbn [bind] in H.
        destruct (slice_2 (snd item)); [|discriminate]. cbn [bind] in H.
        destruct (for_each _ _ []); [|discriminate]. cbn [bind] in H.
        destruct (_ _) as [w|e] in H; [|discriminate]. cbn [bind] in H.
        apply Ok_inj in H. subst. now apply set_column_keeps_value.
      * apply Ok_inj in H. now subst.
Qed.

Lemma fill_columns_pass (helper : string -> result helper_func) (df df' : DataFrame) :
  NoDup (dict_keys (VCF_COLUMNS config)) ->
  vcf_columns config "FILTER" = Ok (JStr "") ->
  for_each (fill_column is_helper_func helper) (VCF_COLUMNS config) df = Ok df' ->
  forall r, In r (rows df') -> cell r "FILTER" = "PASS".
Proof.
  intros Hnd Hf H. unfold vcf_columns, dict_item in Hf.
  destruct (dict_get (VCF_COLUMNS config) "FILTER") as [v|] eqn:Hget; [|discriminate].
  apply Ok_inj in Hf. subst v. apply dict_get_In, in_split in Hget.
  destruct Hget as [pre [post Hsplit]]. rewrite Hsplit in H, Hnd.
  unfold dict_keys in Hnd. rewrite map_app in Hnd. cbn [map fst] in Hnd.
  apply NoDup_remove_2 in Hnd.
  rewrite for_each_app in H.
  destruct (for_each _ pre df) as [df1|e]; [|discriminate]. cbn [bind for_each] in H.
  unfold fill_column at 1 in H. cbn in H.
  revert H.
  apply (for_each_invariant
           (fun d : DataFrame => forall r, In r (rows d) -> cell r "FILTER" = "PASS")).
  - intros acc x acc' Hx Hacc Hbody. eapply fill_column_keeps_value; eauto.
    intros Heq. apply Hnd, in_app_iff. right. rewrite <- Heq. now apply in_map.
  - intros r Hr. cbn [rows set_column] in Hr. apply in_map_iff in Hr.
    destruct Hr as [r0 [<- _]]. reflexivity.
Qed.

(** X14.  A configuration that gives the FILTER role no column: the emission
    writes PASS in every position of the main columns that names the
    column FILTER, whatever the table holds there. *)
Theorem unmapped_filter_is_written_as_pass
        (helper : string -> result helper_func)
        (sample_list main_vcf_cols : list string) (info_dic : dict (dict string))
        (g : string * DataFrame) (line : string) :
  NoDup (dict_keys (VCF_COLUMNS config)) ->
  vcf_columns config "FILTER" = Ok (JStr "") ->
  emit_group is_helper_func config helper sample_list main_vcf_cols info_dic g
  = (Ok tt, line) ->
  exists main rest,
    line = (join tab main ++ tab ++ rest)%string
    /\ List.length main = List.length main_vcf_cols
    /\ forall i, nth_error main_vcf_cols i = Some "FILTER" ->
                 nth_error main i = Some "PASS".
Proof.
  intros Hnd Hf. unfold emit_group.
  destruct (for_each _ (VCF_COLUMNS config) (snd g)) as [dfv|e] eqn:Hfill;
    [|discriminate].
  destruct (first_row_values dfv main_vcf_cols) as [main|e] eqn:Hm; [|discriminate].
  destruct (dict_item info_dic (fst g)) as [annots|e]; [|discriminate].
  destruct (sample_columns config dfv sample_list) as [sc|e]; [|discriminate].
  intros H. inversion H; subst line. clear H.
  destruct (first_row_values_inv _ _ Hm) as [r [rest' [Hrows ->]]].
  exists (map (cell r) main_vcf_cols), (info_field annots ++ tab ++ sc ++ newline)%string.
  split; [now rewrite !string_app_assoc|]. split; [apply length_map|].
  intros i Hi. rewrite nth_error_map, Hi. cbn [option_map]. f_equal.
  apply (fill_columns_pass _ _ Hnd Hf Hfill). rewrite Hrows. now left.
Qed.

End FilterPass.

(** A variant of a BED table: its FILTER cell holds ".", its line PASS. *)
Lemma unmapped_filter_is_written_as_pass_witness :
  exists line,
    emit_group is_helper_func_model config_bed
               (fun name => Raise (OtherError name)) ["S1"]
               ["SV_chrom"; "SV_start"; "ID"; "REF"; "ALT"; "QUAL"; "FILTER"]
               [("V1", [("SV_type", "DEL")])] ("V1", group_with_main_columns)
    = (Ok tt, line)
    /\ exists main rest,
        line = (join tab main ++ tab ++ rest)%string
        /\ List.length main
           = List.length ["SV_chrom"; "SV_start"; "ID"; "REF"; "ALT"; "QUAL"; "FILTER"]
        /\ forall i,
             nth_error ["SV_chrom"; "SV_start"; "ID"; "REF"; "ALT"; "QUAL"; "FILTER"] i
             = Some "FILTER" ->
             nth_error main i = Some "PASS".
Proof.
  eexists. split; [vm_compute; reflexivity|].
  eapply (@unmapped_filter_is_written_as_pass is_helper_func_model config_bed
            (fun name => Raise (OtherError name)) ["S1"]
            ["SV_chrom"; "SV_start"; "ID"; "REF"; "ALT"; "QUAL"; "FILTER"]
            [("V1", [("SV_type", "DEL")])] ("V1", group_with_main_columns)).
  - vm_compute. repeat constructor; simpl; intuition discriminate.
  - reflexivity.
  - vm_compute. reflexivity.
Defined.

(** ** Helper functions on the INFO roles *)

Lemma for_each_raises {A S : Type} (body : S -> A -> result S) (l : list A) (x : A) :
  In x l -> (forall acc, exists e, body acc x = Raise e) ->
  forall acc, exists e, for_each body l acc = Raise e.
Proof.
  intros Hin Hx. induction l as [|y l IH]; [destruct Hin|]. intros acc. simpl.
  destruct Hin as [->|Hin].
  - destruct (Hx acc) as [e ->]. now exists e.
  - destruct (body acc y) as [acc'|e]; [apply (IH Hin) | now exists e].
Qed.

Section InfoHelper.
Variable remove_decimal_or_strip : string -> string.
Variable is_helper_func : json -> result bool.
Variable HelperFunctions : Config -> result (string -> result helper_func).
Variable create_vcf_header : string -> Config -> list string -> result (list string).
Variable read_csv_sorted : Config -> string -> result DataFrame.
Variable config : Config.

Lemma emit_group_info_helper (helper : string -> result helper_func)
      (sample_list main_vcf_cols : list string) (info_dic : dict (dict string))
      (g : string * DataFrame) (o : dict json) (role : string) (v : json) :
  In ("INFO", JObj o) (VCF_COLUMNS config) ->
  In (role, v) o ->
  is_helper_func v = Ok true ->
  exists e,
    emit_group is_helper_func config helper sample_list main_vcf_cols info_dic g
    = (Raise e, "").
Proof.
  intros Hinfo Hrole Hv. unfold emit_group.
  destruct (@for_each_raises _ _ (fill_column is_helper_func helper)
              (VCF_COLUMNS config) ("INFO", JObj o) Hinfo) with (acc := snd g)
    as [e He].
  - intros acc. unfold fill_column. cbn [fst snd]. rewrite String.eqb_refl.
    destruct (@for_each_raises _ _
                (fun (_ : unit) (info_col : string * json) =>
                   b <- is_helper_func (snd info_col) ;;
                   if b : bool then Raise (ValueError msg_info_helper) else Ok tt)
                o (role, v) Hrole) with (acc := tt) as [e He].
    + intros []. cbn [snd]. rewrite Hv. cbn [bind]. now eexists.
    + rewrite He. now exists e.
  - rewrite He. now exists e.
Qed.

(** X15.  The patterns of the helper functions are looked for on the roles of
    INFO in the loop over the variants, after the header was written.  A
    configuration with such a pattern converts no table that has a row:
    the conversion raises, and an output file that was opened holds
    nothing or the header and no line of a variant. *)
Theorem info_helper_function_writes_no_line
        (tsv : string) (loaded : DataFrame) (o : dict json) (role : string)
        (v : json) (res : result unit) (out : option string) :
  read_csv_sorted config tsv = Ok loaded ->
  rows loaded <> [] ->
  In ("INFO", JObj o) (VCF_COLUMNS config) ->
  In (role, v) o ->
  is_helper_func v = Ok true ->
  convert remove_decimal_or_strip is_helper_func HelperFunctions
          create_vcf_header read_csv_sorted config tsv = (res, out) ->
  (exists e, res = Raise e)
  /\ forall content,
       out = Some content ->
       content = ""
       \/ exists sample_list vcf_header,
            create_vcf_header tsv config sample_list = Ok vcf_header
            /\ content = header_text vcf_header.
Proof.
  intros Hread Hrows Hinfo Hrole Hv. unfold convert.
  destruct (prepare _ _ _ _ _) as [p|e] eqn:Hp.
  2:{ intros H. inversion H. split; [now exists e | discriminate]. }
  destruct (create_vcf_header tsv config (p_sample_list p)) as [hdr|e] eqn:Hh.
  2:{ intros H. inversion H. split; [now exists e|].
      intros content Hc. inversion Hc. now left. }
  destruct (emission_groups config (p_input_df p)) as [groups|e] eqn:Hg.
  2:{ intros H. inversion H. split; [now exists e|].
      intros content Hc. inversion Hc. right. now exists (p_sample_list p), hdr. }
  destruct (@prepare_inv remove_decimal_or_strip HelperFunctions read_csv_sorted
              config tsv p Hp)
    as [loaded' [main [warns [Hread' [_ [Hm [_ [Hdf _]]]]]]]].
  rewrite Hread in Hread'. apply Ok_inj in Hread'. subst loaded'.
  destruct (emission_groups_inv _ _ Hg) as [id [chrom [rs [_ [_ [Hperm [_ ->]]]]]]].
  destruct rs as [|r rs].
  { exfalso. apply Permutation_nil in Hperm. rewrite Hdf in Hperm.
    apply (@get_main_vcf_cols_no_rows config (reset_index loaded) main Hm) in Hperm.
    cbn [rows reset_index] in Hperm. destruct (rows loaded); [now apply Hrows|].
    discriminate. }
  rewrite groups_of_cons. cbn [map emit_groups].
  match goal with
  | |- context [emit_group ?f ?c ?h ?s ?m ?d ?g] =>
      destruct (@emit_group_info_helper h s m d g o role v Hinfo Hrole Hv) as [e He]
  end.
  rewrite He. intros H. inversion H. split; [now exists e|].
  intros content Hc. inversion Hc. right. exists (p_sample_list p), hdr.
  split; [exact Hh | apply string_app_nil_r].
Qed.

End InfoHelper.

(** A helper function for the role SV_length of INFO: the file gets the
    header only. *)
Lemma info_helper_function_writes_no_line_witness :
  exists res out,
    convert remove_decimal_or_strip_model is_helper_func_model
            no_helper_functions fixed_header
            (table_reader table_one_variant) config_info_helper "in.tsv"
    = (res, out)
    /\ (exists e, res = Raise e)
    /\ forall content,
         out = Some content ->
         content = ""
         \/ exists sample_list vcf_header,
              fixed_header "in.tsv" config_info_helper sample_list = Ok vcf_header
              /\ content = header_text vcf_header.
Proof.
  eexists. eexists. split; [vm_compute; reflexivity|].
  apply (@info_helper_function_writes_no_line
           remove_decimal_or_strip_model is_helper_func_model no_helper_functions
           fixed_header (table_reader table_one_variant) config_info_helper
           "in.tsv" table_one_variant info_roles_helper "SV_length"
           (JList ["HELPER_FUNCTION"; "get_length"; "SV_start"])).
  - reflexivity.
  - vm_compute. discriminate.
  - vm_compute. auto 20.
  - vm_compute. auto 20.
  - reflexivity.
  - vm_compute. reflexivity.
Defined.
